(** * mysmtpd.c: the SMTP protocol engine

    A shallow embedding of [src/mysmtpd.c]: the per-connection
    [smtp_state], the command handlers [do_helo] ... [do_vrfy], the DATA
    accumulator inside [do_data] and the command loop of [handle_client].

    Conventions.
    - [size_t] is 64 bits wide; [to_size_t] is the conversion of a C
      integer to it (reduction modulo 2^64).
    - [recvbuf] is the array [char recvbuf[MAX_LINE_LENGTH + 1]].  The
      model keeps its initialised prefix as a [list ascii]; an access
      outside the array, or to a cell never written, is a [fault].
    - C strings are [string]s; [cstr] reads the C string stored at the
      start of a byte buffer (the bytes before the first NUL).
    - Every call of [send_formatted] is recorded in [sent]; whether the
      k-th call succeeds is decided by the oracle [send_ok].
    - The lines delivered by [nb_read_line] are the input of the model. *)

From Stdlib Require Import ZArith List String Ascii Bool Lia.
Import ListNotations.
Open Scope string_scope.
Open Scope Z_scope.

(** ** Characters and C strings *)

Definition NUL : ascii := Ascii.ascii_of_nat 0.
Definition HT : ascii := Ascii.ascii_of_nat 9.
Definition LF : ascii := Ascii.ascii_of_nat 10.
Definition VT : ascii := Ascii.ascii_of_nat 11.
Definition FF : ascii := Ascii.ascii_of_nat 12.
Definition CR : ascii := Ascii.ascii_of_nat 13.
Definition SP : ascii := Ascii.ascii_of_nat 32.

Definition CRLF : string := String CR (String LF EmptyString).

(** [isspace] of <ctype.h> in the C locale. *)
Definition isspace (c : ascii) : bool :=
  let n := Ascii.nat_of_ascii c in
  (Nat.eqb n 32 || (Nat.leb 9 n && Nat.leb n 13))%bool.

(** [tolower] of <ctype.h> in the C locale. *)
Definition tolower (c : ascii) : ascii :=
  let n := Ascii.nat_of_ascii c in
  if (Nat.leb 65 n && Nat.leb n 90)%bool then Ascii.ascii_of_nat (n + 32) else c.

(** [strcasecmp(a, b) == 0]. *)
Fixpoint strcasecmp (a b : string) : bool :=
  match a, b with
  | EmptyString, EmptyString => true
  | String x a', String y b' =>
      if Ascii.eqb (tolower x) (tolower y) then strcasecmp a' b' else false
  | _, _ => false
  end.

(** [strncasecmp(a, b, n) == 0]: at most [n] characters are compared, and
    the comparison stops at the end of both strings. *)
Fixpoint strncasecmp (a b : string) (n : nat) {struct n} : bool :=
  match n with
  | O => true
  | S n' =>
      match a, b with
      | EmptyString, EmptyString => true
      | String x a', String y b' =>
          if Ascii.eqb (tolower x) (tolower y) then strncasecmp a' b' n' else false
      | _, _ => false
      end
  end.

(** The C string stored at the start of a byte buffer. *)
Fixpoint cstr (m : list ascii) : string :=
  match m with
  | [] => EmptyString
  | c :: m' => if Ascii.eqb c NUL then EmptyString else String c (cstr m')
  end.

Definition strlen (s : string) : Z := Z.of_nat (String.length s).

(** [strncpy(dst, src + off, n); dst[n] = 0] read back as a C string. *)
Definition strncpy_from (src : string) (off n : nat) : string :=
  String.substring off n src.

(** ** Machine integers and the receive buffer *)

Definition MAX_LINE_LENGTH : Z := 1024.

Definition SIZE_MODULUS : Z := 2 ^ 64.

Definition to_size_t (z : Z) : Z := z mod SIZE_MODULUS.

Inductive fault : Type :=
| OutOfBounds (i : Z)     (* recvbuf[i] with i outside 0 .. MAX_LINE_LENGTH *)
| Indeterminate (i : Z)   (* recvbuf[i] inside the array, never written *)
| NoSuchWord (i : nat)    (* words[i] with i >= nwords *)
| NegativeLength (n : Z). (* an interior slice of negative length *)

(** [recvbuf[i]] for an index [i] of type [size_t]. *)
Definition read_recvbuf (buf : list ascii) (i : Z) : fault + ascii :=
  if ((0 <=? i) && (i <=? MAX_LINE_LENGTH))%bool then
    match nth_error buf (Z.to_nat i) with
    | Some c => inr c
    | None => inl (Indeterminate i)
    end
  else inl (OutOfBounds i).

(** [recvbuf[i] = c] for an index that was just read. *)
Fixpoint write_recvbuf (buf : list ascii) (i : nat) (c : ascii) : list ascii :=
  match buf, i with
  | [], _ => []
  | _ :: buf', O => c :: buf'
  | x :: buf', S i' => x :: write_recvbuf buf' i' c
  end.

(** The loop
      [while (isspace(ms->recvbuf[len - 1])) ms->recvbuf[--len] = 0;]
    with [len] held as the natural number [n]: every round reads
    [recvbuf[len - 1]], the subtraction being done in [size_t]. *)
Fixpoint strip_loop (n : nat) (buf : list ascii) : fault + (list ascii * Z) :=
  let len := Z.of_nat n in
  match read_recvbuf buf (to_size_t (len - 1)) with
  | inl f => inl f
  | inr c =>
      if isspace c then
        match n with
        | S m => strip_loop m (write_recvbuf buf m NUL)
        | O => inl (OutOfBounds (to_size_t (len - 1)))
        end
      else inr (buf, len)
  end.

(** The same loop entered with an arbitrary [size_t] value of [len]. *)
Definition strip_trailing (buf : list ascii) (len : Z) : fault + (list ascii * Z) :=
  if len <=? MAX_LINE_LENGTH + 1 then strip_loop (Z.to_nat len) buf
  else inl (OutOfBounds (to_size_t (len - 1))).

(** ** Collaborators declared in headers that are not part of [src/] *)

(** Modelled from the spec: [user_list_t] of mailuser.h, which is not in
    [src/].  The spec describes the recipients as an ordered sequence in
    insertion order with duplicates kept; the NULL pointer is the empty
    list. *)
Definition user_list_t : Type := list string.

(** Modelled from the spec: [user_list_create] of mailuser.h, which is not
    in [src/]; buffers are allocated empty. *)
Definition user_list_create : user_list_t := [].

(** Modelled from the spec: [user_list_add] of mailuser.h, which is not in
    [src/]; recipients are kept in insertion order, duplicates included. *)
Definition user_list_add (l : user_list_t) (u : string) : user_list_t := (l ++ [u])%list.

(** The pointer tests [if (ms->..._buffer)] and [if (!ms->..._buffer)]. *)
Definition is_null (l : user_list_t) : bool :=
  match l with [] => true | _ => false end.

(** The word collected so far, if there is one. *)
Definition flush_word (w : string) : list string :=
  match w with EmptyString => [] | _ => [w] end.

(** Modelled from the spec: the scan behind [split] of util.h, which is
    not in [src/]; words are the maximal runs of bytes that are not white
    space. *)
Fixpoint split_from (w : string) (s : string) : list string :=
  match s with
  | EmptyString => flush_word w
  | String c s' =>
      if isspace c then (flush_word w ++ split_from EmptyString s')%list
      else split_from (w ++ String c EmptyString) s'
  end.

(** Modelled from the spec: [split] of util.h, which is not in [src/].
    The line is split on white space into its ordered sequence of words;
    the C function returns their number and stores them in [words]. *)
Definition split (line : string) : list string := split_from EmptyString line.

(** Modelled from the spec: what one call of [nb_read_line] of netbuffer.h,
    which is not in [src/], meets.  The Line Reader yields either the
    bytes of a line or the end of the stream or a failure; [r] is the C
    [int] the call returns then. *)
Inductive read_event : Type :=
| Line (bytes : list ascii)
| Fail (r : Z).

(** Modelled from the spec: [nb_read_line] of netbuffer.h, which is not in
    [src/].  A line is stored in [recvbuf] with its terminating NUL and
    its length is returned; a failure returns [r] and leaves [recvbuf]
    alone. *)
Definition nb_read_line (ev : read_event) (buf : list ascii) : Z * list ascii :=
  match ev with
  | Line bytes =>
      (Z.of_nat (List.length bytes),
       (bytes ++ NUL :: skipn (S (List.length bytes)) buf)%list)
  | Fail r => (r, buf)
  end.

(** ** The session *)

Inductive State : Type :=
| Init
| Executed_Helo
| Mail_transaction_open
| Recipient_provided
| Data_input
| Data_input_done.

Definition State_eqb (a b : State) : bool :=
  match a, b with
  | Init, Init
  | Executed_Helo, Executed_Helo
  | Mail_transaction_open, Mail_transaction_open
  | Recipient_provided, Recipient_provided
  | Data_input, Data_input
  | Data_input_done, Data_input_done => true
  | _, _ => false
  end.

(** [struct smtp_state].  [fd], [nb] and [my_uname] are handles of the
    collaborators; [nwords] is the length of [words].  [sent] lists the
    messages passed to [send_formatted], oldest first, and [mailstore] the
    [(file contents, recipients)] pairs passed to [save_user_mail]. *)
Record smtp_state : Type := mk_smtp_state {
  recvbuf : list ascii;
  words : list string;
  state : State;
  reverse_path_buffer : user_list_t;
  forward_path_buffer : user_list_t;
  mail_data_buffer : option string;
  sent : list string;
  mailstore : list (string * user_list_t)
}.

Definition nwords (ms : smtp_state) : Z := Z.of_nat (List.length (words ms)).

Definition set_recvbuf (b : list ascii) (ms : smtp_state) : smtp_state :=
  mk_smtp_state b (words ms) (state ms) (reverse_path_buffer ms)
    (forward_path_buffer ms) (mail_data_buffer ms) (sent ms) (mailstore ms).

Definition set_words (w : list string) (ms : smtp_state) : smtp_state :=
  mk_smtp_state (recvbuf ms) w (state ms) (reverse_path_buffer ms)
    (forward_path_buffer ms) (mail_data_buffer ms) (sent ms) (mailstore ms).

Definition set_state (st : State) (ms : smtp_state) : smtp_state :=
  mk_smtp_state (recvbuf ms) (words ms) st (reverse_path_buffer ms)
    (forward_path_buffer ms) (mail_data_buffer ms) (sent ms) (mailstore ms).

Definition set_reverse_path_buffer (l : user_list_t) (ms : smtp_state) : smtp_state :=
  mk_smtp_state (recvbuf ms) (words ms) (state ms) l
    (forward_path_buffer ms) (mail_data_buffer ms) (sent ms) (mailstore ms).

Definition set_forward_path_buffer (l : user_list_t) (ms : smtp_state) : smtp_state :=
  mk_smtp_state (recvbuf ms) (words ms) (state ms) (reverse_path_buffer ms)
    l (mail_data_buffer ms) (sent ms) (mailstore ms).

Definition set_mail_data_buffer (d : option string) (ms : smtp_state) : smtp_state :=
  mk_smtp_state (recvbuf ms) (words ms) (state ms) (reverse_path_buffer ms)
    (forward_path_buffer ms) d (sent ms) (mailstore ms).

Definition set_sent (o : list string) (ms : smtp_state) : smtp_state :=
  mk_smtp_state (recvbuf ms) (words ms) (state ms) (reverse_path_buffer ms)
    (forward_path_buffer ms) (mail_data_buffer ms) o (mailstore ms).

Definition set_mailstore (m : list (string * user_list_t)) (ms : smtp_state) : smtp_state :=
  mk_smtp_state (recvbuf ms) (words ms) (state ms) (reverse_path_buffer ms)
    (forward_path_buffer ms) (mail_data_buffer ms) (sent ms) m.

(** What a piece of code that may fault or wait for input ends with. *)
Inductive outcome (A : Type) : Type :=
| Ret (a : A)                        (* ran to its end *)
| Fault (f : fault) (ms : smtp_state) (* undefined access, in state [ms] *)
| Blocked (ms : smtp_state)          (* [nb_read_line] has nothing to deliver yet *)
| OutOfFuel.

Arguments Ret {A} a.
Arguments Fault {A} f ms.
Arguments Blocked {A} ms.
Arguments OutOfFuel {A}.

(** [clear_buffers]. *)
Definition clear_buffers (ms : smtp_state) : smtp_state :=
  let ms := if is_null (reverse_path_buffer ms) then ms
            else set_reverse_path_buffer [] ms in
  let ms := if is_null (forward_path_buffer ms) then ms
            else set_forward_path_buffer [] ms in
  match mail_data_buffer ms with
  | Some _ => set_mail_data_buffer None ms
  | None => ms
  end.

Section Engine.

(** Whether the k-th call of [send_formatted] on the connection succeeds. *)
Variable send_ok : nat -> bool.

(** [is_valid_user(name, NULL)] of mailuser.h: the User Directory oracle. *)
Variable is_valid_user : string -> bool.

(** [ms->my_uname.nodename]. *)
Variable nodename : string.

(** Modelled from the spec: [send_formatted] of util.h, which is not in
    [src/], called with [ms->fd] and the formatted text [msg].  It writes
    one reply; the result is the number of bytes written, or -1 when the
    write fails. *)
Definition send_formatted (ms : smtp_state) (msg : string) : Z * smtp_state :=
  ((if send_ok (List.length (sent ms)) then strlen msg else -1),
   set_sent (sent ms ++ [msg])%list ms).

Definition MSG_501_PARAMS : string :=
  "501 Syntax error in parameters or arguments" ++ CRLF.
Definition MSG_501_ARGS : string := "501 Syntax error in arguments" ++ CRLF.
Definition MSG_503_BAD : string := "503 Bad sequence of commands" ++ CRLF.
Definition MSG_503_WRONG : string := "503 Wrong sequence of commands" ++ CRLF.
Definition MSG_221 : string := "221 Service closing transmission channel." ++ CRLF.
Definition MSG_220 : string := "220 " ++ nodename ++ " Service ready" ++ CRLF.
Definition MSG_250_HELO : string := "250 " ++ nodename ++ CRLF.
Definition MSG_250_RSET : string := "250 State reset" ++ CRLF.
Definition MSG_250_MAIL : string := "250 ok (mail)" ++ CRLF.
Definition MSG_250_RCPT : string := "250 OK (rcpt)" ++ CRLF.
Definition MSG_250_DATA : string := "250 OK data done" ++ CRLF.
Definition MSG_250_NOOP : string := "250 OK (noop)" ++ CRLF.
Definition MSG_250_VRFY (u : string) : string := "250 <" ++ u ++ ">" ++ CRLF.
Definition MSG_550 (u : string) : string := "550 No such user - " ++ u ++ CRLF.
Definition MSG_354 : string :=
  "354 Start mail input; end with <CRLF>.<CRLF>" ++ CRLF.
Definition MSG_500 : string := "500 Syntax error, command unrecognized" ++ CRLF.
Definition MSG_502 : string := "502 Command not implemented" ++ CRLF.
(** The text sent after the DATA loop: ["501\n"]. *)
Definition MSG_501_BARE : string := "501" ++ String LF EmptyString.

(** [syntax_error]. *)
Definition syntax_error (ms : smtp_state) : Z * smtp_state :=
  let (n, ms) := send_formatted ms MSG_501_PARAMS in
  if n <=? 0 then (-1, ms) else (1, ms).

(** [checkstate]. *)
Definition checkstate (ms : smtp_state) (s : State) : Z * smtp_state :=
  if negb (State_eqb (state ms) s) then
    let (n, ms) := send_formatted ms MSG_503_BAD in
    if n <=? 0 then (-1, ms) else (1, ms)
  else (0, ms).

(** [do_quit]. *)
Definition do_quit (ms : smtp_state) : Z * smtp_state :=
  let (_, ms) := send_formatted ms MSG_221 in
  (-1, ms).

(** [do_helo]. *)
Definition do_helo (ms : smtp_state) : Z * smtp_state :=
  if negb (nwords ms =? 2) then
    let (_, ms) := send_formatted ms MSG_501_ARGS in (1, ms)
  else if negb (State_eqb (state ms) Init) then
    let (_, ms) := send_formatted ms MSG_503_WRONG in (1, ms)
  else
    let ms := set_state Executed_Helo ms in
    let (_, ms) := send_formatted ms MSG_250_HELO in
    let ms := set_reverse_path_buffer [] ms in
    let ms := set_forward_path_buffer [] ms in
    let ms := set_mail_data_buffer None ms in
    (0, ms).

(** [do_rset]. *)
Definition do_rset (ms : smtp_state) : Z * smtp_state :=
  if negb (nwords ms =? 1) then
    let (_, ms) := send_formatted ms MSG_501_ARGS in (1, ms)
  else
    let ms := if negb (State_eqb (state ms) Init)
              then set_state Executed_Helo (clear_buffers ms)
              else ms in
    let (_, ms) := send_formatted ms MSG_250_RSET in
    (1, ms).

(** [ms->words[1][strlen(ms->words[1]) - 1] != '>'], evaluated only after
    the prefix test of the same condition has passed. *)
Definition last_char_differs (w : string) (c : ascii) : bool :=
  match String.get (String.length w - 1) w with
  | Some x => negb (Ascii.eqb x c)
  | None => true
  end.

(** [do_mail]. *)
Definition do_mail (ms : smtp_state) : outcome (Z * smtp_state) :=
  if negb (nwords ms =? 2) then
    let (_, ms) := syntax_error ms in Ret (1, ms)
  else
    match nth_error (words ms) 1 with
    | None => Fault (NoSuchWord 1) ms
    | Some w =>
        if (if negb (strncasecmp w "FROM:<" 6) then true
            else last_char_differs w ">"%char) then
          let (_, ms) := syntax_error ms in Ret (1, ms)
        else if negb (State_eqb (state ms) Executed_Helo
                      || State_eqb (state ms) Data_input_done) then
          let (_, ms) := send_formatted ms MSG_503_WRONG in Ret (1, ms)
        else
          let strlength := strlen w - 7 in
          if strlength <? 0 then Fault (NegativeLength strlength) ms
          else
            let reverse_path := strncpy_from w 6 (Z.to_nat strlength) in
            let ms := clear_buffers ms in
            let ms := if is_null (reverse_path_buffer ms)
                      then set_reverse_path_buffer user_list_create ms
                      else ms in
            let ms := set_reverse_path_buffer
                        (user_list_add (reverse_path_buffer ms) reverse_path) ms in
            let (_, ms) := send_formatted ms MSG_250_MAIL in
            let ms := set_state Mail_transaction_open ms in
            Ret (0, ms)
    end.

(** [do_rcpt]. *)
Definition do_rcpt (ms : smtp_state) : outcome (Z * smtp_state) :=
  if negb (nwords ms =? 2) then
    let (_, ms) := syntax_error ms in Ret (1, ms)
  else
    match nth_error (words ms) 1 with
    | None => Fault (NoSuchWord 1) ms
    | Some w =>
        if (if negb (strncasecmp w "TO:<" 4) then true
            else last_char_differs w ">"%char) then
          let (_, ms) := syntax_error ms in Ret (1, ms)
        else if negb (State_eqb (state ms) Mail_transaction_open
                      || State_eqb (state ms) Recipient_provided) then
          let (_, ms) := send_formatted ms MSG_503_WRONG in Ret (1, ms)
        else
          let strlength := strlen w - 5 in
          if strlength <? 0 then Fault (NegativeLength strlength) ms
          else
            let forward_path := strncpy_from w 4 (Z.to_nat strlength) in
            if is_valid_user forward_path then
              let ms := if is_null (forward_path_buffer ms)
                        then set_forward_path_buffer user_list_create ms
                        else ms in
              let ms := set_forward_path_buffer
                          (user_list_add (forward_path_buffer ms) forward_path) ms in
              let ms := set_state Recipient_provided ms in
              let (_, ms) := send_formatted ms MSG_250_RCPT in
              Ret (0, ms)
            else
              let (_, ms) := send_formatted ms (MSG_550 forward_path) in
              Ret (1, ms)
    end.

(** [do_noop]. *)
Definition do_noop (ms : smtp_state) : Z * smtp_state :=
  let (_, ms) := send_formatted ms MSG_250_NOOP in (0, ms).

(** [do_vrfy]. *)
Definition do_vrfy (ms : smtp_state) : outcome (Z * smtp_state) :=
  if negb (nwords ms =? 2) then
    let (_, ms) := syntax_error ms in Ret (1, ms)
  else
    match nth_error (words ms) 1 with
    | None => Fault (NoSuchWord 1) ms
    | Some w =>
        if is_valid_user w then
          let (_, ms) := send_formatted ms (MSG_250_VRFY w) in Ret (0, ms)
        else
          let (_, ms) := send_formatted ms (MSG_550 w) in Ret (0, ms)
    end.

(** The part of [do_data] that runs when the stripped line is ["."]: the
    temporary file receives the mail data (nothing when the buffer is
    NULL), [save_user_mail] gets it with the forward-path buffer, and the
    buffers are cleared. *)
Definition end_of_data (ms : smtp_state) : Z * smtp_state :=
  let contents := match mail_data_buffer ms with
                  | Some d => d
                  | None => EmptyString
                  end in
  let ms := set_mailstore
              (mailstore ms ++ [(contents, forward_path_buffer ms)])%list ms in
  let ms := clear_buffers ms in
  let ms := set_state Data_input_done ms in
  let (_, ms) := send_formatted ms MSG_250_DATA in
  (0, ms).

(** The part of the loop body of [do_data] after the end-of-data test:
    the stripped line in [buf] is appended to the mail data buffer, then
    CRLF. *)
Definition append_line (buf : list ascii) (ms : smtp_state) : outcome smtp_state :=
  let appended :=
    match mail_data_buffer ms with
    | None => inr (cstr buf)
    | Some d =>
        (* If first character is . we need to remove it *)
        match read_recvbuf buf 0 with
        | inl f => inl f
        | inr c =>
            if Ascii.eqb c "."%char then inr (d ++ cstr (tl buf))
            else inr (d ++ cstr buf)
        end
    end in
  match appended with
  | inl f => Fault f ms
  | inr d => Ret (set_mail_data_buffer (Some (d ++ CRLF)) ms)
  end.

(** The [while] loop of [do_data].  [len] has type [size_t], so the value
    returned by [nb_read_line] is converted before the test [>= 0]. *)
Fixpoint data_loop (input : list read_event) (ms : smtp_state)
  : outcome (Z * smtp_state * list read_event) :=
  match input with
  | [] => Blocked ms
  | ev :: rest =>
      let (r, buf) := nb_read_line ev (recvbuf ms) in
      let ms := set_recvbuf buf ms in
      let len := to_size_t r in
      if 0 <=? len then
        if len =? 0 then data_loop rest ms
        else
          match strip_trailing (recvbuf ms) len with
          | inl f => Fault f ms
          | inr (buf, _) =>
              let ms := set_recvbuf buf ms in
              if String.eqb (cstr (recvbuf ms)) "." then
                let (n, ms) := end_of_data ms in Ret (n, ms, rest)
              else
                match append_line (recvbuf ms) ms with
                | Ret ms => data_loop rest ms
                | Fault f ms => Fault f ms
                | Blocked ms => Blocked ms
                | OutOfFuel => OutOfFuel
                end
          end
      else
        let (_, ms) := send_formatted ms MSG_501_BARE in
        Ret (1, ms, rest)
  end.

(** [do_data]. *)
Definition do_data (input : list read_event) (ms : smtp_state)
  : outcome (Z * smtp_state * list read_event) :=
  if negb (nwords ms =? 1) then
    let (_, ms) := syntax_error ms in Ret (1, ms, input)
  else if negb (State_eqb (state ms) Recipient_provided) then
    let (_, ms) := send_formatted ms MSG_503_WRONG in Ret (1, ms, input)
  else
    let ms := set_state Data_input ms in
    let (_, ms) := send_formatted ms MSG_354 in
    data_loop input ms.

(** The [if]/[else if] chain of [handle_client] on [command = words[0]].
    The result says whether the loop is left by [break]. *)
Definition without_input {A : Type} (rest : list read_event)
    (o : outcome (Z * A)) : outcome (Z * A * list read_event) :=
  match o with
  | Ret (n, a) => Ret (n, a, rest)
  | Fault f ms => Fault f ms
  | Blocked ms => Blocked ms
  | OutOfFuel => OutOfFuel
  end.

Definition run_command (command : string) (rest : list read_event)
    (ms : smtp_state) : outcome (Z * smtp_state * list read_event) :=
  if strcasecmp command "QUIT" then without_input rest (Ret (do_quit ms))
  else if (strcasecmp command "HELO" || strcasecmp command "EHLO")%bool then
    without_input rest (Ret (do_helo ms))
  else if strcasecmp command "MAIL" then without_input rest (do_mail ms)
  else if strcasecmp command "RCPT" then without_input rest (do_rcpt ms)
  else if strcasecmp command "DATA" then do_data rest ms
  else if strcasecmp command "RSET" then without_input rest (Ret (do_rset ms))
  else if strcasecmp command "NOOP" then without_input rest (Ret (do_noop ms))
  else if strcasecmp command "VRFY" then without_input rest (do_vrfy ms)
  else if (strcasecmp command "EXPN" || strcasecmp command "HELP")%bool then
    let (n, ms) := send_formatted ms MSG_502 in
    Ret ((if n <=? 0 then -1 else 0), ms, rest)
  else
    let (n, ms) := send_formatted ms MSG_500 in
    Ret ((if n <=? 0 then -1 else 0), ms, rest).

(** One round of the [while] loop of [handle_client], from the call of
    [nb_read_line] on.  [Ret (true, ms, rest)] leaves the loop. *)
Definition client_round (ev : read_event) (rest : list read_event)
    (ms : smtp_state) : outcome (bool * smtp_state * list read_event) :=
  let (r, buf) := nb_read_line ev (recvbuf ms) in
  let ms := set_recvbuf buf ms in
  let len := to_size_t r in
  if 0 <=? len then
    match read_recvbuf (recvbuf ms) (to_size_t (len - 1)) with
    | inl f => Fault f ms
    | inr c =>
        if negb (Ascii.eqb c LF) then
          let (_, ms) := send_formatted ms MSG_500 in Ret (true, ms, rest)
        else if strlen (cstr (recvbuf ms)) <? len then
          let (_, ms) := send_formatted ms MSG_500 in Ret (true, ms, rest)
        else
          match strip_trailing (recvbuf ms) len with
          | inl f => Fault f ms
          | inr (buf, _) =>
              let ms := set_recvbuf buf ms in
              let ms := set_words (split (cstr (recvbuf ms))) ms in
              match nth_error (words ms) 0 with
              | None => Fault (NoSuchWord 0) ms
              | Some command =>
                  match run_command command rest ms with
                  | Ret (n, ms, rest) => Ret (n =? -1, ms, rest)
                  | Fault f ms => Fault f ms
                  | Blocked ms => Blocked ms
                  | OutOfFuel => OutOfFuel
                  end
              end
          end
    end
  else Ret (true, ms, rest).

(** The [while] loop of [handle_client]; [Ret ms] is reached when the
    loop is left and [nb_destroy] is called. *)
Fixpoint client_loop (fuel : nat) (input : list read_event) (ms : smtp_state)
  : outcome smtp_state :=
  match fuel with
  | O => OutOfFuel
  | S fuel' =>
      match input with
      | [] => Blocked ms
      | ev :: rest =>
          match client_round ev rest ms with
          | Ret (true, ms, _) => Ret ms
          | Ret (false, ms, rest) => client_loop fuel' rest ms
          | Fault f ms => Fault f ms
          | Blocked ms => Blocked ms
          | OutOfFuel => OutOfFuel
          end
      end
  end.

(** [handle_client].  [mstate] is a local variable: its buffer fields hold
    whatever the stack held, given here as [rp0], [fp0] and [md0]. *)
Definition initial_state (rp0 fp0 : user_list_t) (md0 : option string) : smtp_state :=
  mk_smtp_state [] [] Init rp0 fp0 md0 [] [].

Definition handle_client (rp0 fp0 : user_list_t) (md0 : option string)
    (input : list read_event) : outcome smtp_state :=
  let ms := initial_state rp0 fp0 md0 in
  let (n, ms) := send_formatted ms MSG_220 in
  if n <=? 0 then Ret ms
  else client_loop (S (List.length input)) input ms.

End Engine.

(** A line of text as the Line Reader delivers it, CRLF included. *)
Definition text_line (s : string) : read_event :=
  Line (list_ascii_of_string (s ++ CRLF)).

(** The status code of a reply: its first three characters. *)
Definition reply_code (msg : string) : string := String.substring 0 3 msg.

Definition is_digit (c : ascii) : bool :=
  let n := Ascii.nat_of_ascii c in (Nat.leb 48 n && Nat.leb n 57)%bool.

Fixpoint ends_with_crlf (s : string) : bool :=
  match s with
  | EmptyString => false
  | String a EmptyString => false
  | String a (String b EmptyString) => (Ascii.eqb a CR && Ascii.eqb b LF)%bool
  | String _ s' => ends_with_crlf s'
  end.

(** The reply format of the protocol: three digits, one space, free text,
    CRLF. *)
Definition well_formed_reply (msg : string) : bool :=
  match msg with
  | String a (String b (String c (String d text))) =>
      (is_digit a && is_digit b && is_digit c && Ascii.eqb d SP
       && ends_with_crlf text)%bool
  | _ => false
  end.

(** ** The commands with a sequencing requirement *)

Inductive verb : Type := HELO | MAIL | RCPT | DATA.

(** The argument test a handler makes on entry, as one boolean. *)
Definition path_word_ok (prefix : string) (w : string) : bool :=
  (strncasecmp w prefix (String.length prefix)
   && negb (last_char_differs w ">"%char))%bool.

Definition args_ok (v : verb) (ms : smtp_state) : bool :=
  match v with
  | HELO => nwords ms =? 2
  | DATA => nwords ms =? 1
  | MAIL =>
      ((nwords ms =? 2)
       && match nth_error (words ms) 1 with
          | Some w => path_word_ok "FROM:<" w
          | None => false
          end)%bool
  | RCPT =>
      ((nwords ms =? 2)
       && match nth_error (words ms) 1 with
          | Some w => path_word_ok "TO:<" w
          | None => false
          end)%bool
  end.

(** The state test a handler makes, as one boolean: the rows of the
    transition table for these four verbs. *)
Definition state_ok (v : verb) (st : State) : bool :=
  match v, st with
  | HELO, Init => true
  | MAIL, Executed_Helo | MAIL, Data_input_done => true
  | RCPT, Mail_transaction_open | RCPT, Recipient_provided => true
  | DATA, Recipient_provided => true
  | _, _ => false
  end.

(** The 501 text each of the four handlers sends. *)
Definition syntax_reply (v : verb) : string :=
  match v with
  | HELO => MSG_501_ARGS
  | _ => MSG_501_PARAMS
  end.

(** [ms] with one more reply recorded and nothing else changed. *)
Definition replied (ms : smtp_state) (msg : string) : smtp_state :=
  set_sent (sent ms ++ [msg])%list ms.

(** A rejected command: one reply with status [code] was sent and the
    state, the three buffers and the mail store are as before. *)
Definition rejected_with (code : string) (ms ms' : smtp_state) : Prop :=
  (exists msg, sent ms' = (sent ms ++ [msg])%list /\ reply_code msg = code)
  /\ state ms' = state ms
  /\ reverse_path_buffer ms' = reverse_path_buffer ms
  /\ forward_path_buffer ms' = forward_path_buffer ms
  /\ mail_data_buffer ms' = mail_data_buffer ms
  /\ mailstore ms' = mailstore ms.

(** Which of the four handlers the chain of [strcasecmp] tests in
    [handle_client] selects for the first word [command]. *)
Definition verb_of (command : string) : option verb :=
  if strcasecmp command "QUIT" then None
  else if (strcasecmp command "HELO" || strcasecmp command "EHLO")%bool then Some HELO
  else if strcasecmp command "MAIL" then Some MAIL
  else if strcasecmp command "RCPT" then Some RCPT
  else if strcasecmp command "DATA" then Some DATA
  else None.

(** The call made for each of them. *)
Definition handler (send_ok : nat -> bool) (is_valid_user : string -> bool)
    (nodename : string) (v : verb) (input : list read_event) (ms : smtp_state)
  : outcome (Z * smtp_state * list read_event) :=
  match v with
  | HELO => without_input input (Ret (do_helo send_ok nodename ms))
  | MAIL => without_input input (do_mail send_ok ms)
  | RCPT => without_input input (do_rcpt send_ok is_valid_user ms)
  | DATA => do_data send_ok input ms
  end.

(** Sample sessions used to evaluate the handlers. *)
Definition ehlo_without_domain : smtp_state :=
  mk_smtp_state [] ["EHLO"] Executed_Helo [] [] None [] [].

Definition data_in_mail_open : smtp_state :=
  mk_smtp_state [] ["Data"] Mail_transaction_open ["a@b"] [] None [] [].

Definition data_with_argument : smtp_state :=
  mk_smtp_state [] ["DATA"; "now"] Mail_transaction_open ["a@b"] [] None [] [].

Definition mail_after_helo : smtp_state :=
  mk_smtp_state [] ["MAIL"; "from:<alice@example.org>"] Executed_Helo
    [] [] None [] [].

Definition mail_after_data : smtp_state :=
  mk_smtp_state [] ["MAIL"; "FROM:<>"] Data_input_done [] [] None [] [].

Definition rcpt_after_mail : smtp_state :=
  mk_smtp_state [] ["RCPT"; "To:<bob@example.org>"] Mail_transaction_open
    ["alice@example.org"] [] None [] [].

Definition rcpt_in_init : smtp_state :=
  mk_smtp_state [] ["RCPT"; "TO:<bob@example.org>"] Init
    ["stale"] ["stale"] (Some "stale") [] [].

Definition open_transaction : list read_event :=
  [text_line "HELO client.example.org";
   text_line "MAIL FROM:<alice@example.org>";
   text_line "RCPT TO:<bob@example.org>"].

Definition rset_with_recipient : smtp_state :=
  mk_smtp_state [] ["RSET"] Recipient_provided
    ["alice@example.org"] ["bob@example.org"] None [] [].

Definition whole_session : list read_event :=
  (open_transaction
     ++ [text_line "DATA"; text_line "Hello"; text_line "."])%list.


Definition all_users (u : string) : bool := true.
Definition all_sends (k : nat) : bool := true.

(** ** Lines as the client writes them *)

(** A line is its text followed by trailing white space (the CRLF and
    whatever blanks precede it).  The text is clean when it is not empty,
    does not end in white space and holds no NUL byte, the rest is white
    space, and the whole fits the Line Reader's limit. *)
Definition clean_line (text ws : list ascii) : Prop :=
  (exists t c, text = (t ++ [c])%list /\ isspace c = false)
  /\ ~ In NUL text
  /\ Forall (fun c => isspace c = true) ws
  /\ Z.of_nat (List.length (text ++ ws)) <= MAX_LINE_LENGTH.

(** [recvbuf] after the stripping loop has run over such a line: every
    byte of the trailing white space has been overwritten with NUL. *)
Definition stripped_recvbuf (text ws old : list ascii) : list ascii :=
  (text ++ repeat NUL (List.length ws)
     ++ NUL :: skipn (S (List.length (text ++ ws))) old)%list.

(** What a body line contributes when it is not the first one: the text
    without one leading dot. *)
Definition unstuff (text : list ascii) : list ascii :=
  match text with
  | c :: t => if Ascii.eqb c "."%char then t else text
  | [] => text
  end.

(** The mail data after the body lines [lines] (text and trailing white
    space of each), starting from the buffer [d]: the line that finds the
    buffer NULL is stored whole, every later one through [unstuff]. *)
Fixpoint accumulate (d : option string) (lines : list (list ascii * list ascii))
  : option string :=
  match lines with
  | [] => d
  | (text, _) :: lines' =>
      accumulate
        (Some (match d with
               | None => string_of_list_ascii text
               | Some d => d ++ string_of_list_ascii (unstuff text)
               end ++ CRLF)%string)
        lines'
  end.

Definition body_line (l : list ascii * list ascii) : read_event :=
  Line (fst l ++ snd l).

(** What [handle_client] makes of a handler's result: the loop is left
    when the handler returned -1. *)
Definition after_command (o : outcome (Z * smtp_state * list read_event))
  : outcome (bool * smtp_state * list read_event) :=
  match o with
  | Ret (n, ms, rest) => Ret (n =? -1, ms, rest)
  | Fault f ms => Fault f ms
  | Blocked ms => Blocked ms
  | OutOfFuel => OutOfFuel
  end.

(** The session as a command finds it after the line [text ++ ws] has
    been read, stripped and split. *)
Definition with_command_line (text ws : list ascii) (ms : smtp_state) : smtp_state :=
  set_words (split (string_of_list_ascii text))
    (set_recvbuf (stripped_recvbuf text ws (recvbuf ms)) ms).

(** The file [save_user_mail] is given: the mail data, or nothing when the
    buffer is NULL. *)
Definition file_contents (d : option string) : string :=
  match d with
  | Some d => d
  | None => EmptyString
  end.

Definition sample_body : list (list ascii * list ascii) :=
  [(list_ascii_of_string ".hidden", [CR; LF]);
   (list_ascii_of_string "..dots", [SP; CR; LF]);
   (list_ascii_of_string "text", [LF])].

Definition helo_in_init : smtp_state :=
  mk_smtp_state [] ["HELO"; "client.example.org"] Init
    ["stale"] ["stale"] (Some "stale") [] [].

Definition rcpt_second : smtp_state :=
  mk_smtp_state [] ["RCPT"; "TO:<carol@example.org>"] Recipient_provided
    ["alice@example.org"] ["bob@example.org"] None [] [].

Definition vrfy_bob : smtp_state :=
  mk_smtp_state [] ["VRFY"; "bob@example.org"] Recipient_provided
    ["alice@example.org"] ["bob@example.org"] None [] [].

Definition only_bob (u : string) : bool := String.eqb u "bob@example.org".

(** Whether the first word selects one of the handler calls of
    [handle_client]. *)
Definition has_handler (command : string) : bool :=
  (strcasecmp command "QUIT" || strcasecmp command "HELO"
   || strcasecmp command "EHLO" || strcasecmp command "MAIL"
   || strcasecmp command "RCPT" || strcasecmp command "DATA"
   || strcasecmp command "RSET" || strcasecmp command "NOOP"
   || strcasecmp command "VRFY")%bool.

Definition no_sends (k : nat) : bool := false.

Definition well_formed_replies (l : list string) : Prop :=
  Forall (fun msg => well_formed_reply msg = true) l.

(** What one round of the command loop can do to the reply trace, the
    state and the mail store: replies are appended; a state other than
    Init is not turned into Init; the mail store is left alone or, from
    Recipient_provided, gets one entry addressed to the recipients. *)
Definition command_step (ms ms' : smtp_state) : Prop :=
  (exists l, sent ms' = (sent ms ++ l)%list /\ well_formed_replies l)
  /\ (state ms' = Init -> state ms = Init)
  /\ (mailstore ms' = mailstore ms
      \/ (state ms = Recipient_provided
          /\ exists body,
               mailstore ms'
               = (mailstore ms ++ [(body, forward_path_buffer ms)])%list)).

(** What the DATA loop can do to the session it was entered with. *)
Definition data_step (ms ms' : smtp_state) : Prop :=
  (exists l, sent ms' = (sent ms ++ l)%list /\ well_formed_replies l)
  /\ state ms' <> Init
  /\ (mailstore ms' = mailstore ms
      \/ exists body,
           mailstore ms' = (mailstore ms ++ [(body, forward_path_buffer ms)])%list).

(** The reply trace and the mail store of a session that started with
    the greeting: every reply is well-formed, the greeting comes first,
    and every delivered message has a recipient. *)
Definition trace_ok (nodename : string) (ms : smtp_state) : Prop :=
  well_formed_replies (sent ms)
  /\ hd_error (sent ms) = Some (MSG_220 nodename)
  /\ Forall (fun e : string * user_list_t => snd e <> []) (mailstore ms).

(** A word as a client writes it: no white space and no NUL byte. *)
Definition plain (w : string) : Prop :=
  Forall (fun c => isspace c = false /\ c <> NUL) (list_ascii_of_string w).

(** The four command lines of a transaction with one recipient. *)
Definition transaction_commands (host sender recipient : string)
  : list read_event :=
  [text_line ("HELO " ++ host);
   text_line ("MAIL FROM:<" ++ sender ++ ">");
   text_line ("RCPT TO:<" ++ recipient ++ ">");
   text_line "DATA"].

Definition noop_text : list ascii := list_ascii_of_string "NOOP".
Definition quit_text : list ascii := list_ascii_of_string "quit now".

(** How the three buffers stand in each state.  [mstate] is a local
    variable of [handle_client], so until HELO assigns them the buffer
    fields hold what the stack held, [rp0], [fp0] and [md0]. *)
Definition buffers_consistent (rp0 fp0 : user_list_t) (md0 : option string)
    (ms : smtp_state) : Prop :=
  match state ms with
  | Init =>
      reverse_path_buffer ms = rp0 /\ forward_path_buffer ms = fp0
      /\ mail_data_buffer ms = md0
  | Executed_Helo | Data_input_done =>
      reverse_path_buffer ms = [] /\ forward_path_buffer ms = []
      /\ mail_data_buffer ms = None
  | Mail_transaction_open =>
      reverse_path_buffer ms <> [] /\ forward_path_buffer ms = []
      /\ mail_data_buffer ms = None
  | Recipient_provided =>
      reverse_path_buffer ms <> [] /\ forward_path_buffer ms <> []
      /\ mail_data_buffer ms = None
  | Data_input =>
      reverse_path_buffer ms <> [] /\ forward_path_buffer ms <> []
  end.

(** The state of the DATA phase: between the 354 reply and the end of
    data the state is Data_input and sender and recipients are kept. *)
Definition in_data_phase (ms : smtp_state) : Prop :=
  state ms = Data_input
  /\ reverse_path_buffer ms <> [] /\ forward_path_buffer ms <> [].

(** [P] holds of the value an outcome returns and [Q] of the session state
    it stops in otherwise. *)
Definition outcome_holds {A : Type} (P : A -> Prop) (Q : smtp_state -> Prop)
    (o : outcome A) : Prop :=
  match o with
  | Ret a => P a
  | Fault _ ms => Q ms
  | Blocked ms => Q ms
  | OutOfFuel => False
  end.

(** The argument word of a MAIL command is a spelling of [FROM:<], the
    path [addr] and [>]. *)
Definition mail_from_word (ms : smtp_state) (addr : string) : Prop :=
  exists c p,
    words ms = [c; (p ++ addr ++ ">")%string] /\ strcasecmp p "FROM:<" = true.

(** The session state an outcome carries, if any. *)
Definition final_state (o : outcome smtp_state) : option smtp_state :=
  match o with
  | Ret ms | Fault _ ms | Blocked ms => Some ms
  | OutOfFuel => None
  end.

(** ** Basic facts *)

Lemma State_eqb_eq (a b : State) : State_eqb a b = true <-> a = b.
Proof. destruct a, b; simpl; split; intro H; congruence. Qed.

Lemma to_size_t_nonneg (z : Z) : 0 <= to_size_t z.
Proof.
  unfold to_size_t, SIZE_MODULUS.
  apply Z.mod_pos_bound. reflexivity.
Qed.

Lemma size_t_test_always_true (z : Z) : (0 <=? to_size_t z) = true.
Proof. apply Z.leb_le, to_size_t_nonneg. Qed.

Lemma to_size_t_small (z : Z) : 0 <= z < SIZE_MODULUS -> to_size_t z = z.
Proof. intro H. unfold to_size_t. apply Z.mod_small. exact H. Qed.

Lemma to_size_t_minus_one : to_size_t (0 - 1) = SIZE_MODULUS - 1.
Proof. reflexivity. Qed.

Lemma set_recvbuf_same (ms : smtp_state) : set_recvbuf (recvbuf ms) ms = ms.
Proof. destruct ms; reflexivity. Qed.

Lemma read_recvbuf_out_of_bounds (buf : list ascii) (i : Z) :
  MAX_LINE_LENGTH < i -> read_recvbuf buf i = inl (OutOfBounds i).
Proof.
  intro H. unfold read_recvbuf.
  replace (i <=? MAX_LINE_LENGTH) with false by (symmetry; apply Z.leb_gt; exact H).
  rewrite andb_false_r. reflexivity.
Qed.

Lemma read_recvbuf_in_bounds (buf : list ascii) (i : nat) (c : ascii) :
  Z.of_nat i <= MAX_LINE_LENGTH -> nth_error buf i = Some c ->
  read_recvbuf buf (Z.of_nat i) = inr c.
Proof.
  intros Hi Hc. unfold read_recvbuf.
  replace (0 <=? Z.of_nat i) with true by (symmetry; apply Z.leb_le; lia).
  replace (Z.of_nat i <=? MAX_LINE_LENGTH) with true by (symmetry; apply Z.leb_le; lia).
  simpl. rewrite Nat2Z.id, Hc. reflexivity.
Qed.

Lemma write_recvbuf_other (buf : list ascii) (i j : nat) (c : ascii) :
  j <> i -> nth_error (write_recvbuf buf i c) j = nth_error buf j.
Proof.
  revert i j. induction buf as [|x buf IH]; intros i j Hij.
  - destruct i; reflexivity.
  - destruct i as [|i], j as [|j]; simpl; try reflexivity.
    + congruence.
    + apply IH. congruence.
Qed.

(** Entering the stripping loop with [len = n] on a buffer whose first [n]
    bytes are all white space ends in a read of [recvbuf[len - 1]] with
    [len = 0], that is of the byte below the buffer. *)
Lemma strip_loop_all_space (n : nat) :
  forall buf : list ascii,
    Z.of_nat n <= MAX_LINE_LENGTH + 1 ->
    (forall i, (i < n)%nat -> exists c, nth_error buf i = Some c /\ isspace c = true) ->
    strip_loop n buf = inl (OutOfBounds (SIZE_MODULUS - 1)).
Proof.
  induction n as [|n IH]; intros buf Hn Hsp.
  - reflexivity.
  - destruct (Hsp n (Nat.lt_succ_diag_r n)) as (c & Hc & Hc').
    cbn [strip_loop].
    replace (Z.of_nat (S n) - 1) with (Z.of_nat n) by lia.
    rewrite to_size_t_small
      by (unfold MAX_LINE_LENGTH, SIZE_MODULUS in *; lia).
    rewrite (read_recvbuf_in_bounds buf n c) by (try lia; exact Hc).
    rewrite Hc'. apply IH; [lia|].
    intros i Hi. rewrite write_recvbuf_other by lia.
    apply Hsp. lia.
Qed.

(** A byte that is not white space stops the loop with every access inside
    the line. *)
Lemma strip_loop_stops (n : nat) :
  forall buf : list ascii,
    Z.of_nat n <= MAX_LINE_LENGTH + 1 ->
    (forall i, (i < n)%nat -> exists c, nth_error buf i = Some c) ->
    (exists i c, (i < n)%nat /\ nth_error buf i = Some c /\ isspace c = false) ->
    exists buf' m, strip_loop n buf = inr (buf', Z.of_nat m) /\ (0 < m <= n)%nat.
Proof.
  induction n as [|n IH]; intros buf Hn Hdef Hns.
  - destruct Hns as (i & c & Hi & _). lia.
  - destruct (Hdef n (Nat.lt_succ_diag_r n)) as (c & Hc).
    cbn [strip_loop].
    replace (Z.of_nat (S n) - 1) with (Z.of_nat n) by lia.
    rewrite to_size_t_small
      by (unfold MAX_LINE_LENGTH, SIZE_MODULUS in *; lia).
    rewrite (read_recvbuf_in_bounds buf n c) by (try lia; exact Hc).
    destruct (isspace c) eqn:Hsp.
    + destruct (IH (write_recvbuf buf n NUL)) as (buf' & m & Hm & Hle).
      * lia.
      * intros i Hi. rewrite write_recvbuf_other by lia. apply Hdef. lia.
      * destruct Hns as (i & c' & Hi & Hc' & Hns).
        assert (i <> n) by (intro; subst i; congruence).
        exists i, c'. rewrite write_recvbuf_other by lia.
        repeat split; [lia | exact Hc' | exact Hns].
      * exists buf', m. split; [exact Hm | lia].
    + exists buf, (S n). split; [reflexivity | lia].
Qed.

Lemma strip_trailing_all_space (bytes tail : list ascii) :
  Forall (fun c => isspace c = true) bytes ->
  Z.of_nat (List.length bytes) <= MAX_LINE_LENGTH ->
  strip_trailing (bytes ++ tail) (to_size_t (Z.of_nat (List.length bytes)))
  = inl (OutOfBounds (SIZE_MODULUS - 1)).
Proof.
  intros Hsp Hlen.
  rewrite to_size_t_small by (unfold MAX_LINE_LENGTH, SIZE_MODULUS in *; lia).
  unfold strip_trailing.
  replace (Z.of_nat (List.length bytes) <=? MAX_LINE_LENGTH + 1) with true
    by (symmetry; apply Z.leb_le; lia).
  rewrite Nat2Z.id. apply strip_loop_all_space; [lia|].
  intros i Hi. rewrite nth_error_app1 by exact Hi.
  destruct (nth_error bytes i) as [c|] eqn:Hc.
  - exists c. split; [reflexivity|].
    rewrite Forall_forall in Hsp. apply Hsp.
    eapply nth_error_In; exact Hc.
  - apply nth_error_None in Hc. lia.
Qed.

Lemma isspace_not_NUL (c : ascii) : isspace c = true -> Ascii.eqb c NUL = false.
Proof.
  intro H. destruct (Ascii.eqb c NUL) eqn:E; [|reflexivity].
  apply Ascii.eqb_eq in E. subst c. discriminate H.
Qed.

Lemma cstr_spaces (bytes tail : list ascii) :
  Forall (fun c => isspace c = true) bytes ->
  strlen (cstr (bytes ++ NUL :: tail)) = Z.of_nat (List.length bytes).
Proof.
  unfold strlen. induction 1 as [|c bytes Hc _ IH]; [reflexivity|].
  cbn [app cstr]. rewrite (isspace_not_NUL c Hc).
  cbn [String.length List.length]. lia.
Qed.

(** A line of the DATA phase made of white space only (a blank line
    ["\r\n"] is one) drives the stripping loop of [do_data] below the
    start of [recvbuf]. *)
Lemma data_loop_whitespace_line
    (send_ok : nat -> bool) (bytes : list ascii)
    (rest : list read_event) (ms : smtp_state) :
  bytes <> [] ->
  Forall (fun c => isspace c = true) bytes ->
  Z.of_nat (List.length bytes) <= MAX_LINE_LENGTH ->
  data_loop send_ok (Line bytes :: rest) ms
  = Fault (OutOfBounds (SIZE_MODULUS - 1))
      (set_recvbuf (bytes ++ NUL :: skipn (S (List.length bytes)) (recvbuf ms)) ms).
Proof.
  intros Hne Hsp Hlen.
  cbn [data_loop nb_read_line].
  rewrite size_t_test_always_true.
  replace (to_size_t (Z.of_nat (List.length bytes)) =? 0) with false.
  2:{ symmetry. apply Z.eqb_neq.
      rewrite to_size_t_small by (unfold MAX_LINE_LENGTH, SIZE_MODULUS in *; lia).
      destruct bytes; [congruence | cbn [List.length]; lia]. }
  destruct ms as [rb ws st rp fp md snt store]. cbn [recvbuf set_recvbuf].
  rewrite strip_trailing_all_space by assumption.
  reflexivity.
Qed.

(** The same for a command line: the last byte must be LF for the loop to
    be reached at all. *)
Lemma client_round_whitespace_line
    (send_ok : nat -> bool) (is_valid_user : string -> bool) (nodename : string)
    (bytes : list ascii) (rest : list read_event) (ms : smtp_state) :
  Forall (fun c => isspace c = true) (bytes ++ [LF]) ->
  Z.of_nat (List.length (bytes ++ [LF])) <= MAX_LINE_LENGTH ->
  client_round send_ok is_valid_user nodename (Line (bytes ++ [LF])) rest ms
  = Fault (OutOfBounds (SIZE_MODULUS - 1))
      (set_recvbuf ((bytes ++ [LF]) ++ NUL
                      :: skipn (S (List.length (bytes ++ [LF]))) (recvbuf ms)) ms).
Proof.
  intros Hsp Hlen.
  unfold client_round. cbn [nb_read_line].
  rewrite size_t_test_always_true.
  destruct ms as [rb ws st rp fp md snt store]. cbn [recvbuf set_recvbuf].
  set (line := (bytes ++ [LF])%list) in *.
  set (tail := skipn (S (List.length line)) rb).
  assert (Hl : List.length line = S (List.length bytes))
    by (unfold line; rewrite length_app; cbn [List.length]; lia).
  rewrite (to_size_t_small (Z.of_nat (List.length line)))
    by (unfold MAX_LINE_LENGTH, SIZE_MODULUS in *; lia).
  replace (Z.of_nat (List.length line) - 1) with (Z.of_nat (List.length bytes)) by lia.
  rewrite to_size_t_small by (unfold MAX_LINE_LENGTH, SIZE_MODULUS in *; lia).
  rewrite (read_recvbuf_in_bounds _ (List.length bytes) LF).
  2:{ lia. }
  2:{ rewrite nth_error_app1 by lia. unfold line.
      rewrite nth_error_app2 by lia. rewrite Nat.sub_diag. reflexivity. }
  rewrite Ascii.eqb_refl. cbn [negb].
  rewrite cstr_spaces by assumption.
  rewrite Z.ltb_irrefl.
  rewrite <- (to_size_t_small (Z.of_nat (List.length line)))
    by (unfold MAX_LINE_LENGTH, SIZE_MODULUS in *; lia).
  rewrite strip_trailing_all_space by assumption.
  reflexivity.
Qed.

(** ** Strings *)

Lemma append_empty_r (s : string) : (s ++ EmptyString)%string = s.
Proof. induction s as [|c s IH]; [reflexivity|]. cbn [append]. now rewrite IH. Qed.

Lemma append_assoc (a b c : string) :
  ((a ++ b) ++ c)%string = (a ++ (b ++ c))%string.
Proof. induction a as [|x a IH]; [reflexivity|]. cbn [append]. now rewrite IH. Qed.

Lemma length_append (a b : string) :
  String.length (a ++ b) = (String.length a + String.length b)%nat.
Proof. induction a as [|x a IH]; [reflexivity|]. cbn [append String.length]. now rewrite IH. Qed.

Lemma strcasecmp_length (p q : string) :
  strcasecmp p q = true -> String.length p = String.length q.
Proof.
  revert q. induction p as [|x p IH]; intros [|y q] H; cbn [strcasecmp] in H;
    try discriminate H; [reflexivity|].
  destruct (Ascii.eqb (tolower x) (tolower y)); [|discriminate H].
  cbn [String.length]. f_equal. apply IH. exact H.
Qed.

(** A word that begins with a spelling of [q] passes the prefix test. *)
Lemma strncasecmp_prefix (p q r : string) :
  strcasecmp p q = true ->
  strncasecmp (p ++ r) q (String.length q) = true.
Proof.
  revert q. induction p as [|x p IH]; intros [|y q] H; cbn [strcasecmp] in H;
    try discriminate H; [reflexivity|].
  cbn [append String.length strncasecmp].
  destruct (Ascii.eqb (tolower x) (tolower y)); [|discriminate H].
  apply IH. exact H.
Qed.

(** A word that passes the prefix test begins with a spelling of [q]. *)
Lemma strncasecmp_split (q w : string) :
  strncasecmp w q (String.length q) = true ->
  exists p r, w = (p ++ r)%string /\ strcasecmp p q = true.
Proof.
  revert w. induction q as [|y q IH]; intros w H.
  - exists EmptyString, w. split; reflexivity.
  - destruct w as [|x w]; cbn [String.length strncasecmp] in H; [discriminate H|].
    destruct (Ascii.eqb (tolower x) (tolower y)) eqn:E; [|discriminate H].
    destruct (IH w H) as (p & r & -> & Hp).
    exists (String x p), r. split; [reflexivity|].
    cbn [strcasecmp]. rewrite E. exact Hp.
Qed.

Lemma last_char_snoc (s : string) (c d : ascii) :
  last_char_differs (s ++ String c EmptyString) d = negb (Ascii.eqb c d).
Proof.
  unfold last_char_differs. rewrite length_append. cbn [String.length].
  replace (String.length s + 1 - 1)%nat with (String.length s) by lia.
  induction s as [|x s IH]; [reflexivity|].
  cbn [append String.length String.get]. exact IH.
Qed.

Lemma last_char_unsnoc (w : string) (c : ascii) :
  last_char_differs w c = false -> exists w', w = (w' ++ String c EmptyString)%string.
Proof.
  unfold last_char_differs. induction w as [|x w IH]; intro H.
  - discriminate H.
  - cbn [String.length] in H.
    replace (S (String.length w) - 1)%nat with (String.length w) in H by lia.
    destruct w as [|y w].
    + cbn in H. destruct (Ascii.eqb x c) eqn:E; [|discriminate H].
      apply Ascii.eqb_eq in E. subst x. exists EmptyString. reflexivity.
    + cbn [String.length String.get] in H.
      cbn [String.length] in IH.
      replace (S (String.length w) - 1)%nat with (String.length w) in IH by lia.
      destruct (IH H) as (w' & Hw'). exists (String x w'). cbn [append].
      now rewrite <- Hw'.
Qed.

Lemma get_append (p r : string) (n : nat) :
  String.get (String.length p + n) (p ++ r) = String.get n r.
Proof.
  induction p as [|x p IH]; [reflexivity|].
  cbn [append String.length Nat.add String.get]. exact IH.
Qed.

Lemma last_char_append (p r : string) (c : ascii) :
  r <> EmptyString ->
  last_char_differs (p ++ r) c = last_char_differs r c.
Proof.
  intro Hr. destruct r as [|y r]; [congruence|]. clear Hr.
  unfold last_char_differs. rewrite length_append.
  replace (String.length p + String.length (String y r) - 1)%nat
    with (String.length p + (String.length (String y r) - 1))%nat
    by (cbn [String.length]; lia).
  rewrite get_append. reflexivity.
Qed.

Lemma substring_middle (p a r : string) :
  String.substring (String.length p) (String.length a) (p ++ a ++ r) = a.
Proof.
  induction p as [|x p IH].
  - cbn [append String.length]. induction a as [|y a IHa].
    + destruct r; reflexivity.
    + cbn [append String.length String.substring]. now rewrite IHa.
  - cbn [append String.length String.substring]. exact IH.
Qed.

(** ** The handlers, case by case *)

Lemma clear_buffers_spec (ms : smtp_state) :
  clear_buffers ms
  = mk_smtp_state (recvbuf ms) (words ms) (state ms) [] [] None
      (sent ms) (mailstore ms).
Proof.
  destruct ms as [rb ws st [|r rp] [|f fp] [d|] snt store]; reflexivity.
Qed.

Lemma nwords_two (ms : smtp_state) :
  (nwords ms =? 2) = true -> exists c w, words ms = [c; w].
Proof.
  unfold nwords. intro H. apply Z.eqb_eq in H.
  destruct (words ms) as [|c [|w [|x l]]]; cbn [List.length] in H; try lia.
  exists c, w. reflexivity.
Qed.

Lemma from_prefix_not_closed (p : string) :
  strcasecmp p "FROM:<" = true -> last_char_differs p ">"%char = true.
Proof.
  intro H.
  destruct p as [|a [|b [|c [|d [|e [|f [|g p]]]]]]]; cbn [strcasecmp] in H;
    repeat match type of H with
           | (if ?t then _ else false) = true =>
               destruct t eqn:?; [|discriminate H]
           end; try discriminate H.
  unfold last_char_differs. cbn [String.length Nat.sub String.get].
  destruct (Ascii.eqb f ">"%char) eqn:E; [|reflexivity].
  apply Ascii.eqb_eq in E. subst f. discriminate.
Qed.

Lemma to_prefix_not_closed (p : string) :
  strcasecmp p "TO:<" = true -> last_char_differs p ">"%char = true.
Proof.
  intro H.
  destruct p as [|a [|b [|c [|d [|e p]]]]]; cbn [strcasecmp] in H;
    repeat match type of H with
           | (if ?t then _ else false) = true =>
               destruct t eqn:?; [|discriminate H]
           end; try discriminate H.
  unfold last_char_differs. cbn [String.length Nat.sub String.get].
  destruct (Ascii.eqb d ">"%char) eqn:E; [|reflexivity].
  apply Ascii.eqb_eq in E. subst d. discriminate.
Qed.

(** A word accepted by a handler is a spelling of the prefix, a path and
    a closing bracket. *)
Lemma path_word_shape (q w : string) :
  (forall p, strcasecmp p q = true -> last_char_differs p ">"%char = true) ->
  path_word_ok q w = true ->
  exists p addr,
    w = (p ++ addr ++ ">")%string /\ strcasecmp p q = true.
Proof.
  intros Hq H. unfold path_word_ok in H.
  apply andb_true_iff in H. destruct H as [Hpre Hlast].
  apply negb_true_iff in Hlast.
  destruct (strncasecmp_split q w Hpre) as (p & r & -> & Hp).
  destruct r as [|y r].
  - rewrite append_empty_r in Hlast. rewrite (Hq p Hp) in Hlast. discriminate.
  - rewrite last_char_append in Hlast by discriminate.
    destruct (last_char_unsnoc _ _ Hlast) as (addr & ->).
    exists p, addr. split; [reflexivity | exact Hp].
Qed.

(** The converse, with the path the handler cuts out of the word: [off]
    is the length of the prefix and [cut] that of prefix and bracket. *)
Lemma path_word_round_trip (q p addr : string) :
  strcasecmp p q = true ->
  let w := (p ++ addr ++ ">")%string in
  path_word_ok q w = true
  /\ strlen w - (Z.of_nat (String.length q) + 1) = Z.of_nat (String.length addr)
  /\ strncpy_from w (String.length q) (String.length addr) = addr.
Proof.
  intros Hp w. subst w. split; [|split].
  - unfold path_word_ok. rewrite strncasecmp_prefix by exact Hp.
    rewrite <- append_assoc, last_char_snoc. reflexivity.
  - unfold strlen. rewrite !length_append, (strcasecmp_length p q Hp).
    cbn [String.length]. lia.
  - unfold strncpy_from. rewrite <- (strcasecmp_length p q Hp).
    apply substring_middle.
Qed.

Section Handlers.

Variable send_ok : nat -> bool.
Variable is_valid_user : string -> bool.

Lemma syntax_error_replied (ms : smtp_state) :
  exists n, syntax_error send_ok ms = (n, replied ms MSG_501_PARAMS).
Proof.
  unfold syntax_error, send_formatted, replied.
  destruct (send_ok _); destruct (_ <=? 0); eexists; reflexivity.
Qed.

Lemma send_formatted_replied (ms : smtp_state) (msg : string) :
  exists n, send_formatted send_ok ms msg = (n, replied ms msg).
Proof. unfold send_formatted, replied. eexists; reflexivity. Qed.

Lemma do_helo_syntax (nodename : string) (ms : smtp_state) :
  args_ok HELO ms = false ->
  do_helo send_ok nodename ms = (1, replied ms MSG_501_ARGS).
Proof.
  cbn [args_ok]. intro H. unfold do_helo. rewrite H. reflexivity.
Qed.

Lemma do_helo_sequence (nodename : string) (ms : smtp_state) :
  args_ok HELO ms = true -> state_ok HELO (state ms) = false ->
  do_helo send_ok nodename ms = (1, replied ms MSG_503_WRONG).
Proof.
  cbn [args_ok]. intros Ha Hs. unfold do_helo. rewrite Ha. cbn [negb].
  destruct (state ms); try discriminate Hs; reflexivity.
Qed.

Lemma do_mail_syntax (ms : smtp_state) :
  args_ok MAIL ms = false ->
  do_mail send_ok ms = Ret (1, replied ms MSG_501_PARAMS).
Proof.
  cbn [args_ok]. intro H. unfold do_mail.
  destruct (syntax_error_replied ms) as (n & Hn).
  destruct (nwords ms =? 2) eqn:Hw; cbn [negb].
  - destruct (nwords_two ms Hw) as (c & w & Hws). rewrite Hws in *.
    cbn [nth_error andb] in *. unfold path_word_ok in H.
    change (String.length "FROM:<") with 6%nat in H.
    destruct (strncasecmp w "FROM:<" 6); cbn [negb andb] in *.
    + apply negb_false_iff in H. rewrite H, Hn. reflexivity.
    + rewrite Hn. reflexivity.
  - rewrite Hn. reflexivity.
Qed.

Lemma mail_args_ok_inv (ms : smtp_state) :
  args_ok MAIL ms = true ->
  exists c w, words ms = [c; w] /\ path_word_ok "FROM:<" w = true.
Proof.
  cbn [args_ok]. intro H. apply andb_true_iff in H. destruct H as [Hw H].
  destruct (nwords_two ms Hw) as (c & w & Hws). rewrite Hws in H.
  exists c, w. split; [exact Hws | exact H].
Qed.

Lemma do_mail_sequence (ms : smtp_state) :
  args_ok MAIL ms = true -> state_ok MAIL (state ms) = false ->
  do_mail send_ok ms = Ret (1, replied ms MSG_503_WRONG).
Proof.
  intros Ha Hs. destruct (mail_args_ok_inv ms Ha) as (c & w & Hws & Hw).
  unfold do_mail, nwords. rewrite Hws. cbn [List.length Z.of_nat nth_error].
  unfold path_word_ok in Hw. apply andb_true_iff in Hw. destruct Hw as [H1 H2].
  change (String.length "FROM:<") with 6%nat in H1.
  apply negb_true_iff in H2. rewrite H1, H2. cbn.
  destruct (state ms); try discriminate Hs; reflexivity.
Qed.

Lemma do_mail_success (ms : smtp_state) (c p addr : string) :
  words ms = [c; (p ++ addr ++ ">")%string] ->
  strcasecmp p "FROM:<" = true ->
  state_ok MAIL (state ms) = true ->
  do_mail send_ok ms
  = Ret (0, mk_smtp_state (recvbuf ms) (words ms) Mail_transaction_open
              [addr] [] None (sent ms ++ [MSG_250_MAIL])%list (mailstore ms)).
Proof.
  intros Hws Hp Hs.
  destruct (path_word_round_trip "FROM:<" p addr Hp) as (Hok & Hlen & Hcut).
  change (Z.of_nat (String.length "FROM:<") + 1) with 7 in Hlen.
  change (String.length "FROM:<") with 6%nat in Hcut.
  unfold path_word_ok in Hok. apply andb_true_iff in Hok. destruct Hok as [H1 H2].
  change (String.length "FROM:<") with 6%nat in H1.
  apply negb_true_iff in H2.
  unfold do_mail, nwords. rewrite Hws. cbn [List.length Z.of_nat nth_error].
  rewrite H1, H2, Hlen, Nat2Z.id, Hcut.
  replace (Z.of_nat (String.length addr) <? 0) with false
    by (symmetry; apply Z.ltb_ge; lia).
  rewrite clear_buffers_spec.
  destruct ms as [rb ws st rp fp md snt store]. cbn in Hws, Hs |- *.
  subst ws. destruct st; try discriminate Hs; reflexivity.
Qed.

Lemma do_rcpt_syntax (ms : smtp_state) :
  args_ok RCPT ms = false ->
  do_rcpt send_ok is_valid_user ms = Ret (1, replied ms MSG_501_PARAMS).
Proof.
  cbn [args_ok]. intro H. unfold do_rcpt.
  destruct (syntax_error_replied ms) as (n & Hn).
  destruct (nwords ms =? 2) eqn:Hw; cbn [negb].
  - destruct (nwords_two ms Hw) as (c & w & Hws). rewrite Hws in *.
    cbn [nth_error andb] in *. unfold path_word_ok in H.
    change (String.length "TO:<") with 4%nat in H.
    destruct (strncasecmp w "TO:<" 4); cbn [negb andb] in *.
    + apply negb_false_iff in H. rewrite H, Hn. reflexivity.
    + rewrite Hn. reflexivity.
  - rewrite Hn. reflexivity.
Qed.

Lemma rcpt_args_ok_inv (ms : smtp_state) :
  args_ok RCPT ms = true ->
  exists c w, words ms = [c; w] /\ path_word_ok "TO:<" w = true.
Proof.
  cbn [args_ok]. intro H. apply andb_true_iff in H. destruct H as [Hw H].
  destruct (nwords_two ms Hw) as (c & w & Hws). rewrite Hws in H.
  exists c, w. split; [exact Hws | exact H].
Qed.

Lemma do_rcpt_sequence (ms : smtp_state) :
  args_ok RCPT ms = true -> state_ok RCPT (state ms) = false ->
  do_rcpt send_ok is_valid_user ms = Ret (1, replied ms MSG_503_WRONG).
Proof.
  intros Ha Hs. destruct (rcpt_args_ok_inv ms Ha) as (c & w & Hws & Hw).
  unfold do_rcpt, nwords. rewrite Hws. cbn [List.length Z.of_nat nth_error].
  unfold path_word_ok in Hw. apply andb_true_iff in Hw. destruct Hw as [H1 H2].
  change (String.length "TO:<") with 4%nat in H1.
  apply negb_true_iff in H2. rewrite H1, H2. cbn.
  destruct (state ms); try discriminate Hs; reflexivity.
Qed.

Lemma do_rcpt_success (ms : smtp_state) (c p addr : string) :
  words ms = [c; (p ++ addr ++ ">")%string] ->
  strcasecmp p "TO:<" = true ->
  state_ok RCPT (state ms) = true ->
  do_rcpt send_ok is_valid_user ms
  = if is_valid_user addr then
      Ret (0, mk_smtp_state (recvbuf ms) (words ms) Recipient_provided
                (reverse_path_buffer ms) (forward_path_buffer ms ++ [addr])%list
                (mail_data_buffer ms) (sent ms ++ [MSG_250_RCPT])%list
                (mailstore ms))
    else Ret (1, replied ms (MSG_550 addr)).
Proof.
  intros Hws Hp Hs.
  destruct (path_word_round_trip "TO:<" p addr Hp) as (Hok & Hlen & Hcut).
  change (Z.of_nat (String.length "TO:<") + 1) with 5 in Hlen.
  change (String.length "TO:<") with 4%nat in Hcut.
  unfold path_word_ok in Hok. apply andb_true_iff in Hok. destruct Hok as [H1 H2].
  change (String.length "TO:<") with 4%nat in H1.
  apply negb_true_iff in H2.
  unfold do_rcpt, nwords. rewrite Hws. cbn [List.length Z.of_nat nth_error].
  rewrite H1, H2, Hlen, Nat2Z.id, Hcut.
  replace (Z.of_nat (String.length addr) <? 0) with false
    by (symmetry; apply Z.ltb_ge; lia).
  destruct ms as [rb ws st rp fp md snt store]. cbn in Hws, Hs |- *.
  subst ws.
  destruct st; try discriminate Hs; destruct (is_valid_user addr);
    destruct fp; reflexivity.
Qed.

Lemma do_data_syntax (input : list read_event) (ms : smtp_state) :
  args_ok DATA ms = false ->
  do_data send_ok input ms = Ret (1, replied ms MSG_501_PARAMS, input).
Proof.
  cbn [args_ok]. intro H. unfold do_data. rewrite H. cbn [negb].
  destruct (syntax_error_replied ms) as (n & Hn). rewrite Hn. reflexivity.
Qed.

Lemma do_data_sequence (input : list read_event) (ms : smtp_state) :
  args_ok DATA ms = true -> state_ok DATA (state ms) = false ->
  do_data send_ok input ms = Ret (1, replied ms MSG_503_WRONG, input).
Proof.
  cbn [args_ok]. intros Ha Hs. unfold do_data. rewrite Ha. cbn [negb].
  destruct (state ms); try discriminate Hs; reflexivity.
Qed.

End Handlers.

(** ** The DATA accumulator *)

(** The first body line is stored whole, dot or no dot. *)
Lemma append_line_first (buf : list ascii) (ms : smtp_state) :
  mail_data_buffer ms = None ->
  append_line buf ms
  = Ret (set_mail_data_buffer (Some (cstr buf ++ CRLF)%string) ms).
Proof. intro H. unfold append_line. rewrite H. reflexivity. Qed.

(** A later body line that begins with a dot loses exactly that dot. *)
Lemma append_line_later (buf : list ascii) (d : string) (ms : smtp_state) :
  mail_data_buffer ms = Some d ->
  append_line ("."%char :: buf) ms
  = Ret (set_mail_data_buffer (Some ((d ++ cstr buf) ++ CRLF)%string) ms).
Proof. intro H. unfold append_line. rewrite H. reflexivity. Qed.

(** End of stream reported as 0 keeps the DATA loop reading: however
    often the read is repeated, the handler neither replies nor returns. *)
Lemma data_loop_end_of_stream (send_ok : nat -> bool) (n : nat) (ms : smtp_state) :
  data_loop send_ok (repeat (Fail 0) n) ms = Blocked ms.
Proof.
  induction n as [|n IH]; [reflexivity|].
  cbn [repeat data_loop nb_read_line]. rewrite set_recvbuf_same.
  change (to_size_t 0) with 0. cbn [Z.leb Z.eqb Z.compare]. exact IH.
Qed.

(** C1.  The first body line of a message is appended as it is: the
    branch of [do_data] taken while [mail_data_buffer] is NULL has no
    dot test, so a leading '.' survives there.  From a session in
    Recipient_provided with the command DATA, the lines [".World"], ["."]
    deliver the body [".World\r\n"]; the lines ["Hello"], [".World"],
    ["."] deliver ["Hello\r\nWorld\r\n"], the second line being handled by
    the branch that removes the dot.  Both runs end in Data_input_done. *)
Theorem first_body_line_keeps_its_dot :
  forall (send_ok : nat -> bool) (rb : list ascii) (rp fp : user_list_t)
         (snt : list string) (store : list (string * user_list_t)),
    let ms := mk_smtp_state rb ["DATA"] Recipient_provided rp fp None snt store in
    (exists ms',
        do_data send_ok [text_line ".World"; text_line "."] ms = Ret (0, ms', [])
        /\ mailstore ms' = (store ++ [((".World" ++ CRLF)%string, fp)])%list
        /\ state ms' = Data_input_done)
    /\ (exists ms',
        do_data send_ok [text_line "Hello"; text_line ".World"; text_line "."] ms
        = Ret (0, ms', [])
        /\ mailstore ms' = (store ++ [(("Hello" ++ CRLF ++ "World" ++ CRLF)%string, fp)])%list
        /\ state ms' = Data_input_done).
Proof.
  intros send_ok rb rp fp snt store ms. subst ms.
  destruct rp, fp; split; eexists; (split; [|split]);
    try (vm_compute; reflexivity).
Qed.

(** C10.  A blank line ["\r\n"] read in the DATA phase: the stripping
    loop of [do_data] clears [recvbuf[1]] and [recvbuf[0]], reaches
    [len = 0] and evaluates [recvbuf[len - 1]], an access at
    [SIZE_MODULUS - 1], the byte below the buffer.  Nothing is appended to
    the mail data and no reply is sent. *)
Theorem data_blank_line_reads_below_recvbuf :
  forall (send_ok : nat -> bool) (rest : list read_event) (ms : smtp_state),
    exists ms',
      data_loop send_ok (text_line EmptyString :: rest) ms
      = Fault (OutOfBounds (SIZE_MODULUS - 1)) ms'
      /\ to_size_t (0 - 1) = SIZE_MODULUS - 1
      /\ MAX_LINE_LENGTH < SIZE_MODULUS - 1
      /\ mail_data_buffer ms' = mail_data_buffer ms
      /\ sent ms' = sent ms.
Proof.
  intros send_ok rest ms. eexists. split.
  - unfold text_line. cbn [append CRLF list_ascii_of_string].
    apply data_loop_whitespace_line.
    + discriminate.
    + repeat constructor.
    + vm_compute. discriminate.
  - destruct ms. repeat split.
Qed.

(** C3.  A read failure in the DATA phase is not noticed.  [len] is a
    [size_t], so the loop test [len >= 0] holds for every value
    [nb_read_line] returns and the statements after the loop (the reply
    ["501\n"] and [return 1]) are never reached.  After the body line
    ["Hello"], a read that returns -1 makes the loop evaluate
    [recvbuf[len - 1]] at [SIZE_MODULUS - 2], outside the buffer, and a
    read that returns 0 makes it read again, as often as the read is
    repeated.  In neither case is a reply sent, and the handler does not
    return -1.  The text after the loop is not a well-formed reply
    either. *)
Theorem data_read_failure_not_reported :
  forall (send_ok : nat -> bool) (rb : list ascii) (rp fp : user_list_t)
         (snt : list string) (store : list (string * user_list_t)),
    let ms := mk_smtp_state rb ["DATA"] Recipient_provided rp fp None snt store in
    (forall r : Z, (0 <=? to_size_t r) = true)
    /\ (exists ms',
          do_data send_ok [text_line "Hello"; Fail (-1)] ms
          = Fault (OutOfBounds (SIZE_MODULUS - 2)) ms'
          /\ sent ms' = (snt ++ [MSG_354])%list)
    /\ (exists ms',
          do_data send_ok [text_line "Hello"; Fail 0] ms = Blocked ms'
          /\ sent ms' = (snt ++ [MSG_354])%list /\ state ms' = Data_input)
    /\ (forall (n : nat) (ms1 : smtp_state),
          data_loop send_ok (repeat (Fail 0) n) ms1 = Blocked ms1)
    /\ well_formed_reply MSG_501_BARE = false.
Proof.
  intros send_ok rb rp fp snt store ms. subst ms.
  split; [exact size_t_test_always_true|].
  split; [|split; [|split]].
  - eexists. split; vm_compute; reflexivity.
  - eexists. split; [|split]; vm_compute; reflexivity.
  - intros n ms1. apply data_loop_end_of_stream.
  - reflexivity.
Qed.

(** [data_loop] never returns through the statements after the loop:
    whenever it returns, it is from the end-of-data branch, with 0. *)
Lemma data_loop_returns_only_zero (send_ok : nat -> bool) :
  forall (input : list read_event) (ms : smtp_state) (n : Z)
         (ms' : smtp_state) (rest : list read_event),
    data_loop send_ok input ms = Ret (n, ms', rest) -> n = 0.
Proof.
  induction input as [|ev input IH]; intros ms n ms' rest H.
  - discriminate H.
  - cbn [data_loop] in H.
    destruct (nb_read_line ev (recvbuf ms)) as [r buf].
    rewrite size_t_test_always_true in H.
    destruct (to_size_t r =? 0).
    + eapply IH; exact H.
    + destruct (strip_trailing _ _) as [f|[buf' len']]; [discriminate H|].
      destruct (String.eqb _ _).
      * unfold end_of_data in H. cbn in H. congruence.
      * destruct (append_line _ _) as [ms1| | |]; try discriminate H.
        eapply IH; exact H.
Qed.

(** ** The command loop *)

(** C9.  A read failure at the head of the command loop does not end it.
    The loop test is [len >= 0] on a [size_t], true for every value
    returned by [nb_read_line]; the body then evaluates
    [recvbuf[len - 1]]: at [SIZE_MODULUS - 2] when the read returned -1
    and at [SIZE_MODULUS - 1] when it returned 0, both outside the
    buffer.  The loop exit is not taken. *)
Theorem command_loop_ignores_read_failure :
  forall (send_ok : nat -> bool) (is_valid_user : string -> bool)
         (nodename : string) (rest : list read_event) (ms : smtp_state),
    (forall r : Z, (0 <=? to_size_t r) = true)
    /\ client_round send_ok is_valid_user nodename (Fail (-1)) rest ms
       = Fault (OutOfBounds (SIZE_MODULUS - 2)) ms
    /\ client_round send_ok is_valid_user nodename (Fail 0) rest ms
       = Fault (OutOfBounds (SIZE_MODULUS - 1)) ms
    /\ (forall fuel,
          client_loop send_ok is_valid_user nodename (S fuel) (Fail (-1) :: rest) ms
          = Fault (OutOfBounds (SIZE_MODULUS - 2)) ms).
Proof.
  intros send_ok ivu nodename rest ms.
  split; [exact size_t_test_always_true|].
  assert (H1 : client_round send_ok ivu nodename (Fail (-1)) rest ms
               = Fault (OutOfBounds (SIZE_MODULUS - 2)) ms)
    by (destruct ms; vm_compute; reflexivity).
  split; [exact H1|]. split.
  - destruct ms; vm_compute; reflexivity.
  - intro fuel. cbn [client_loop]. rewrite H1. reflexivity.
Qed.

(** C2.  A blank command line ["\r\n"] passes the two tests at the head
    of the loop body, then the stripping loop clears both bytes, reaches
    [len = 0] and evaluates [recvbuf[len - 1]] at [SIZE_MODULUS - 1], the
    byte below the buffer.  No 500 reply has been sent at that point. *)
Theorem blank_command_line_reads_below_recvbuf :
  forall (send_ok : nat -> bool) (is_valid_user : string -> bool)
         (nodename : string) (rest : list read_event) (ms : smtp_state),
    exists ms',
      client_round send_ok is_valid_user nodename (text_line EmptyString) rest ms
      = Fault (OutOfBounds (SIZE_MODULUS - 1)) ms'
      /\ to_size_t (0 - 1) = SIZE_MODULUS - 1
      /\ MAX_LINE_LENGTH < SIZE_MODULUS - 1
      /\ sent ms' = sent ms
      /\ state ms' = state ms
      /\ split CRLF = [].
Proof.
  intros send_ok ivu nodename rest ms. eexists. split.
  - unfold text_line. cbn [append CRLF list_ascii_of_string].
    apply (client_round_whitespace_line send_ok ivu nodename [CR]).
    + repeat constructor.
    + vm_compute. discriminate.
  - destruct ms. repeat split.
Qed.

(** ** Sequencing and syntax errors *)

Lemma run_command_verb
    (send_ok : nat -> bool) (is_valid_user : string -> bool) (nodename : string)
    (command : string) (v : verb) (input : list read_event) (ms : smtp_state) :
  verb_of command = Some v ->
  run_command send_ok is_valid_user nodename command input ms
  = handler send_ok is_valid_user nodename v input ms.
Proof.
  unfold verb_of, run_command. intro H.
  destruct (strcasecmp command "QUIT"); [discriminate H|].
  destruct (strcasecmp command "HELO" || strcasecmp command "EHLO")%bool;
    [injection H as <-; reflexivity|].
  destruct (strcasecmp command "MAIL"); [injection H as <-; reflexivity|].
  destruct (strcasecmp command "RCPT"); [injection H as <-; reflexivity|].
  destruct (strcasecmp command "DATA"); [injection H as <-; reflexivity|].
  discriminate H.
Qed.

Lemma replied_rejected (ms : smtp_state) (msg : string) :
  rejected_with (reply_code msg) ms (replied ms msg).
Proof.
  destruct ms. unfold rejected_with, replied. cbn.
  repeat split. eexists. split; reflexivity.
Qed.

Lemma handler_syntax
    (send_ok : nat -> bool) (is_valid_user : string -> bool) (nodename : string)
    (v : verb) (input : list read_event) (ms : smtp_state) :
  args_ok v ms = false ->
  handler send_ok is_valid_user nodename v input ms
  = Ret (1, replied ms (syntax_reply v), input).
Proof.
  intro H. destruct v; cbn [handler syntax_reply].
  - rewrite do_helo_syntax by exact H. reflexivity.
  - rewrite do_mail_syntax by exact H. reflexivity.
  - rewrite do_rcpt_syntax by exact H. reflexivity.
  - apply do_data_syntax. exact H.
Qed.

Lemma handler_sequence
    (send_ok : nat -> bool) (is_valid_user : string -> bool) (nodename : string)
    (v : verb) (input : list read_event) (ms : smtp_state) :
  args_ok v ms = true -> state_ok v (state ms) = false ->
  handler send_ok is_valid_user nodename v input ms
  = Ret (1, replied ms MSG_503_WRONG, input).
Proof.
  intros Ha Hs. destruct v; cbn [handler].
  - rewrite do_helo_sequence by assumption. reflexivity.
  - rewrite do_mail_sequence by assumption. reflexivity.
  - rewrite do_rcpt_sequence by assumption. reflexivity.
  - apply do_data_sequence; assumption.
Qed.

Lemma syntax_reply_code (v : verb) : reply_code (syntax_reply v) = "501".
Proof. destruct v; reflexivity. Qed.

(** C4, as the code has it.  All four handlers test the arguments before
    the state.  A HELO/EHLO, MAIL, RCPT or DATA command with malformed
    arguments is answered 501 in every state; one with well-formed
    arguments in a state that does not allow it is answered 503.  In both
    cases the handler returns 1 and the state, the buffers and the mail
    store are unchanged. *)
Theorem syntax_checked_before_state :
  forall (send_ok : nat -> bool) (is_valid_user : string -> bool)
         (nodename command : string) (v : verb)
         (input : list read_event) (ms : smtp_state),
    verb_of command = Some v ->
    (args_ok v ms = false ->
     exists ms',
       run_command send_ok is_valid_user nodename command input ms
       = Ret (1, ms', input)
       /\ rejected_with "501" ms ms')
    /\ (args_ok v ms = true -> state_ok v (state ms) = false ->
        exists ms',
          run_command send_ok is_valid_user nodename command input ms
          = Ret (1, ms', input)
          /\ rejected_with "503" ms ms').
Proof.
  intros send_ok ivu nodename command v input ms Hv.
  rewrite (run_command_verb _ _ _ _ _ _ _ Hv). split.
  - intro Ha. rewrite handler_syntax by exact Ha.
    eexists. split; [reflexivity|].
    rewrite <- (syntax_reply_code v). apply replied_rejected.
  - intros Ha Hs. rewrite handler_sequence by assumption.
    eexists. split; [reflexivity|].
    apply (replied_rejected ms MSG_503_WRONG).
Qed.

Lemma syntax_checked_before_state_witness :
  (exists ms',
     run_command all_sends all_users "host" "EHLO" []
       ehlo_without_domain = Ret (1, ms', [])
     /\ rejected_with "501" ehlo_without_domain ms')
  /\ (exists ms',
        run_command all_sends all_users "host" "Data" [] data_in_mail_open
        = Ret (1, ms', [])
        /\ rejected_with "503" data_in_mail_open ms').
Proof.
  split.
  - apply (syntax_checked_before_state all_sends all_users
             "host" "EHLO" HELO [] ehlo_without_domain); reflexivity.
  - apply (syntax_checked_before_state all_sends all_users
             "host" "Data" DATA [] data_in_mail_open); reflexivity.
Defined.

(** C4 as stated fails for HELO/EHLO: in a state other than Init, an EHLO
    without its domain argument is answered 501, not 503. *)
Lemma helo_state_not_checked_first :
  ~ (forall ms : smtp_state,
        state ms <> Init ->
        exists ms',
          run_command all_sends all_users "host" "EHLO" [] ms
          = Ret (1, ms', [])
          /\ rejected_with "503" ms ms').
Proof.
  intro H.
  destruct (H ehlo_without_domain) as (ms' & Hrun & (msg & Hsent & Hcode) & _).
  - discriminate.
  - vm_compute in Hrun. injection Hrun as <-.
    cbn [sent ehlo_without_domain app] in Hsent.
    injection Hsent as <-. vm_compute in Hcode. discriminate Hcode.
Qed.

(** C8, as the code has it.  For a verb and a state that the transition
    table does not pair, the handler returns 1 and leaves the state, the
    reverse path, the recipients, the mail data and the mail store
    unchanged; the reply is 503 when the arguments are well-formed and 501
    when they are not, the arguments being tested first. *)
Theorem unlisted_pair_rejected :
  forall (send_ok : nat -> bool) (is_valid_user : string -> bool)
         (nodename command : string) (v : verb)
         (input : list read_event) (ms : smtp_state),
    verb_of command = Some v ->
    state_ok v (state ms) = false ->
    exists ms',
      run_command send_ok is_valid_user nodename command input ms
      = Ret (1, ms', input)
      /\ rejected_with (if args_ok v ms then "503" else "501") ms ms'.
Proof.
  intros send_ok ivu nodename command v input ms Hv Hs.
  rewrite (run_command_verb _ _ _ _ _ _ _ Hv).
  destruct (args_ok v ms) eqn:Ha.
  - rewrite handler_sequence by assumption.
    eexists. split; [reflexivity|]. apply (replied_rejected ms MSG_503_WRONG).
  - rewrite handler_syntax by exact Ha.
    eexists. split; [reflexivity|].
    rewrite <- (syntax_reply_code v). apply replied_rejected.
Qed.

Lemma unlisted_pair_rejected_witness :
  exists ms',
    run_command all_sends all_users "host" "RCPT" [] rcpt_in_init
    = Ret (1, ms', [])
    /\ rejected_with "503" rcpt_in_init ms'.
Proof.
  apply (unlisted_pair_rejected all_sends all_users "host" "RCPT" RCPT []
           rcpt_in_init); reflexivity.
Defined.

(** C8 as stated fails: DATA in Mail_transaction_open, a pair the table
    does not list, is answered 501 when the command carries an argument. *)
Lemma data_in_mail_open_not_always_503 :
  ~ (forall ms : smtp_state,
        state ms = Mail_transaction_open ->
        exists ms',
          run_command all_sends all_users "host" "DATA" [] ms = Ret (1, ms', [])
          /\ rejected_with "503" ms ms').
Proof.
  intro H.
  destruct (H data_with_argument) as (ms' & Hrun & (msg & Hsent & Hcode) & _).
  - reflexivity.
  - vm_compute in Hrun. injection Hrun as <-.
    cbn [sent data_with_argument app] in Hsent.
    injection Hsent as <-. vm_compute in Hcode. discriminate Hcode.
Qed.

(** ** The address parser *)

Lemma do_mail_returns (send_ok : nat -> bool) (ms : smtp_state) :
  exists n ms', do_mail send_ok ms = Ret (n, ms').
Proof.
  destruct (args_ok MAIL ms) eqn:Ha.
  - destruct (state_ok MAIL (state ms)) eqn:Hs.
    + destruct (mail_args_ok_inv ms Ha) as (c & w & Hws & Hw).
      destruct (path_word_shape _ _ from_prefix_not_closed Hw) as (p & addr & -> & Hp).
      rewrite (do_mail_success send_ok ms c p addr Hws Hp Hs). eauto.
    + rewrite do_mail_sequence by assumption. eauto.
  - rewrite do_mail_syntax by assumption. eauto.
Qed.

Lemma do_rcpt_returns (send_ok : nat -> bool) (is_valid_user : string -> bool)
    (ms : smtp_state) :
  exists n ms', do_rcpt send_ok is_valid_user ms = Ret (n, ms').
Proof.
  destruct (args_ok RCPT ms) eqn:Ha.
  - destruct (state_ok RCPT (state ms)) eqn:Hs.
    + destruct (rcpt_args_ok_inv ms Ha) as (c & w & Hws & Hw).
      destruct (path_word_shape _ _ to_prefix_not_closed Hw) as (p & addr & -> & Hp).
      rewrite (do_rcpt_success send_ok is_valid_user ms c p addr Hws Hp Hs).
      destruct (is_valid_user addr); eauto.
    + rewrite do_rcpt_sequence by assumption. eauto.
  - rewrite do_rcpt_syntax by assumption. eauto.
Qed.

Lemma short_word_rejected (q w : string) :
  (forall p, strcasecmp p q = true -> last_char_differs p ">"%char = true) ->
  (String.length w < String.length q + 1)%nat ->
  path_word_ok q w = false.
Proof.
  intros Hq Hlen. destruct (path_word_ok q w) eqn:E; [|reflexivity].
  destruct (path_word_shape q w Hq E) as (p & addr & -> & Hp).
  rewrite !length_append, (strcasecmp_length p q Hp) in Hlen.
  cbn [String.length] in Hlen. lia.
Qed.

(** C5.  In a state that allows the command, the argument word
    [FROM:<addr>] makes MAIL store exactly [addr] as the reverse path, and
    the argument word [TO:<addr>] makes RCPT pass exactly [addr] to the
    User Directory and append it to the recipients (or name it in the 550
    reply), for every [addr] and every spelling of the prefix.  An
    argument word shorter than [FROM:<>] (7 characters), respectively
    [TO:<>] (5 characters), is answered 501 with nothing changed.  Neither
    handler ever computes a slice of negative length: both always return. *)
Theorem address_parser_round_trip :
  forall (send_ok : nat -> bool) (is_valid_user : string -> bool),
    (forall (ms : smtp_state) (c p addr : string),
        words ms = [c; (p ++ addr ++ ">")%string] ->
        strcasecmp p "FROM:<" = true ->
        state_ok MAIL (state ms) = true ->
        exists ms',
          do_mail send_ok ms = Ret (0, ms')
          /\ reverse_path_buffer ms' = [addr])
    /\ (forall (ms : smtp_state) (c p addr : string),
        words ms = [c; (p ++ addr ++ ">")%string] ->
        strcasecmp p "TO:<" = true ->
        state_ok RCPT (state ms) = true ->
        exists n ms',
          do_rcpt send_ok is_valid_user ms = Ret (n, ms')
          /\ if is_valid_user addr
             then n = 0 /\ forward_path_buffer ms'
                           = (forward_path_buffer ms ++ [addr])%list
             else n = 1 /\ ms' = replied ms (MSG_550 addr))
    /\ (forall (ms : smtp_state) (c w : string),
        words ms = [c; w] ->
        (String.length w < 7)%nat ->
        exists ms',
          do_mail send_ok ms = Ret (1, ms') /\ rejected_with "501" ms ms')
    /\ (forall (ms : smtp_state) (c w : string),
        words ms = [c; w] ->
        (String.length w < 5)%nat ->
        exists ms',
          do_rcpt send_ok is_valid_user ms = Ret (1, ms')
          /\ rejected_with "501" ms ms')
    /\ (forall ms : smtp_state,
        (exists n ms', do_mail send_ok ms = Ret (n, ms'))
        /\ (exists n ms', do_rcpt send_ok is_valid_user ms = Ret (n, ms'))).
Proof.
  intros send_ok ivu. repeat apply conj.
  - intros ms c p addr Hws Hp Hs.
    rewrite (do_mail_success send_ok ms c p addr Hws Hp Hs).
    eexists. split; reflexivity.
  - intros ms c p addr Hws Hp Hs.
    rewrite (do_rcpt_success send_ok ivu ms c p addr Hws Hp Hs).
    destruct (ivu addr); do 2 eexists; (split; [reflexivity|]);
      split; reflexivity.
  - intros ms c w Hws Hlen.
    rewrite do_mail_syntax.
    + eexists. split; [reflexivity|]. apply (replied_rejected ms MSG_501_PARAMS).
    + cbn [args_ok]. rewrite Hws. cbn [nth_error].
      rewrite (short_word_rejected "FROM:<" w from_prefix_not_closed)
        by (cbn [String.length]; lia).
      apply andb_false_r.
  - intros ms c w Hws Hlen.
    rewrite do_rcpt_syntax.
    + eexists. split; [reflexivity|]. apply (replied_rejected ms MSG_501_PARAMS).
    + cbn [args_ok]. rewrite Hws. cbn [nth_error].
      rewrite (short_word_rejected "TO:<" w to_prefix_not_closed)
        by (cbn [String.length]; lia).
      apply andb_false_r.
  - intro ms. split; [apply do_mail_returns | apply do_rcpt_returns].
Qed.

Lemma address_parser_round_trip_witness :
  (exists ms',
     do_mail all_sends mail_after_helo = Ret (0, ms')
     /\ reverse_path_buffer ms' = ["alice@example.org"])
  /\ (exists n ms',
        do_rcpt all_sends all_users rcpt_after_mail = Ret (n, ms')
        /\ n = 0
        /\ forward_path_buffer ms' = ["bob@example.org"])
  /\ (exists ms',
        do_mail all_sends
          (mk_smtp_state [] ["MAIL"; "FROM:>"] Executed_Helo [] [] None [] [])
        = Ret (1, ms')
        /\ rejected_with "501"
             (mk_smtp_state [] ["MAIL"; "FROM:>"] Executed_Helo [] [] None [] [])
             ms')
  /\ (exists ms',
        do_rcpt all_sends all_users
          (mk_smtp_state [] ["RCPT"; "TO:>"] Mail_transaction_open
             ["a@b"] [] None [] [])
        = Ret (1, ms')
        /\ rejected_with "501"
             (mk_smtp_state [] ["RCPT"; "TO:>"] Mail_transaction_open
                ["a@b"] [] None [] [])
             ms').
Proof.
  destruct (address_parser_round_trip all_sends all_users)
    as (Hmail & Hrcpt & Hshort_mail & Hshort_rcpt & _).
  split; [|split; [|split]].
  - apply (Hmail mail_after_helo "MAIL" "from:<" "alice@example.org");
      reflexivity.
  - destruct (Hrcpt rcpt_after_mail "RCPT" "To:<" "bob@example.org")
      as (n & ms' & Hrun & Hn & Hfwd); try reflexivity.
    exists n, ms'. repeat split; assumption.
  - apply (Hshort_mail _ "MAIL" "FROM:>"); [reflexivity | cbn; lia].
  - apply (Hshort_rcpt _ "RCPT" "TO:>"); [reflexivity | cbn; lia].
Defined.

(** ** MAIL *)

(** C6.  MAIL returns 0 exactly when the state is Executed_Helo or
    Data_input_done and the command has one argument word of the form
    [FROM:<addr>]; it then replies 250, enters Mail_transaction_open, and
    leaves the reverse path equal to [addr] alone, the recipients empty
    and the mail data absent, whatever the three buffers held before. *)
Theorem mail_succeeds_iff :
  forall (send_ok : nat -> bool) (ms : smtp_state),
    ((exists ms', do_mail send_ok ms = Ret (0, ms'))
     <-> ((state ms = Executed_Helo \/ state ms = Data_input_done)
          /\ exists addr, mail_from_word ms addr))
    /\ (forall addr ms',
          mail_from_word ms addr ->
          do_mail send_ok ms = Ret (0, ms') ->
          reverse_path_buffer ms' = [addr]
          /\ forward_path_buffer ms' = []
          /\ mail_data_buffer ms' = None
          /\ state ms' = Mail_transaction_open
          /\ sent ms' = (sent ms ++ [MSG_250_MAIL])%list
          /\ reply_code MSG_250_MAIL = "250").
Proof.
  intros send_ok ms. split; [split|].
  - intros (ms' & Hrun).
    destruct (args_ok MAIL ms) eqn:Ha.
    2:{ rewrite do_mail_syntax in Hrun by exact Ha. discriminate Hrun. }
    destruct (state_ok MAIL (state ms)) eqn:Hs.
    2:{ rewrite do_mail_sequence in Hrun by assumption. discriminate Hrun. }
    split.
    + destruct (state ms); try discriminate Hs; auto.
    + destruct (mail_args_ok_inv ms Ha) as (c & w & Hws & Hw).
      destruct (path_word_shape _ _ from_prefix_not_closed Hw) as (p & addr & -> & Hp).
      exists addr, c, p. split; assumption.
  - intros (Hst & addr & c & p & Hws & Hp).
    assert (Hs : state_ok MAIL (state ms) = true)
      by (destruct Hst as [-> | ->]; reflexivity).
    rewrite (do_mail_success send_ok ms c p addr Hws Hp Hs). eauto.
  - intros addr ms' (c & p & Hws & Hp) Hrun.
    destruct (state_ok MAIL (state ms)) eqn:Hs.
    + rewrite (do_mail_success send_ok ms c p addr Hws Hp Hs) in Hrun.
      injection Hrun as <-. repeat split.
    + rewrite do_mail_sequence in Hrun; [discriminate Hrun| |exact Hs].
      destruct (path_word_round_trip "FROM:<" p addr Hp) as (Hok & _).
      cbn [args_ok]. unfold nwords. rewrite Hws. cbn [nth_error].
      rewrite Hok. reflexivity.
Qed.

Lemma mail_succeeds_iff_witness :
  exists ms',
    do_mail all_sends mail_after_data = Ret (0, ms')
    /\ reverse_path_buffer ms' = [EmptyString]
    /\ forward_path_buffer ms' = []
    /\ state ms' = Mail_transaction_open.
Proof.
  destruct (mail_succeeds_iff all_sends mail_after_data) as (Hiff & Heff).
  assert (Hwf : mail_from_word mail_after_data EmptyString)
    by (exists "MAIL", "FROM:<"; split; reflexivity).
  destruct (proj2 Hiff) as (ms' & Hrun).
  - split; [right; reflexivity | exists EmptyString; exact Hwf].
  - exists ms'. destruct (Heff EmptyString ms' Hwf Hrun) as (H1 & H2 & _ & H4 & _).
    repeat split; assumption.
Defined.

(** ** The buffers along a session *)

Lemma outcome_holds_impl {A : Type} (P P' : A -> Prop) (Q : smtp_state -> Prop)
    (o : outcome A) :
  (forall a, P a -> P' a) -> outcome_holds P Q o -> outcome_holds P' Q o.
Proof. intros HP H. destruct o; cbn in *; auto. Qed.

Section Invariant.

Variable send_ok : nat -> bool.
Variable is_valid_user : string -> bool.
Variable nodename : string.
Variables rp0 fp0 : user_list_t.
Variable md0 : option string.

Lemma consistent_frame (ms ms' : smtp_state) :
  state ms' = state ms ->
  reverse_path_buffer ms' = reverse_path_buffer ms ->
  forward_path_buffer ms' = forward_path_buffer ms ->
  mail_data_buffer ms' = mail_data_buffer ms ->
  (buffers_consistent rp0 fp0 md0) ms -> (buffers_consistent rp0 fp0 md0) ms'.
Proof.
  unfold buffers_consistent. intros -> -> -> ->. exact (fun H => H).
Qed.

Lemma replied_consistent (ms : smtp_state) (msg : string) :
  (buffers_consistent rp0 fp0 md0) ms -> (buffers_consistent rp0 fp0 md0) (replied ms msg).
Proof. apply consistent_frame; destruct ms; reflexivity. Qed.

Lemma set_recvbuf_consistent (ms : smtp_state) (b : list ascii) :
  (buffers_consistent rp0 fp0 md0) ms -> (buffers_consistent rp0 fp0 md0) (set_recvbuf b ms).
Proof. apply consistent_frame; destruct ms; reflexivity. Qed.

Lemma set_words_consistent (ms : smtp_state) (w : list string) :
  (buffers_consistent rp0 fp0 md0) ms -> (buffers_consistent rp0 fp0 md0) (set_words w ms).
Proof. apply consistent_frame; destruct ms; reflexivity. Qed.

Lemma do_quit_consistent (ms : smtp_state) :
  (buffers_consistent rp0 fp0 md0) ms -> (buffers_consistent rp0 fp0 md0) (snd (do_quit send_ok ms)).
Proof. apply replied_consistent. Qed.

Lemma do_noop_consistent (ms : smtp_state) :
  (buffers_consistent rp0 fp0 md0) ms -> (buffers_consistent rp0 fp0 md0) (snd (do_noop send_ok ms)).
Proof. apply replied_consistent. Qed.

Lemma do_helo_consistent (ms : smtp_state) :
  (buffers_consistent rp0 fp0 md0) ms -> (buffers_consistent rp0 fp0 md0) (snd (do_helo send_ok nodename ms)).
Proof.
  intro H. unfold do_helo.
  destruct (negb (nwords ms =? 2)); [apply replied_consistent, H|].
  destruct (negb (State_eqb (state ms) Init)); [apply replied_consistent, H|].
  cbn. auto.
Qed.

Lemma do_rset_consistent (ms : smtp_state) :
  (buffers_consistent rp0 fp0 md0) ms -> (buffers_consistent rp0 fp0 md0) (snd (do_rset send_ok ms)).
Proof.
  intro H. unfold do_rset.
  destruct (negb (nwords ms =? 1)); [apply replied_consistent, H|].
  destruct (negb (State_eqb (state ms) Init)).
  - rewrite clear_buffers_spec. cbn. auto.
  - apply (replied_consistent ms MSG_250_RSET), H.
Qed.

Lemma do_vrfy_consistent (ms : smtp_state) :
  (buffers_consistent rp0 fp0 md0) ms ->
  outcome_holds (fun r => (buffers_consistent rp0 fp0 md0) (snd r)) (buffers_consistent rp0 fp0 md0)
    (do_vrfy send_ok is_valid_user ms).
Proof.
  intro H. unfold do_vrfy.
  destruct (negb (nwords ms =? 2)) eqn:Hw.
  - destruct (syntax_error_replied send_ok ms) as (n & ->). cbn.
    apply replied_consistent, H.
  - apply negb_false_iff in Hw. destruct (nwords_two ms Hw) as (c & w & ->).
    cbn [nth_error]. destruct (is_valid_user w); cbn; apply replied_consistent, H.
Qed.

Lemma do_mail_consistent (ms : smtp_state) :
  (buffers_consistent rp0 fp0 md0) ms ->
  outcome_holds (fun r => (buffers_consistent rp0 fp0 md0) (snd r)) (buffers_consistent rp0 fp0 md0)
    (do_mail send_ok ms).
Proof.
  intro H. destruct (args_ok MAIL ms) eqn:Ha.
  - destruct (state_ok MAIL (state ms)) eqn:Hs.
    + destruct (mail_args_ok_inv ms Ha) as (c & w & Hws & Hw).
      destruct (path_word_shape _ _ from_prefix_not_closed Hw) as (p & addr & -> & Hp).
      rewrite (do_mail_success send_ok ms c p addr Hws Hp Hs). cbn.
      repeat split. discriminate.
    + rewrite do_mail_sequence by assumption. cbn. apply replied_consistent, H.
  - rewrite do_mail_syntax by assumption. cbn. apply replied_consistent, H.
Qed.

Lemma do_rcpt_consistent (ms : smtp_state) :
  (buffers_consistent rp0 fp0 md0) ms ->
  outcome_holds (fun r => (buffers_consistent rp0 fp0 md0) (snd r)) (buffers_consistent rp0 fp0 md0)
    (do_rcpt send_ok is_valid_user ms).
Proof.
  intro H. destruct (args_ok RCPT ms) eqn:Ha.
  - destruct (state_ok RCPT (state ms)) eqn:Hs.
    + destruct (rcpt_args_ok_inv ms Ha) as (c & w & Hws & Hw).
      destruct (path_word_shape _ _ to_prefix_not_closed Hw) as (p & addr & -> & Hp).
      rewrite (do_rcpt_success send_ok is_valid_user ms c p addr Hws Hp Hs).
      destruct (is_valid_user addr); cbn; [|apply replied_consistent, H].
      unfold buffers_consistent in H.
      destruct (state ms); try discriminate Hs;
        destruct H as (Hr & Hf & Hd); repeat split; try assumption;
        intro E; apply app_eq_nil in E; destruct E; discriminate.
    + rewrite do_rcpt_sequence by assumption. cbn. apply replied_consistent, H.
  - rewrite do_rcpt_syntax by assumption. cbn. apply replied_consistent, H.
Qed.

Lemma end_of_data_consistent (ms : smtp_state) :
  (buffers_consistent rp0 fp0 md0) (snd (end_of_data send_ok ms)).
Proof.
  unfold end_of_data. rewrite clear_buffers_spec. cbn. auto.
Qed.

Lemma append_line_frame (buf : list ascii) (ms : smtp_state) :
  outcome_holds
    (fun ms' => state ms' = state ms
                /\ reverse_path_buffer ms' = reverse_path_buffer ms
                /\ forward_path_buffer ms' = forward_path_buffer ms)
    (fun ms' => ms' = ms)
    (append_line buf ms).
Proof.
  unfold append_line.
  destruct (mail_data_buffer ms) as [d|].
  - destruct (read_recvbuf buf 0) as [f|c]; [reflexivity|].
    destruct (Ascii.eqb c "."%char); destruct ms; cbn; auto.
  - destruct ms; cbn; auto.
Qed.

Lemma in_data_phase_consistent (ms : smtp_state) :
  in_data_phase ms -> (buffers_consistent rp0 fp0 md0) ms.
Proof.
  intros (Hs & Hr & Hf). unfold buffers_consistent. rewrite Hs. auto.
Qed.

Lemma data_loop_consistent :
  forall (input : list read_event) (ms : smtp_state),
    in_data_phase ms ->
    outcome_holds
      (fun r => (buffers_consistent rp0 fp0 md0) (snd (fst r))
                /\ (List.length (snd r) <= List.length input)%nat)
      (buffers_consistent rp0 fp0 md0)
      (data_loop send_ok input ms).
Proof.
  induction input as [|ev input IH]; intros ms Hms.
  - cbn. apply in_data_phase_consistent, Hms.
  - cbn [data_loop].
    destruct (nb_read_line ev (recvbuf ms)) as [r buf].
    rewrite size_t_test_always_true.
    assert (Hbuf : forall b, in_data_phase (set_recvbuf b ms))
      by (intro b; destruct ms; exact Hms).
    assert (Hle : forall r0 : Z * smtp_state * list read_event,
               (buffers_consistent rp0 fp0 md0) (snd (fst r0))
               /\ (List.length (snd r0) <= List.length input)%nat ->
               (buffers_consistent rp0 fp0 md0) (snd (fst r0))
               /\ (List.length (snd r0) <= List.length (ev :: input))%nat)
      by (intros r0 [H1 H2]; split; [exact H1 | cbn [List.length]; lia]).
    destruct (to_size_t r =? 0).
    + eapply outcome_holds_impl; [exact Hle | apply IH, Hbuf].
    + cbn [recvbuf]. destruct (strip_trailing _ _) as [f|[buf' len']].
      * cbn. apply in_data_phase_consistent, Hbuf.
      * replace (set_recvbuf buf' (set_recvbuf buf ms)) with (set_recvbuf buf' ms)
          by (destruct ms; reflexivity).
        destruct (String.eqb _ _).
        -- pose proof (end_of_data_consistent (set_recvbuf buf' ms)) as He.
           destruct (end_of_data send_ok (set_recvbuf buf' ms)) as [n ms1].
           cbn in He |- *. split; [exact He | lia].
        -- pose proof (append_line_frame (recvbuf (set_recvbuf buf' ms))
                         (set_recvbuf buf' ms)) as Ha.
           destruct (append_line _ _) as [ms1|f ms1|ms1|]; cbn in Ha.
           ++ eapply outcome_holds_impl; [exact Hle|]. apply IH.
              destruct Ha as (H1 & H2 & H3). destruct (Hbuf buf') as (G1 & G2 & G3).
              unfold in_data_phase. rewrite H1, H2, H3. auto.
           ++ cbn. subst ms1. apply in_data_phase_consistent, Hbuf.
           ++ cbn. subst ms1. apply in_data_phase_consistent, Hbuf.
           ++ exact Ha.
Qed.

Lemma do_data_consistent (input : list read_event) (ms : smtp_state) :
  (buffers_consistent rp0 fp0 md0) ms ->
  outcome_holds
    (fun r => (buffers_consistent rp0 fp0 md0) (snd (fst r))
              /\ (List.length (snd r) <= List.length input)%nat)
    (buffers_consistent rp0 fp0 md0)
    (do_data send_ok input ms).
Proof.
  intro H. destruct (args_ok DATA ms) eqn:Ha.
  - destruct (state_ok DATA (state ms)) eqn:Hs.
    + unfold do_data. cbn [args_ok] in Ha. rewrite Ha. cbn [negb].
      destruct (state ms) eqn:Hst; try discriminate Hs. cbn [State_eqb negb].
      apply data_loop_consistent.
      unfold buffers_consistent in H. rewrite Hst in H.
      destruct H as (Hr & Hf & _). destruct ms. cbn in *. repeat split; assumption.
    + rewrite do_data_sequence by assumption. cbn.
      split; [apply replied_consistent, H | lia].
  - rewrite do_data_syntax by assumption. cbn.
    split; [apply replied_consistent, H | lia].
Qed.

Lemma run_command_consistent (command : string) (rest : list read_event)
    (ms : smtp_state) :
  (buffers_consistent rp0 fp0 md0) ms ->
  outcome_holds
    (fun r => (buffers_consistent rp0 fp0 md0) (snd (fst r))
              /\ (List.length (snd r) <= List.length rest)%nat)
    (buffers_consistent rp0 fp0 md0)
    (run_command send_ok is_valid_user nodename command rest ms).
Proof.
  intro H. unfold run_command.
  destruct (strcasecmp command "QUIT").
  { cbn. split; [apply (replied_consistent ms MSG_221), H | lia]. }
  destruct (strcasecmp command "HELO" || strcasecmp command "EHLO")%bool.
  { pose proof (do_helo_consistent ms H) as G.
    destruct (do_helo send_ok nodename ms) as [n ms1]. cbn in *. split; [exact G | lia]. }
  destruct (strcasecmp command "MAIL").
  { pose proof (do_mail_consistent ms H) as G.
    destruct (do_mail send_ok ms) as [[n ms1]| | |]; cbn in *;
      try (split; [exact G | lia]); auto. }
  destruct (strcasecmp command "RCPT").
  { pose proof (do_rcpt_consistent ms H) as G.
    destruct (do_rcpt send_ok is_valid_user ms) as [[n ms1]| | |]; cbn in *;
      try (split; [exact G | lia]); auto. }
  destruct (strcasecmp command "DATA").
  { apply do_data_consistent, H. }
  destruct (strcasecmp command "RSET").
  { pose proof (do_rset_consistent ms H) as G.
    destruct (do_rset send_ok ms) as [n ms1]. cbn in *. split; [exact G | lia]. }
  destruct (strcasecmp command "NOOP").
  { cbn. split; [apply (replied_consistent ms MSG_250_NOOP), H | lia]. }
  destruct (strcasecmp command "VRFY").
  { pose proof (do_vrfy_consistent ms H) as G.
    destruct (do_vrfy send_ok is_valid_user ms) as [[n ms1]| | |]; cbn in *;
      try (split; [exact G | lia]); auto. }
  destruct (strcasecmp command "EXPN" || strcasecmp command "HELP")%bool.
  { cbn. split; [apply (replied_consistent ms MSG_502), H | lia]. }
  cbn. split; [apply (replied_consistent ms MSG_500), H | lia].
Qed.

Lemma client_round_consistent (ev : read_event) (rest : list read_event)
    (ms : smtp_state) :
  (buffers_consistent rp0 fp0 md0) ms ->
  outcome_holds
    (fun r => (buffers_consistent rp0 fp0 md0) (snd (fst r))
              /\ (List.length (snd r) <= List.length rest)%nat)
    (buffers_consistent rp0 fp0 md0)
    (client_round send_ok is_valid_user nodename ev rest ms).
Proof.
  intro H. unfold client_round.
  destruct (nb_read_line ev (recvbuf ms)) as [r buf].
  rewrite size_t_test_always_true.
  pose proof (set_recvbuf_consistent ms buf H) as H1.
  destruct (read_recvbuf _ _) as [f|c]; [exact H1|].
  destruct (negb (Ascii.eqb c LF)).
  { cbn. split; [|lia].
    apply (consistent_frame (set_recvbuf buf ms)); [reflexivity..|exact H1]. }
  destruct (strlen _ <? to_size_t r).
  { cbn. split; [|lia].
    apply (consistent_frame (set_recvbuf buf ms)); [reflexivity..|exact H1]. }
  destruct (strip_trailing _ _) as [f|[buf' len']]; [exact H1|].
  set (ms2 := set_words _ _).
  assert (H2 : (buffers_consistent rp0 fp0 md0) ms2)
    by (apply set_words_consistent, set_recvbuf_consistent, H1).
  destruct (nth_error (words ms2) 0) as [command|]; [|exact H2].
  pose proof (run_command_consistent command rest ms2 H2) as G.
  destruct (run_command _ _ _ command rest ms2) as [[[n ms3] rest3]| | |];
    cbn in *; auto.
Qed.



End Invariant.

(** ** Lines with text *)

Lemma write_recvbuf_middle (a b : list ascii) (x c : ascii) :
  write_recvbuf (a ++ x :: b) (List.length a) c = (a ++ c :: b)%list.
Proof.
  induction a as [|y a IH]; [reflexivity|].
  cbn [app List.length write_recvbuf]. now rewrite IH.
Qed.

Lemma nth_error_middle (a b : list ascii) (x : ascii) :
  nth_error (a ++ x :: b) (List.length a) = Some x.
Proof.
  rewrite nth_error_app2 by lia. now rewrite Nat.sub_diag.
Qed.

(** The stripping loop entered at the end of a line with text stops at
    the last byte of the text, having cleared the white space after it,
    without leaving the buffer. *)
Lemma strip_loop_text (t : list ascii) (c : ascii) :
  isspace c = false ->
  forall (ws tail : list ascii),
    Forall (fun x => isspace x = true) ws ->
    Z.of_nat (List.length (t ++ c :: ws)) <= MAX_LINE_LENGTH + 1 ->
    strip_loop (List.length (t ++ c :: ws)) ((t ++ c :: ws) ++ tail)
    = inr ((t ++ [c]) ++ repeat NUL (List.length ws) ++ tail,
           Z.of_nat (S (List.length t)))%list.
Proof.
  intros Hc ws. induction ws as [|x ws IH] using rev_ind; intros tail Hws Hlen.
  - replace (List.length (t ++ [c])) with (S (List.length t))
      by (rewrite length_app; cbn [List.length]; lia).
    cbn [strip_loop].
    replace (Z.of_nat (S (List.length t)) - 1) with (Z.of_nat (List.length t)) by lia.
    rewrite length_app in Hlen. cbn [List.length] in Hlen.
    rewrite to_size_t_small by (unfold MAX_LINE_LENGTH, SIZE_MODULUS in *; lia).
    rewrite (read_recvbuf_in_bounds _ (List.length t) c).
    + rewrite Hc. reflexivity.
    + unfold MAX_LINE_LENGTH in *. lia.
    + rewrite <- app_assoc. cbn [app]. apply nth_error_middle.
  - apply Forall_app in Hws. destruct Hws as [Hws Hx].
    inversion Hx as [|? ? Hx' _]; subst.
    set (pre := (t ++ c :: ws)%list).
    assert (Hpre : (t ++ c :: ws ++ [x])%list = (pre ++ [x])%list)
      by (unfold pre; rewrite <- app_assoc; reflexivity).
    rewrite Hpre in *.
    assert (Hlp : List.length (pre ++ [x]) = S (List.length pre))
      by (rewrite length_app; cbn [List.length]; lia).
    rewrite Hlp in *. cbn [strip_loop].
    replace (Z.of_nat (S (List.length pre)) - 1) with (Z.of_nat (List.length pre)) by lia.
    rewrite to_size_t_small by (unfold MAX_LINE_LENGTH, SIZE_MODULUS in *; lia).
    rewrite <- app_assoc. cbn [app].
    rewrite (read_recvbuf_in_bounds _ (List.length pre) x);
      [|unfold MAX_LINE_LENGTH in *; lia | apply nth_error_middle].
    rewrite Hx', write_recvbuf_middle.
    unfold pre. rewrite IH; [|exact Hws | fold pre; lia].
    f_equal. f_equal. f_equal.
    rewrite length_app. cbn [List.length].
    rewrite repeat_app. cbn [repeat]. rewrite <- app_assoc. reflexivity.
Qed.

Lemma cstr_text (text tail : list ascii) :
  ~ In NUL text ->
  cstr (text ++ NUL :: tail) = string_of_list_ascii text.
Proof.
  induction text as [|c text IH]; intro H.
  - reflexivity.
  - cbn [app cstr string_of_list_ascii].
    destruct (Ascii.eqb c NUL) eqn:E.
    + apply Ascii.eqb_eq in E. subst c. exfalso. apply H. left. reflexivity.
    + rewrite IH; [reflexivity|]. intro Hin. apply H. right. exact Hin.
Qed.

Lemma length_string_of_list (l : list ascii) :
  String.length (string_of_list_ascii l) = List.length l.
Proof. induction l as [|c l IH]; [reflexivity|]. cbn. now rewrite IH. Qed.

Lemma spaces_without_NUL (ws : list ascii) :
  Forall (fun c => isspace c = true) ws -> ~ In NUL ws.
Proof.
  intros H Hin. rewrite Forall_forall in H. specialize (H NUL Hin). discriminate H.
Qed.

Lemma cstr_text_nuls (text tail : list ascii) (n : nat) :
  ~ In NUL text ->
  cstr (text ++ repeat NUL n ++ NUL :: tail) = string_of_list_ascii text.
Proof.
  intro H. destruct n; cbn [repeat app]; apply cstr_text; exact H.
Qed.

Lemma cstr_stripped (text ws old : list ascii) :
  ~ In NUL text ->
  cstr (stripped_recvbuf text ws old) = string_of_list_ascii text.
Proof. intro H. unfold stripped_recvbuf. apply cstr_text_nuls. exact H. Qed.

(** The stripping loop on a clean line, as [do_data] and [handle_client]
    enter it. *)
Lemma strip_trailing_clean (text ws old : list ascii) :
  clean_line text ws ->
  strip_trailing ((text ++ ws) ++ NUL :: skipn (S (List.length (text ++ ws))) old)
    (to_size_t (Z.of_nat (List.length (text ++ ws))))
  = inr (stripped_recvbuf text ws old, Z.of_nat (List.length text)).
Proof.
  intros ((t & c & -> & Hc) & Hnul & Hws & Hlen).
  rewrite to_size_t_small by (unfold MAX_LINE_LENGTH, SIZE_MODULUS in *; lia).
  unfold strip_trailing.
  replace (_ <=? MAX_LINE_LENGTH + 1) with true by (symmetry; apply Z.leb_le; lia).
  rewrite Nat2Z.id.
  rewrite <- (app_assoc t [c] ws) in *. cbn [app] in *.
  rewrite strip_loop_text; [|exact Hc | exact Hws | lia].
  unfold stripped_recvbuf.
  replace ((t ++ [c]) ++ ws)%list with (t ++ c :: ws)%list
    by (rewrite <- app_assoc; reflexivity).
  replace (List.length (t ++ [c])) with (S (List.length t))
    by (rewrite length_app; cbn [List.length]; lia).
  reflexivity.
Qed.

Lemma split_from_nonempty (l : list ascii) :
  forall w : string,
    w <> EmptyString \/ (exists x, In x l /\ isspace x = false) ->
    split_from w (string_of_list_ascii l) <> [].
Proof.
  induction l as [|c l IH]; intros w H.
  - cbn. destruct H as [H | (x & [] & _)].
    destruct w; [congruence | discriminate].
  - cbn [string_of_list_ascii split_from].
    destruct (isspace c) eqn:Hc.
    + destruct H as [H | (x & [Hx | Hx] & Hs)].
      * destruct w; [congruence | discriminate].
      * subst x. congruence.
      * intro E. apply app_eq_nil in E. destruct E as [_ E].
        revert E. apply IH. right. exists x. split; assumption.
    + apply IH. left. destruct w; discriminate.
Qed.

Lemma split_clean_text (text ws : list ascii) :
  clean_line text ws ->
  exists command others, split (string_of_list_ascii text) = command :: others.
Proof.
  intros ((t & c & -> & Hc) & _).
  destruct (split (string_of_list_ascii (t ++ [c]))) as [|command others] eqn:E.
  - exfalso. revert E. apply split_from_nonempty. right.
    exists c. split; [apply in_or_app; right; left; reflexivity | exact Hc].
  - eauto.
Qed.

Lemma clean_line_no_NUL (text ws : list ascii) :
  clean_line text ws -> ~ In NUL (text ++ ws).
Proof.
  intros (_ & Hnul & Hws & _) Hin. apply in_app_or in Hin.
  destruct Hin as [Hin | Hin]; [exact (Hnul Hin)|].
  exact (spaces_without_NUL ws Hws Hin).
Qed.

(** One round of the command loop on a clean line that ends in LF. *)
Lemma client_round_clean
    (send_ok : nat -> bool) (is_valid_user : string -> bool) (nodename : string)
    (text ws : list ascii) (rest : list read_event) (ms : smtp_state) :
  clean_line text (ws ++ [LF]) ->
  client_round send_ok is_valid_user nodename (Line (text ++ ws ++ [LF])) rest ms
  = match nth_error (split (string_of_list_ascii text)) 0 with
    | None => Fault (NoSuchWord 0) (with_command_line text (ws ++ [LF]) ms)
    | Some command =>
        after_command
          (run_command send_ok is_valid_user nodename command rest
             (with_command_line text (ws ++ [LF]) ms))
    end.
Proof.
  intro Hclean.
  pose proof (clean_line_no_NUL _ _ Hclean) as Hnul.
  pose proof Hclean as (_ & Hnt & _ & Hlen).
  unfold client_round. cbn [nb_read_line].
  rewrite size_t_test_always_true.
  destruct ms as [rb wds st rp fp md snt store]. cbn [recvbuf set_recvbuf].
  set (line := (text ++ ws ++ [LF])%list) in *.
  assert (Hline : line = ((text ++ ws) ++ [LF])%list)
    by (unfold line; rewrite <- app_assoc; reflexivity).
  assert (Hl : List.length line = S (List.length (text ++ ws)))
    by (rewrite Hline, length_app; cbn [List.length]; lia).
  pose proof (strip_trailing_clean text (ws ++ [LF]) rb Hclean) as Hstrip.
  fold line in Hstrip.
  rewrite (to_size_t_small (Z.of_nat (List.length line))) in *
    by (unfold MAX_LINE_LENGTH, SIZE_MODULUS in *; fold line in Hlen; lia).
  replace (Z.of_nat (List.length line) - 1)
    with (Z.of_nat (List.length (text ++ ws))) by lia.
  rewrite to_size_t_small
    by (unfold MAX_LINE_LENGTH, SIZE_MODULUS in *; fold line in Hlen; lia).
  rewrite (read_recvbuf_in_bounds _ (List.length (text ++ ws)) LF).
  2:{ fold line in Hlen. lia. }
  2:{ rewrite Hline, <- app_assoc. cbn [app]. apply nth_error_middle. }
  rewrite Ascii.eqb_refl. cbn [negb].
  rewrite cstr_text by (fold line in Hnul; exact Hnul).
  unfold strlen. rewrite length_string_of_list, Z.ltb_irrefl.
  rewrite Hstrip. cbn [recvbuf set_recvbuf set_words words].
  rewrite cstr_stripped by exact Hnt.
  unfold with_command_line. cbn [recvbuf set_recvbuf set_words words].
  destruct (nth_error _ 0) as [command|]; [|reflexivity].
  unfold after_command.
  destruct (run_command _ _ _ command rest _) as [[[n ms'] rest']| | |];
    reflexivity.
Qed.

(** X1.  A command line that ends in LF, holds no NUL byte and has some
    text before its trailing white space is handled within [recvbuf]: the
    loop clears the trailing white space, the text is split into words,
    a first word exists, and the handler chosen by that word runs on the
    session with these words; the loop is left exactly when the handler
    returns -1. *)
Theorem command_line_dispatch :
  forall (send_ok : nat -> bool) (is_valid_user : string -> bool)
         (nodename : string) (text ws : list ascii)
         (rest : list read_event) (ms : smtp_state),
    clean_line text (ws ++ [LF]) ->
    exists command others,
      split (string_of_list_ascii text) = command :: others
      /\ words (with_command_line text (ws ++ [LF]) ms) = command :: others
      /\ client_round send_ok is_valid_user nodename
           (Line (text ++ ws ++ [LF])) rest ms
         = after_command
             (run_command send_ok is_valid_user nodename command rest
                (with_command_line text (ws ++ [LF]) ms)).
Proof.
  intros send_ok ivu nodename text ws rest ms Hclean.
  destruct (split_clean_text _ _ Hclean) as (command & others & Hsplit).
  exists command, others. split; [exact Hsplit|]. split.
  - unfold with_command_line. cbn. exact Hsplit.
  - rewrite client_round_clean by exact Hclean. rewrite Hsplit. reflexivity.
Qed.

Lemma command_line_dispatch_witness :
  exists command others,
    split (string_of_list_ascii noop_text) = command :: others
    /\ words (with_command_line noop_text ([CR] ++ [LF]) rset_with_recipient)
       = command :: others
    /\ client_round all_sends all_users "host"
         (Line (noop_text ++ [CR] ++ [LF])) [] rset_with_recipient
       = after_command
           (run_command all_sends all_users "host" command []
              (with_command_line noop_text ([CR] ++ [LF]) rset_with_recipient)).
Proof.
  apply (command_line_dispatch all_sends all_users "host" noop_text [CR] []
           rset_with_recipient).
  repeat split.
  - exists (list_ascii_of_string "NOO"), "P"%char. split; reflexivity.
  - vm_compute. intuition discriminate.
  - repeat constructor.
  - vm_compute. discriminate.
Defined.

(** ** The accumulated body *)

Lemma string_of_list_dot (text : list ascii) :
  text <> ["."%char] ->
  String.eqb (string_of_list_ascii text) "." = false.
Proof.
  intro H. apply String.eqb_neq. intro E. apply H.
  rewrite <- (list_ascii_of_string_of_list_ascii text), E. reflexivity.
Qed.

Lemma append_line_clean (text ws old : list ascii) (ms : smtp_state) :
  clean_line text ws ->
  append_line (stripped_recvbuf text ws old) ms
  = Ret (set_mail_data_buffer
           (Some (match mail_data_buffer ms with
                  | None => string_of_list_ascii text
                  | Some d => d ++ string_of_list_ascii (unstuff text)
                  end ++ CRLF)%string) ms).
Proof.
  intros ((t & c & Ht & Hc) & Hnul & Hws & Hlen).
  unfold append_line. destruct (mail_data_buffer ms) as [d|].
  - destruct text as [|x text]; [destruct t; discriminate Ht|].
    assert (Hread : read_recvbuf (stripped_recvbuf (x :: text) ws old) 0 = inr x)
      by reflexivity.
    rewrite Hread. cbn [unstuff].
    destruct (Ascii.eqb x "."%char).
    + change (tl (stripped_recvbuf (x :: text) ws old))
        with (text ++ repeat NUL (List.length ws)
                ++ NUL :: skipn (S (List.length ((x :: text) ++ ws))) old)%list.
      rewrite cstr_text_nuls by (intro Hin; apply Hnul; right; exact Hin).
      reflexivity.
    + rewrite cstr_stripped by exact Hnul. reflexivity.
  - rewrite cstr_stripped by exact Hnul. reflexivity.
Qed.

(** One round of the DATA loop on a clean line. *)
Lemma data_loop_clean (send_ok : nat -> bool) (text ws : list ascii)
    (rest : list read_event) (ms : smtp_state) :
  clean_line text ws ->
  data_loop send_ok (Line (text ++ ws) :: rest) ms
  = let ms1 := set_recvbuf (stripped_recvbuf text ws (recvbuf ms)) ms in
    if String.eqb (string_of_list_ascii text) "." then
      let (n, ms2) := end_of_data send_ok ms1 in Ret (n, ms2, rest)
    else
      data_loop send_ok rest
        (set_mail_data_buffer
           (Some (match mail_data_buffer ms with
                  | None => string_of_list_ascii text
                  | Some d => d ++ string_of_list_ascii (unstuff text)
                  end ++ CRLF)%string) ms1).
Proof.
  intro Hclean. pose proof Hclean as ((t & c & Ht & Hc) & Hnul & Hws & Hlen).
  cbn [data_loop nb_read_line]. rewrite size_t_test_always_true.
  replace (to_size_t (Z.of_nat (List.length (text ++ ws))) =? 0) with false.
  2:{ symmetry. apply Z.eqb_neq.
      rewrite to_size_t_small by (unfold MAX_LINE_LENGTH, SIZE_MODULUS in *; lia).
      subst text. rewrite !length_app. cbn [List.length]. lia. }
  destruct ms as [rb wds st rp fp md snt store]. cbn [recvbuf set_recvbuf].
  rewrite strip_trailing_clean by exact Hclean.
  cbn [recvbuf set_recvbuf]. rewrite cstr_stripped by exact Hnul.
  destruct (String.eqb (string_of_list_ascii text) "."); [reflexivity|].
  rewrite (append_line_clean text ws rb _ Hclean). reflexivity.
Qed.

(** The DATA loop over a run of body lines. *)
Lemma data_loop_body (send_ok : nat -> bool) :
  forall (lines : list (list ascii * list ascii)) (rest : list read_event)
         (rb : list ascii) (wds : list string) (st : State) (rp fp : user_list_t)
         (md : option string) (snt : list string)
         (store : list (string * user_list_t)),
    Forall (fun l => clean_line (fst l) (snd l) /\ fst l <> ["."%char]) lines ->
    exists rb',
      data_loop send_ok (map body_line lines ++ rest)
        (mk_smtp_state rb wds st rp fp md snt store)
      = data_loop send_ok rest
          (mk_smtp_state rb' wds st rp fp (accumulate md lines) snt store).
Proof.
  induction lines as [|[text ws] lines IH];
    intros rest rb wds st rp fp md snt store Hall.
  - exists rb. reflexivity.
  - inversion Hall as [|? ? [Hclean Hdot] Hall']; subst. cbn [fst snd] in *.
    cbn [map app accumulate].
    change (body_line (text, ws)) with (Line (text ++ ws)).
    rewrite data_loop_clean by exact Hclean.
    cbn [recvbuf set_recvbuf mail_data_buffer set_mail_data_buffer].
    rewrite string_of_list_dot by exact Hdot.
    cbn [words state reverse_path_buffer forward_path_buffer sent mailstore].
    apply IH. exact Hall'.
Qed.

(** DATA over a run of body lines and the terminator. *)
Lemma do_data_accumulates :
  forall (send_ok : nat -> bool) (lines : list (list ascii * list ascii))
         (ws0 : list ascii) (rest : list read_event) (ms : smtp_state),
    nwords ms = 1 ->
    state ms = Recipient_provided ->
    Forall (fun l => clean_line (fst l) (snd l) /\ fst l <> ["."%char]) lines ->
    clean_line ["."%char] ws0 ->
    exists ms',
      do_data send_ok (map body_line lines ++ Line ("."%char :: ws0) :: rest) ms
      = Ret (0, ms', rest)
      /\ mailstore ms'
         = (mailstore ms
              ++ [(file_contents (accumulate (mail_data_buffer ms) lines),
                   forward_path_buffer ms)])%list
      /\ reverse_path_buffer ms' = []
      /\ forward_path_buffer ms' = []
      /\ mail_data_buffer ms' = None
      /\ state ms' = Data_input_done
      /\ sent ms' = (sent ms ++ [MSG_354; MSG_250_DATA])%list.
Proof.
  intros send_ok lines ws0 rest ms Hw Hst Hall Hdot.
  unfold do_data. rewrite Hw, Hst. cbn [Z.eqb Pos.eqb negb State_eqb].
  destruct ms as [rb wds st rp fp md snt store].
  unfold send_formatted, set_sent, set_state.
  cbn [recvbuf words state reverse_path_buffer
       forward_path_buffer mail_data_buffer sent mailstore].
  destruct (data_loop_body send_ok lines (Line ("."%char :: ws0) :: rest)
              rb wds Data_input rp fp md (snt ++ [MSG_354])%list store Hall)
    as (rb' & ->).
  change ("."%char :: ws0) with (["."%char] ++ ws0)%list.
  rewrite data_loop_clean by exact Hdot.
  cbn [string_of_list_ascii String.eqb Ascii.eqb Bool.eqb].
  unfold end_of_data. rewrite clear_buffers_spec. cbn.
  eexists. split; [reflexivity|].
  repeat split. rewrite <- app_assoc. reflexivity.
Qed.

(** DATA over a run of body lines and then a line of white space only:
    the stripping loop leaves [recvbuf] and nothing is delivered. *)
Lemma do_data_blank_line (send_ok : nat -> bool)
    (lines : list (list ascii * list ascii)) (blank : list ascii)
    (rest : list read_event) (ms : smtp_state) :
  nwords ms = 1 ->
  state ms = Recipient_provided ->
  Forall (fun l => clean_line (fst l) (snd l) /\ fst l <> ["."%char]) lines ->
  blank <> [] ->
  Forall (fun c => isspace c = true) blank ->
  Z.of_nat (List.length blank) <= MAX_LINE_LENGTH ->
  exists ms',
    do_data send_ok (map body_line lines ++ Line blank :: rest) ms
    = Fault (OutOfBounds (SIZE_MODULUS - 1)) ms'
    /\ mailstore ms' = mailstore ms
    /\ state ms' = Data_input
    /\ sent ms' = (sent ms ++ [MSG_354])%list.
Proof.
  intros Hw Hst Hall Hne Hsp Hlen.
  unfold do_data. rewrite Hw, Hst. cbn [Z.eqb Pos.eqb negb State_eqb].
  destruct ms as [rb wds st rp fp md snt store].
  unfold send_formatted, set_sent, set_state.
  cbn [recvbuf words state reverse_path_buffer
       forward_path_buffer mail_data_buffer sent mailstore].
  destruct (data_loop_body send_ok lines (Line blank :: rest)
              rb wds Data_input rp fp md (snt ++ [MSG_354])%list store Hall)
    as (rb' & ->).
  rewrite data_loop_whitespace_line by assumption.
  eexists. split; [reflexivity|]. repeat split.
Qed.

(** X2.  DATA in Recipient_provided, followed by a run of body lines
    each of which has text (at least one byte, no NUL byte, the last
    byte of the text not white space, the text not a lone dot) before
    its trailing white space.  If a line made of a dot and trailing
    white space comes next, the handler replies 354 and 250 and returns
    0, having handed to the mail store, with the recipients, the text of
    the lines in order, each without its trailing white space and
    followed by CRLF, every line but the first one without one leading
    dot (the first line keeps it); the three buffers are cleared, the
    state is Data_input_done and the input after the terminator is left
    unread.  If instead a line of white space only comes next (a blank
    line is one), the handler stops in Data_input at a read below
    [recvbuf], with only the 354 sent and nothing delivered. *)
Theorem data_delivers_accumulated_body :
  forall (send_ok : nat -> bool) (lines : list (list ascii * list ascii))
         (rest : list read_event) (ms : smtp_state),
    nwords ms = 1 ->
    state ms = Recipient_provided ->
    Forall (fun l => clean_line (fst l) (snd l) /\ fst l <> ["."%char]) lines ->
    (forall ws0 : list ascii,
        clean_line ["."%char] ws0 ->
        exists ms',
          do_data send_ok
            (map body_line lines ++ Line ("."%char :: ws0) :: rest) ms
          = Ret (0, ms', rest)
          /\ mailstore ms'
             = (mailstore ms
                  ++ [(file_contents (accumulate (mail_data_buffer ms) lines),
                       forward_path_buffer ms)])%list
          /\ reverse_path_buffer ms' = []
          /\ forward_path_buffer ms' = []
          /\ mail_data_buffer ms' = None
          /\ state ms' = Data_input_done
          /\ sent ms' = (sent ms ++ [MSG_354; MSG_250_DATA])%list)
    /\ (forall blank : list ascii,
          blank <> [] ->
          Forall (fun c => isspace c = true) blank ->
          Z.of_nat (List.length blank) <= MAX_LINE_LENGTH ->
          exists ms',
            do_data send_ok (map body_line lines ++ Line blank :: rest) ms
            = Fault (OutOfBounds (SIZE_MODULUS - 1)) ms'
            /\ mailstore ms' = mailstore ms
            /\ state ms' = Data_input
            /\ sent ms' = (sent ms ++ [MSG_354])%list).
Proof.
  intros send_ok lines rest ms Hw Hst Hall. split.
  - intros ws0 Hdot. apply do_data_accumulates; assumption.
  - intros blank Hne Hsp Hlen. apply do_data_blank_line; assumption.
Qed.

Lemma data_delivers_accumulated_body_witness :
  (exists ms',
     do_data all_sends
       (map body_line sample_body ++ Line ("."%char :: [SP; CR; LF]) :: [Fail 0])
       (mk_smtp_state [] ["DATA"] Recipient_provided ["a@b"] ["c@d"] None [] [])
     = Ret (0, ms', [Fail 0])
     /\ mailstore ms'
        = [((".hidden" ++ CRLF ++ ".dots" ++ CRLF ++ "text" ++ CRLF)%string,
            ["c@d"])]
     /\ state ms' = Data_input_done)
  /\ (exists ms',
        do_data all_sends
          (map body_line sample_body ++ Line [CR; LF] :: [Fail 0])
          (mk_smtp_state [] ["DATA"] Recipient_provided ["a@b"] ["c@d"] None [] [])
        = Fault (OutOfBounds (SIZE_MODULUS - 1)) ms'
        /\ mailstore ms' = []).
Proof.
  destruct (data_delivers_accumulated_body all_sends sample_body [Fail 0]
              (mk_smtp_state [] ["DATA"] Recipient_provided ["a@b"] ["c@d"] None [] []))
    as (Hdone & Hblank).
  - reflexivity.
  - reflexivity.
  - repeat constructor; cbn [fst snd]; try discriminate;
      try (vm_compute; intuition discriminate).
    + exists (list_ascii_of_string ".hidde"), "n"%char. split; reflexivity.
    + exists (list_ascii_of_string "..dot"), "s"%char. split; reflexivity.
    + exists (list_ascii_of_string "tex"), "t"%char. split; reflexivity.
  - split.
    + destruct (Hdone [SP; CR; LF]) as (ms' & Hrun & Hstore & _ & _ & _ & Hst & _).
      * repeat split.
        -- exists [], "."%char. split; reflexivity.
        -- vm_compute. intuition discriminate.
        -- repeat constructor.
        -- vm_compute. discriminate.
      * exists ms'. split; [exact Hrun|]. split; [exact Hstore | exact Hst].
    + destruct (Hblank [CR; LF]) as (ms' & Hrun & Hstore & _).
      * discriminate.
      * repeat constructor.
      * vm_compute. discriminate.
      * exists ms'. split; [exact Hrun | exact Hstore].
Defined.

(** ** HELO, RSET, RCPT and VRFY *)

(** X3.  HELO/EHLO returns 0 exactly when the command has two words and
    the state is Init; the second word is not looked at.  It then replies
    250 with the node name, enters Executed_Helo and sets the three
    buffers to NULL, whatever the uninitialised fields held.  Otherwise it
    returns 1; it never returns -1. *)
Theorem helo_succeeds_iff :
  forall (send_ok : nat -> bool) (nodename : string) (ms : smtp_state),
    (fst (do_helo send_ok nodename ms) = 0
     <-> nwords ms = 2 /\ state ms = Init)
    /\ (fst (do_helo send_ok nodename ms) = 0 ->
        snd (do_helo send_ok nodename ms)
        = mk_smtp_state (recvbuf ms) (words ms) Executed_Helo [] [] None
            (sent ms ++ [MSG_250_HELO nodename])%list (mailstore ms))
    /\ (fst (do_helo send_ok nodename ms) = 0
        \/ fst (do_helo send_ok nodename ms) = 1).
Proof.
  intros send_ok nodename ms. unfold do_helo.
  destruct (nwords ms =? 2) eqn:Hw; cbn [negb].
  - apply Z.eqb_eq in Hw.
    destruct (state ms) eqn:Hst; cbn [State_eqb negb fst snd send_formatted];
      (split; [split; [intro H; try discriminate H; auto
                      | intros [_ H]; try discriminate H; reflexivity]|]);
      (split; [intro H; try discriminate H | auto]).
    destruct ms; cbn in *. subst. reflexivity.
  - apply Z.eqb_neq in Hw. cbn [fst snd send_formatted].
    split; [split; [intro H; discriminate H | intros [H _]; contradiction]|].
    split; [intro H; discriminate H | auto].
Qed.

Lemma helo_succeeds_iff_witness :
  fst (do_helo all_sends "host" helo_in_init) = 0
  /\ reverse_path_buffer (snd (do_helo all_sends "host" helo_in_init)) = []
  /\ forward_path_buffer (snd (do_helo all_sends "host" helo_in_init)) = []
  /\ state (snd (do_helo all_sends "host" helo_in_init)) = Executed_Helo.
Proof.
  destruct (helo_succeeds_iff all_sends "host" helo_in_init) as (Hiff & Heff & _).
  assert (H0 : fst (do_helo all_sends "host" helo_in_init) = 0)
    by (apply (proj2 Hiff); split; reflexivity).
  split; [exact H0|]. rewrite (Heff H0). repeat split.
Defined.

(** X4.  RSET returns 1 in every case.  With arguments it replies 501 and
    changes nothing.  Without arguments it replies 250; in Init nothing
    else changes, and in every other state the reverse path, the
    recipients and the mail data are discarded and the state becomes
    Executed_Helo.  The mail store is never touched. *)
Theorem rset_effect :
  forall (send_ok : nat -> bool) (ms : smtp_state),
    fst (do_rset send_ok ms) = 1
    /\ (nwords ms <> 1 -> snd (do_rset send_ok ms) = replied ms MSG_501_ARGS)
    /\ (nwords ms = 1 -> state ms = Init ->
        snd (do_rset send_ok ms) = replied ms MSG_250_RSET)
    /\ (nwords ms = 1 -> state ms <> Init ->
        snd (do_rset send_ok ms)
        = mk_smtp_state (recvbuf ms) (words ms) Executed_Helo [] [] None
            (sent ms ++ [MSG_250_RSET])%list (mailstore ms)).
Proof.
  intros send_ok ms. unfold do_rset.
  destruct (nwords ms =? 1) eqn:Hw; cbn [negb].
  - apply Z.eqb_eq in Hw. split; [reflexivity|]. split; [intro H; contradiction|].
    split.
    + intros _ Hst. rewrite Hst. reflexivity.
    + intros _ Hst. destruct (State_eqb (state ms) Init) eqn:E.
      * apply State_eqb_eq in E. contradiction.
      * cbn [negb]. rewrite clear_buffers_spec. reflexivity.
  - apply Z.eqb_neq in Hw. split; [reflexivity|]. split; [reflexivity|].
    split; intro H; contradiction.
Qed.

Lemma rset_effect_witness :
  snd (do_rset all_sends ehlo_without_domain)
  = mk_smtp_state [] ["EHLO"] Executed_Helo [] [] None [MSG_250_RSET] []
  /\ snd (do_rset all_sends rset_with_recipient)
     = mk_smtp_state [] ["RSET"] Executed_Helo [] [] None [MSG_250_RSET] []
  /\ snd (do_rset all_sends
            (mk_smtp_state [] ["RSET"] Init ["stale"] [] None [] []))
     = mk_smtp_state [] ["RSET"] Init ["stale"] [] None [MSG_250_RSET] []
  /\ snd (do_rset all_sends data_with_argument)
     = replied data_with_argument MSG_501_ARGS.
Proof.
  split; [|split; [|split]].
  - apply (rset_effect all_sends ehlo_without_domain); [reflexivity | discriminate].
  - apply (rset_effect all_sends rset_with_recipient); [reflexivity | discriminate].
  - apply (rset_effect all_sends
             (mk_smtp_state [] ["RSET"] Init ["stale"] [] None [] []));
      reflexivity.
  - apply (rset_effect all_sends data_with_argument). discriminate.
Defined.

(** X5.  RCPT with the word [TO:<addr>] in Mail_transaction_open or
    Recipient_provided asks the User Directory about [addr].  If it is
    accepted, [addr] joins the recipients, the state is Recipient_provided
    and the reply is 250, the reverse path, the mail data and the mail
    store being kept.  If it is refused, the reply is 550 with [addr], the
    handler returns 1 and nothing else changes: in particular the state
    does not advance. *)
Theorem rcpt_effect :
  forall (send_ok : nat -> bool) (is_valid_user : string -> bool)
         (ms : smtp_state) (c p addr : string),
    words ms = [c; (p ++ addr ++ ">")%string] ->
    strcasecmp p "TO:<" = true ->
    state ms = Mail_transaction_open \/ state ms = Recipient_provided ->
    (is_valid_user addr = true ->
     do_rcpt send_ok is_valid_user ms
     = Ret (0, mk_smtp_state (recvbuf ms) (words ms) Recipient_provided
                 (reverse_path_buffer ms) (forward_path_buffer ms ++ [addr])%list
                 (mail_data_buffer ms) (sent ms ++ [MSG_250_RCPT])%list
                 (mailstore ms)))
    /\ (is_valid_user addr = false ->
        do_rcpt send_ok is_valid_user ms = Ret (1, replied ms (MSG_550 addr))
        /\ rejected_with "550" ms (replied ms (MSG_550 addr))).
Proof.
  intros send_ok ivu ms c p addr Hws Hp Hst.
  assert (Hs : state_ok RCPT (state ms) = true)
    by (destruct Hst as [-> | ->]; reflexivity).
  rewrite (do_rcpt_success send_ok ivu ms c p addr Hws Hp Hs).
  split; intro Hv; rewrite Hv; [reflexivity|].
  split; [reflexivity|]. apply (replied_rejected ms (MSG_550 addr)).
Qed.

Lemma rcpt_effect_witness :
  do_rcpt all_sends only_bob rcpt_after_mail
  = Ret (0, mk_smtp_state [] ["RCPT"; "To:<bob@example.org>"] Recipient_provided
              ["alice@example.org"] ["bob@example.org"] None [MSG_250_RCPT] [])
  /\ do_rcpt all_sends only_bob rcpt_second
     = Ret (1, replied rcpt_second (MSG_550 "carol@example.org")).
Proof.
  destruct (rcpt_effect all_sends only_bob rcpt_after_mail
              "RCPT" "To:<" "bob@example.org") as [Hacc _];
    [reflexivity | reflexivity | left; reflexivity |].
  destruct (rcpt_effect all_sends only_bob rcpt_second
              "RCPT" "TO:<" "carol@example.org") as [_ Hrej];
    [reflexivity | reflexivity | right; reflexivity |].
  split; [exact (Hacc eq_refl) | exact (proj1 (Hrej eq_refl))].
Defined.

(** X6.  VRFY passes its argument word to the User Directory as it is
    and replies 250 with the word in angle brackets or 550 with the word;
    in both cases it returns 0.  With any other number of words it
    replies 501 and returns 1.  In no case does it change the state, a
    buffer or the mail store. *)
Theorem vrfy_effect :
  forall (send_ok : nat -> bool) (is_valid_user : string -> bool)
         (ms : smtp_state),
    (nwords ms <> 2 ->
     do_vrfy send_ok is_valid_user ms = Ret (1, replied ms MSG_501_PARAMS))
    /\ (forall c w,
          words ms = [c; w] ->
          do_vrfy send_ok is_valid_user ms
          = Ret (0, replied ms (if is_valid_user w then MSG_250_VRFY w
                                else MSG_550 w))
          /\ rejected_with (if is_valid_user w then "250" else "550") ms
               (replied ms (if is_valid_user w then MSG_250_VRFY w
                            else MSG_550 w))).
Proof.
  intros send_ok ivu ms. split.
  - intro Hw. unfold do_vrfy.
    replace (nwords ms =? 2) with false by (symmetry; apply Z.eqb_neq; exact Hw).
    cbn [negb]. destruct (syntax_error_replied send_ok ms) as (n & ->).
    reflexivity.
  - intros c w Hws. unfold do_vrfy, nwords. rewrite Hws.
    cbn [List.length Z.of_nat Pos.of_succ_nat Pos.succ Z.eqb Pos.eqb negb nth_error].
    destruct (ivu w); (split; [reflexivity|]).
    + apply (replied_rejected ms (MSG_250_VRFY w)).
    + apply (replied_rejected ms (MSG_550 w)).
Qed.

Lemma vrfy_effect_witness :
  do_vrfy all_sends only_bob vrfy_bob
  = Ret (0, replied vrfy_bob (MSG_250_VRFY "bob@example.org"))
  /\ do_vrfy all_sends only_bob rset_with_recipient
     = Ret (1, replied rset_with_recipient MSG_501_PARAMS).
Proof.
  destruct (vrfy_effect all_sends only_bob vrfy_bob) as [_ H2].
  destruct (vrfy_effect all_sends only_bob rset_with_recipient) as [H1 _].
  split.
  - exact (proj1 (H2 "VRFY" "bob@example.org" eq_refl)).
  - apply H1. discriminate.
Defined.

(** ** Leaving the command loop *)

(** X7.  A command line whose first word is a spelling of QUIT ends the
    session in every state, whatever words follow it and whether or not
    the reply can be written: 221 is the last thing sent, the state and
    the buffers stay as they were, and no later input is read. *)
Theorem quit_ends_session :
  forall (send_ok : nat -> bool) (is_valid_user : string -> bool)
         (nodename : string) (text ws : list ascii) (command : string)
         (rest : list read_event) (ms : smtp_state) (fuel : nat),
    clean_line text (ws ++ [LF]) ->
    nth_error (split (string_of_list_ascii text)) 0 = Some command ->
    strcasecmp command "QUIT" = true ->
    client_loop send_ok is_valid_user nodename (S fuel)
      (Line (text ++ ws ++ [LF]) :: rest) ms
    = Ret (replied (with_command_line text (ws ++ [LF]) ms) MSG_221)
    /\ rejected_with "221" ms
         (replied (with_command_line text (ws ++ [LF]) ms) MSG_221).
Proof.
  intros send_ok ivu nodename text ws command rest ms fuel Hclean Hcmd Hq.
  split.
  - cbn [client_loop]. rewrite client_round_clean by exact Hclean.
    rewrite Hcmd. unfold run_command. rewrite Hq. reflexivity.
  - destruct ms. unfold rejected_with, replied, with_command_line. cbn.
    repeat split. eexists. split; reflexivity.
Qed.

Lemma quit_ends_session_witness :
  client_loop no_sends all_users "host" 1
    (Line (quit_text ++ [SP; CR] ++ [LF]) :: open_transaction) rset_with_recipient
  = Ret (replied (with_command_line quit_text ([SP; CR] ++ [LF])
                    rset_with_recipient) MSG_221).
Proof.
  apply (quit_ends_session no_sends all_users "host" quit_text [SP; CR] "quit"
           open_transaction rset_with_recipient 0).
  - repeat split.
    + exists (list_ascii_of_string "quit no"), "w"%char. split; reflexivity.
    + vm_compute. intuition discriminate.
    + repeat constructor.
    + vm_compute. discriminate.
  - reflexivity.
  - reflexivity.
Defined.

Lemma strlen_cstr_with_NUL (l tail : list ascii) :
  In NUL l -> strlen (cstr (l ++ tail)) < Z.of_nat (List.length l).
Proof.
  unfold strlen. induction l as [|c l IH]; intro H; [contradiction|].
  cbn [app cstr]. destruct (Ascii.eqb c NUL) eqn:E.
  - cbn [String.length List.length]. lia.
  - destruct H as [H | H].
    + subst c. discriminate E.
    + specialize (IH H). cbn [String.length List.length]. lia.
Qed.

(** X8.  A line that does not end in LF (the Line Reader's limit was
    reached) or that holds a NUL byte is answered 500 and ends the
    session at once: the loop is left without the line being split or
    dispatched, and no later input is read. *)
Theorem malformed_line_closes :
  forall (send_ok : nat -> bool) (is_valid_user : string -> bool)
         (nodename : string) (bytes : list ascii) (c : ascii)
         (rest : list read_event) (ms : smtp_state) (fuel : nat),
    Z.of_nat (List.length (bytes ++ [c])) <= MAX_LINE_LENGTH ->
    c <> LF \/ In NUL bytes ->
    client_loop send_ok is_valid_user nodename (S fuel)
      (Line (bytes ++ [c]) :: rest) ms
    = Ret (replied
             (set_recvbuf
                ((bytes ++ [c]) ++ NUL
                   :: skipn (S (List.length (bytes ++ [c]))) (recvbuf ms)) ms)
             MSG_500).
Proof.
  intros send_ok ivu nodename bytes c rest ms fuel Hlen Hbad.
  cbn [client_loop]. unfold client_round. cbn [nb_read_line].
  rewrite size_t_test_always_true.
  destruct ms as [rb wds st rp fp md snt store]. cbn [recvbuf set_recvbuf].
  assert (Hl : List.length (bytes ++ [c]) = S (List.length bytes))
    by (rewrite length_app; cbn [List.length]; lia).
  rewrite Hl in *.
  rewrite (to_size_t_small (Z.of_nat (S (List.length bytes))))
    by (unfold MAX_LINE_LENGTH, SIZE_MODULUS in *; lia).
  replace (Z.of_nat (S (List.length bytes)) - 1)
    with (Z.of_nat (List.length bytes)) by lia.
  rewrite to_size_t_small by (unfold MAX_LINE_LENGTH, SIZE_MODULUS in *; lia).
  rewrite (read_recvbuf_in_bounds _ (List.length bytes) c);
    [|lia | rewrite <- app_assoc; cbn [app]; apply nth_error_middle].
  destruct (Ascii.eqb c LF) eqn:E; cbn [negb]; [|reflexivity].
  apply Ascii.eqb_eq in E. destruct Hbad as [Hc | Hnul]; [contradiction|].
  replace (strlen _ <? Z.of_nat (S (List.length bytes))) with true; [reflexivity|].
  symmetry. apply Z.ltb_lt.
  eapply Z.lt_trans with (m := Z.of_nat (List.length bytes)); [|lia].
  rewrite <- app_assoc. apply strlen_cstr_with_NUL. exact Hnul.
Qed.

Lemma malformed_line_closes_witness :
  client_loop all_sends all_users "host" 1
    (Line (list_ascii_of_string "NOOP" ++ [CR]) :: open_transaction)
    rset_with_recipient
  = Ret (replied
           (set_recvbuf (list_ascii_of_string "NOOP" ++ [CR; NUL])
              rset_with_recipient)
           MSG_500).
Proof.
  apply (malformed_line_closes all_sends all_users "host"
           (list_ascii_of_string "NOOP") CR open_transaction
           rset_with_recipient 0).
  - vm_compute. discriminate.
  - left. discriminate.
Defined.

Lemma do_mail_range (send_ok : nat -> bool) (ms : smtp_state) (n : Z)
    (ms' : smtp_state) :
  do_mail send_ok ms = Ret (n, ms') -> n = 0 \/ n = 1.
Proof.
  intro H. destruct (args_ok MAIL ms) eqn:Ha.
  - destruct (state_ok MAIL (state ms)) eqn:Hs.
    + destruct (mail_args_ok_inv ms Ha) as (c & w & Hws & Hw).
      destruct (path_word_shape _ _ from_prefix_not_closed Hw) as (p & addr & -> & Hp).
      rewrite (do_mail_success send_ok ms c p addr Hws Hp Hs) in H.
      injection H as <- _. auto.
    + rewrite do_mail_sequence in H by assumption. injection H as <- _. auto.
  - rewrite do_mail_syntax in H by assumption. injection H as <- _. auto.
Qed.

Lemma do_rcpt_range (send_ok : nat -> bool) (is_valid_user : string -> bool)
    (ms : smtp_state) (n : Z) (ms' : smtp_state) :
  do_rcpt send_ok is_valid_user ms = Ret (n, ms') -> n = 0 \/ n = 1.
Proof.
  intro H. destruct (args_ok RCPT ms) eqn:Ha.
  - destruct (state_ok RCPT (state ms)) eqn:Hs.
    + destruct (rcpt_args_ok_inv ms Ha) as (c & w & Hws & Hw).
      destruct (path_word_shape _ _ to_prefix_not_closed Hw) as (p & addr & -> & Hp).
      rewrite (do_rcpt_success send_ok is_valid_user ms c p addr Hws Hp Hs) in H.
      destruct (is_valid_user addr); injection H as <- _; auto.
    + rewrite do_rcpt_sequence in H by assumption. injection H as <- _. auto.
  - rewrite do_rcpt_syntax in H by assumption. injection H as <- _. auto.
Qed.

Lemma do_vrfy_range (send_ok : nat -> bool) (is_valid_user : string -> bool)
    (ms : smtp_state) (n : Z) (ms' : smtp_state) :
  do_vrfy send_ok is_valid_user ms = Ret (n, ms') -> n = 0 \/ n = 1.
Proof.
  unfold do_vrfy. intro H.
  destruct (negb (nwords ms =? 2)).
  - destruct (syntax_error send_ok ms). injection H as <- _. auto.
  - destruct (nth_error (words ms) 1); [|discriminate H].
    destruct (is_valid_user s); cbn in H; injection H as <- _; auto.
Qed.

Lemma do_data_range (send_ok : nat -> bool) (input : list read_event)
    (ms : smtp_state) (n : Z) (ms' : smtp_state) (rest : list read_event) :
  do_data send_ok input ms = Ret (n, ms', rest) -> n = 0 \/ n = 1.
Proof.
  unfold do_data. intro H.
  destruct (negb (nwords ms =? 1)).
  - destruct (syntax_error send_ok ms). injection H as <- _ _. auto.
  - destruct (negb (State_eqb (state ms) Recipient_provided)).
    + cbn in H. injection H as <- _ _. auto.
    + cbn in H. left. eapply data_loop_returns_only_zero. exact H.
Qed.

(** X9.  A handler result is -1, 0 or 1, and the loop is left after a
    command in two cases only: the first word is a spelling of QUIT, or
    it selects no handler (EXPN, HELP or an unknown word) and the 502 or
    500 reply could not be written.  HELO, MAIL, RCPT, DATA, RSET, NOOP
    and VRFY never end the session, not even when their reply could not
    be written. *)
Theorem loop_left_only_by_quit_or_failed_write :
  forall (send_ok : nat -> bool) (is_valid_user : string -> bool)
         (nodename command : string) (rest : list read_event) (ms : smtp_state)
         (n : Z) (ms' : smtp_state) (rest' : list read_event),
    run_command send_ok is_valid_user nodename command rest ms
    = Ret (n, ms', rest') ->
    (n = -1 \/ n = 0 \/ n = 1)
    /\ (n = -1 <->
        strcasecmp command "QUIT" = true
        \/ (has_handler command = false
            /\ send_ok (List.length (sent ms)) = false)).
Proof.
  intros send_ok ivu nodename command rest ms n ms' rest'.
  unfold run_command, has_handler.
  assert (Hno : forall m : Z, m = 0 \/ m = 1 ->
            (m = -1 \/ m = 0 \/ m = 1)
            /\ (m = -1 <-> false = true \/ true = false /\
                           send_ok (List.length (sent ms)) = false)).
  { intros m Hm. split; [tauto|]. split; [lia|].
    intros [H | [H _]]; discriminate H. }
  destruct (strcasecmp command "QUIT").
  { cbn. intro H. injection H as <- _ _. split; [auto|]. split; auto. }
  destruct (strcasecmp command "HELO") eqn:E1; cbn [orb].
  { unfold do_helo. intro H. apply Hno.
    destruct (negb _); [|destruct (negb _)]; cbn in H; injection H as <- _ _; auto. }
  destruct (strcasecmp command "EHLO") eqn:E2; cbn [orb].
  { unfold do_helo. intro H. apply Hno.
    destruct (negb _); [|destruct (negb _)]; cbn in H; injection H as <- _ _; auto. }
  destruct (strcasecmp command "MAIL") eqn:E3; cbn [orb].
  { intro H. apply Hno.
    destruct (do_mail send_ok ms) as [[m ms1]| | |] eqn:E; try discriminate H.
    cbn in H. injection H as <- _ _. eapply do_mail_range. exact E. }
  destruct (strcasecmp command "RCPT") eqn:E4; cbn [orb].
  { intro H. apply Hno.
    destruct (do_rcpt send_ok ivu ms) as [[m ms1]| | |] eqn:E; try discriminate H.
    cbn in H. injection H as <- _ _. eapply do_rcpt_range. exact E. }
  destruct (strcasecmp command "DATA") eqn:E5; cbn [orb].
  { intro H. apply Hno. eapply do_data_range. exact H. }
  destruct (strcasecmp command "RSET") eqn:E6; cbn [orb].
  { unfold do_rset. intro H. apply Hno.
    destruct (negb _); cbn in H; injection H as <- _ _; auto. }
  destruct (strcasecmp command "NOOP") eqn:E7; cbn [orb].
  { cbn. intro H. apply Hno. injection H as <- _ _. auto. }
  destruct (strcasecmp command "VRFY") eqn:E8; cbn [orb].
  { intro H. apply Hno.
    destruct (do_vrfy send_ok ivu ms) as [[m ms1]| | |] eqn:E; try discriminate H.
    cbn in H. injection H as <- _ _. eapply do_vrfy_range. exact E. }
  assert (Hend : forall msg : string,
            0 < strlen msg ->
            (let (k, ms0) := send_formatted send_ok ms msg in
             Ret (if k <=? 0 then -1 else 0, ms0, rest)) = Ret (n, ms', rest') ->
            (n = -1 \/ n = 0 \/ n = 1)
            /\ (n = -1 <-> false = true \/ false = false /\
                           send_ok (List.length (sent ms)) = false)).
  { intros msg Hmsg. unfold send_formatted.
    destruct (send_ok (List.length (sent ms))).
    - replace (strlen msg <=? 0) with false by (symmetry; apply Z.leb_gt; exact Hmsg).
      intro H. injection H as <- _ _. split; [auto|]. split; [lia|].
      intros [H | [_ H]]; discriminate H.
    - cbn. intro H. injection H as <- _ _. split; [auto|]. split; auto. }
  destruct (strcasecmp command "EXPN" || strcasecmp command "HELP")%bool;
    apply Hend; reflexivity.
Qed.

Lemma loop_left_only_by_quit_or_failed_write_witness :
  (-1 = -1 <->
   strcasecmp "HELP" "QUIT" = true
   \/ (has_handler "HELP" = false
       /\ no_sends (List.length (sent rset_with_recipient)) = false)).
Proof.
  apply (loop_left_only_by_quit_or_failed_write no_sends all_users "host" "HELP"
           [] rset_with_recipient (-1) (replied rset_with_recipient MSG_502) []).
  reflexivity.
Defined.

(** ** The reply trace and the mail store along a session *)

Lemma ends_with_crlf_append (s : string) : ends_with_crlf (s ++ CRLF) = true.
Proof.
  induction s as [|c s IH]; [reflexivity|].
  cbn [append]. destruct s as [|x s]; [reflexivity|].
  cbn [append] in *. destruct s as [|y s]; [reflexivity|].
  cbn [append] in *. exact IH.
Qed.

Lemma well_formed_reply_text (a b c : ascii) (text : string) :
  is_digit a = true -> is_digit b = true -> is_digit c = true ->
  well_formed_reply
    (String a (String b (String c (String SP (text ++ CRLF))))) = true.
Proof.
  intros Ha Hb Hc. unfold well_formed_reply.
  rewrite Ha, Hb, Hc, Ascii.eqb_refl, ends_with_crlf_append. reflexivity.
Qed.

Lemma MSG_220_well_formed (nodename : string) :
  well_formed_reply (MSG_220 nodename) = true.
Proof.
  unfold MSG_220.
  replace ("220 " ++ nodename ++ " Service ready" ++ CRLF)%string
    with (String "2" (String "2" (String "0" (String SP
            ((nodename ++ " Service ready") ++ CRLF)))))%string
    by (rewrite append_assoc; reflexivity).
  apply well_formed_reply_text; reflexivity.
Qed.

Lemma MSG_250_HELO_well_formed (nodename : string) :
  well_formed_reply (MSG_250_HELO nodename) = true.
Proof. apply (well_formed_reply_text "2" "5" "0" nodename); reflexivity. Qed.

Lemma MSG_250_VRFY_well_formed (u : string) :
  well_formed_reply (MSG_250_VRFY u) = true.
Proof.
  unfold MSG_250_VRFY.
  replace ("250 <" ++ u ++ ">" ++ CRLF)%string
    with (String "2" (String "5" (String "0" (String SP
            (("<" ++ u ++ ">") ++ CRLF)))))%string
    by (rewrite !append_assoc; reflexivity).
  apply well_formed_reply_text; reflexivity.
Qed.

Lemma MSG_550_well_formed (u : string) : well_formed_reply (MSG_550 u) = true.
Proof.
  unfold MSG_550.
  replace ("550 No such user - " ++ u ++ CRLF)%string
    with (String "5" (String "5" (String "0" (String SP
            (("No such user - " ++ u) ++ CRLF)))))%string
    by (rewrite append_assoc; reflexivity).
  apply well_formed_reply_text; reflexivity.
Qed.

Lemma command_step_refl (ms : smtp_state) : command_step ms ms.
Proof.
  repeat split; auto.
  exists []. split; [symmetry; apply app_nil_r | constructor].
Qed.

Lemma command_step_replied (ms : smtp_state) (msg : string) :
  well_formed_reply msg = true -> command_step ms (replied ms msg).
Proof.
  intro H. destruct ms. unfold command_step, replied. cbn.
  repeat split; auto. exists [msg]. split; [reflexivity|]. repeat constructor. exact H.
Qed.

(** The fields a round looks at are those of [ms]. *)
Lemma command_step_from (ms ms1 ms' : smtp_state) :
  sent ms1 = sent ms -> state ms1 = state ms ->
  mailstore ms1 = mailstore ms ->
  forward_path_buffer ms1 = forward_path_buffer ms ->
  command_step ms1 ms' -> command_step ms ms'.
Proof. unfold command_step. intros -> -> -> ->. exact (fun H => H). Qed.

Section Steps.

Variable send_ok : nat -> bool.
Variable is_valid_user : string -> bool.
Variable nodename : string.

Lemma syntax_error_step (ms : smtp_state) :
  command_step ms (snd (syntax_error send_ok ms)).
Proof.
  destruct (syntax_error_replied send_ok ms) as (n & ->).
  apply command_step_replied. reflexivity.
Qed.

Lemma do_helo_step (ms : smtp_state) :
  command_step ms (snd (do_helo send_ok nodename ms)).
Proof.
  unfold do_helo.
  destruct (negb (nwords ms =? 2));
    [apply (command_step_replied ms MSG_501_ARGS); reflexivity|].
  destruct (negb (State_eqb (state ms) Init));
    [apply (command_step_replied ms MSG_503_WRONG); reflexivity|].
  destruct ms. unfold command_step. cbn. repeat split; auto; try discriminate.
  eexists. split; [reflexivity|]. repeat constructor.
  apply MSG_250_HELO_well_formed.
Qed.

Lemma do_rset_step (ms : smtp_state) :
  command_step ms (snd (do_rset send_ok ms)).
Proof.
  unfold do_rset.
  destruct (negb (nwords ms =? 1));
    [apply (command_step_replied ms MSG_501_ARGS); reflexivity|].
  destruct (negb (State_eqb (state ms) Init)).
  - rewrite clear_buffers_spec. destruct ms. unfold command_step. cbn.
    repeat split; auto; try discriminate.
    eexists. split; [reflexivity|]. repeat constructor.
  - apply (command_step_replied ms MSG_250_RSET). reflexivity.
Qed.

Lemma do_vrfy_step (ms : smtp_state) :
  outcome_holds (fun r => command_step ms (snd r)) (command_step ms)
    (do_vrfy send_ok is_valid_user ms).
Proof.
  unfold do_vrfy. destruct (negb (nwords ms =? 2)).
  - pose proof (syntax_error_step ms) as H.
    destruct (syntax_error send_ok ms). exact H.
  - destruct (nth_error (words ms) 1) as [w|]; [|apply command_step_refl].
    destruct (is_valid_user w); cbn; apply command_step_replied.
    + apply MSG_250_VRFY_well_formed.
    + apply MSG_550_well_formed.
Qed.

Lemma do_mail_step (ms : smtp_state) :
  outcome_holds (fun r => command_step ms (snd r)) (command_step ms)
    (do_mail send_ok ms).
Proof.
  destruct (args_ok MAIL ms) eqn:Ha.
  - destruct (state_ok MAIL (state ms)) eqn:Hs.
    + destruct (mail_args_ok_inv ms Ha) as (c & w & Hws & Hw).
      destruct (path_word_shape _ _ from_prefix_not_closed Hw) as (p & addr & -> & Hp).
      rewrite (do_mail_success send_ok ms c p addr Hws Hp Hs).
      unfold command_step. cbn. repeat split; auto; try discriminate.
      eexists. split; [reflexivity|]. repeat constructor.
    + rewrite do_mail_sequence by assumption.
      apply (command_step_replied ms MSG_503_WRONG). reflexivity.
  - rewrite do_mail_syntax by assumption.
    apply (command_step_replied ms MSG_501_PARAMS). reflexivity.
Qed.

Lemma do_rcpt_step (ms : smtp_state) :
  outcome_holds (fun r => command_step ms (snd r)) (command_step ms)
    (do_rcpt send_ok is_valid_user ms).
Proof.
  destruct (args_ok RCPT ms) eqn:Ha.
  - destruct (state_ok RCPT (state ms)) eqn:Hs.
    + destruct (rcpt_args_ok_inv ms Ha) as (c & w & Hws & Hw).
      destruct (path_word_shape _ _ to_prefix_not_closed Hw) as (p & addr & -> & Hp).
      rewrite (do_rcpt_success send_ok is_valid_user ms c p addr Hws Hp Hs).
      destruct (is_valid_user addr).
      * unfold command_step. cbn. repeat split; auto; try discriminate.
        eexists. split; [reflexivity|]. repeat constructor.
      * apply (command_step_replied ms (MSG_550 addr)), MSG_550_well_formed.
    + rewrite do_rcpt_sequence by assumption.
      apply (command_step_replied ms MSG_503_WRONG). reflexivity.
  - rewrite do_rcpt_syntax by assumption.
    apply (command_step_replied ms MSG_501_PARAMS). reflexivity.
Qed.

Lemma data_step_from (ms ms1 ms' : smtp_state) :
  sent ms1 = sent ms -> mailstore ms1 = mailstore ms ->
  forward_path_buffer ms1 = forward_path_buffer ms ->
  data_step ms1 ms' -> data_step ms ms'.
Proof. unfold data_step. intros -> -> ->. exact (fun H => H). Qed.

Lemma append_line_keeps (buf : list ascii) (ms : smtp_state) :
  outcome_holds
    (fun ms' => state ms' = state ms /\ sent ms' = sent ms
                /\ mailstore ms' = mailstore ms
                /\ forward_path_buffer ms' = forward_path_buffer ms)
    (fun ms' => ms' = ms)
    (append_line buf ms).
Proof.
  unfold append_line.
  destruct (mail_data_buffer ms) as [d|].
  - destruct (read_recvbuf buf 0) as [f|c]; [reflexivity|].
    destruct (Ascii.eqb c "."%char); destruct ms; cbn; auto.
  - destruct ms; cbn; auto.
Qed.

Lemma data_loop_step :
  forall (input : list read_event) (ms : smtp_state),
    state ms = Data_input ->
    outcome_holds
      (fun r => data_step ms (snd (fst r))
                /\ (List.length (snd r) <= List.length input)%nat)
      (data_step ms)
      (data_loop send_ok input ms).
Proof.
  assert (Hrefl : forall ms, state ms = Data_input -> data_step ms ms).
  { intros ms Hst. unfold data_step. rewrite Hst. repeat split; auto; try discriminate.
    exists []. split; [symmetry; apply app_nil_r | constructor]. }
  induction input as [|ev input IH]; intros ms Hst.
  - cbn. apply Hrefl, Hst.
  - cbn [data_loop].
    destruct (nb_read_line ev (recvbuf ms)) as [r buf].
    rewrite size_t_test_always_true.
    assert (Hle : forall (m : smtp_state) (r0 : Z * smtp_state * list read_event),
               sent m = sent ms -> mailstore m = mailstore ms ->
               forward_path_buffer m = forward_path_buffer ms ->
               data_step m (snd (fst r0))
               /\ (List.length (snd r0) <= List.length input)%nat ->
               data_step ms (snd (fst r0))
               /\ (List.length (snd r0) <= List.length (ev :: input))%nat).
    { intros m r0 E1 E2 E3 [H1 H2]. split.
      - eapply data_step_from; eassumption.
      - cbn [List.length]. lia. }
    destruct (to_size_t r =? 0).
    + pose proof (IH (set_recvbuf buf ms)) as G.
      destruct (data_loop send_ok input (set_recvbuf buf ms))
        as [r0|f m|m|]; cbn in G |- *.
      * apply (Hle (set_recvbuf buf ms)); try (destruct ms; reflexivity).
        apply G. destruct ms; exact Hst.
      * eapply data_step_from; [..|apply G; destruct ms; exact Hst];
          destruct ms; reflexivity.
      * eapply data_step_from; [..|apply G; destruct ms; exact Hst];
          destruct ms; reflexivity.
      * apply G. destruct ms; exact Hst.
    + cbn [recvbuf]. destruct (strip_trailing _ _) as [f|[buf' len']].
      * cbn. eapply data_step_from; [..|apply Hrefl]; destruct ms; try reflexivity.
        exact Hst.
      * replace (set_recvbuf buf' (set_recvbuf buf ms)) with (set_recvbuf buf' ms)
          by (destruct ms; reflexivity).
        destruct (String.eqb _ _).
        -- unfold end_of_data. rewrite clear_buffers_spec.
           destruct ms. cbn in *. split; [|lia].
           unfold data_step. cbn. repeat split; try discriminate.
           ++ exists [MSG_250_DATA]. split; [reflexivity|]. repeat constructor.
           ++ right. eexists. reflexivity.
        -- pose proof (append_line_keeps (recvbuf (set_recvbuf buf' ms))
                         (set_recvbuf buf' ms)) as Ha.
           destruct (append_line _ _) as [ms1|f ms1|ms1|]; cbn in Ha.
           ++ destruct Ha as (A1 & A2 & A3 & A4).
              assert (Hst1 : state ms1 = Data_input)
                by (rewrite A1; destruct ms; exact Hst).
              pose proof (IH ms1 Hst1) as G.
              assert (E1 : sent ms1 = sent ms) by (rewrite A2; destruct ms; reflexivity).
              assert (E2 : mailstore ms1 = mailstore ms)
                by (rewrite A3; destruct ms; reflexivity).
              assert (E3 : forward_path_buffer ms1 = forward_path_buffer ms)
                by (rewrite A4; destruct ms; reflexivity).
              destruct (data_loop send_ok input ms1) as [r0|f m|m|]; cbn in G |- *.
              ** apply (Hle ms1); assumption.
              ** eapply data_step_from; eassumption.
              ** eapply data_step_from; eassumption.
              ** exact G.
           ++ cbn. subst ms1.
              eapply data_step_from; [..|apply Hrefl]; destruct ms; try reflexivity.
              exact Hst.
           ++ cbn. subst ms1.
              eapply data_step_from; [..|apply Hrefl]; destruct ms; try reflexivity.
              exact Hst.
           ++ exact Ha.
Qed.

Lemma do_data_step (input : list read_event) (ms : smtp_state) :
  outcome_holds
    (fun r => command_step ms (snd (fst r))
              /\ (List.length (snd r) <= List.length input)%nat)
    (command_step ms)
    (do_data send_ok input ms).
Proof.
  destruct (args_ok DATA ms) eqn:Ha.
  - destruct (state_ok DATA (state ms)) eqn:Hs.
    + unfold do_data. cbn [args_ok] in Ha. rewrite Ha. cbn [negb].
      destruct (state ms) eqn:Hst; try discriminate Hs. cbn [State_eqb negb].
      unfold send_formatted.
      set (ms1 := set_sent _ _).
      assert (Hs1 : state ms1 = Data_input) by (destruct ms; reflexivity).
      assert (Hlift : forall ms', data_step ms1 ms' -> command_step ms ms').
      { intros ms' ((l & Hl & Hwf) & Hni & Hstore).
        unfold command_step. rewrite Hst.
        replace (sent ms1) with (sent ms ++ [MSG_354])%list in Hl
          by (destruct ms; reflexivity).
        replace (mailstore ms1) with (mailstore ms) in Hstore
          by (destruct ms; reflexivity).
        replace (forward_path_buffer ms1) with (forward_path_buffer ms) in Hstore
          by (destruct ms; reflexivity).
        split; [|split].
        - exists (MSG_354 :: l). split.
          + rewrite Hl, <- app_assoc. reflexivity.
          + constructor; [reflexivity | exact Hwf].
        - intro E. contradiction.
        - destruct Hstore as [E | E]; [left; exact E | right; split; [reflexivity | exact E]]. }
      pose proof (data_loop_step input ms1 Hs1) as G.
      destruct (data_loop send_ok input ms1) as [r0|f m|m|]; cbn in G |- *; auto.
      destruct G as [G1 G2]. split; [apply Hlift, G1 | exact G2].
    + rewrite do_data_sequence by assumption. cbn.
      split; [apply (command_step_replied ms MSG_503_WRONG); reflexivity | lia].
  - rewrite do_data_syntax by assumption. cbn.
    split; [apply (command_step_replied ms MSG_501_PARAMS); reflexivity | lia].
Qed.

Lemma run_command_step (command : string) (rest : list read_event)
    (ms : smtp_state) :
  outcome_holds
    (fun r => command_step ms (snd (fst r))
              /\ (List.length (snd r) <= List.length rest)%nat)
    (command_step ms)
    (run_command send_ok is_valid_user nodename command rest ms).
Proof.
  unfold run_command.
  destruct (strcasecmp command "QUIT").
  { cbn. split; [apply (command_step_replied ms MSG_221); reflexivity | lia]. }
  destruct (strcasecmp command "HELO" || strcasecmp command "EHLO")%bool.
  { pose proof (do_helo_step ms) as G.
    destruct (do_helo send_ok nodename ms) as [n ms1]. cbn in *. split; [exact G | lia]. }
  destruct (strcasecmp command "MAIL").
  { pose proof (do_mail_step ms) as G.
    destruct (do_mail send_ok ms) as [[n ms1]| | |]; cbn in *;
      try (split; [exact G | lia]); auto. }
  destruct (strcasecmp command "RCPT").
  { pose proof (do_rcpt_step ms) as G.
    destruct (do_rcpt send_ok is_valid_user ms) as [[n ms1]| | |]; cbn in *;
      try (split; [exact G | lia]); auto. }
  destruct (strcasecmp command "DATA").
  { apply do_data_step. }
  destruct (strcasecmp command "RSET").
  { pose proof (do_rset_step ms) as G.
    destruct (do_rset send_ok ms) as [n ms1]. cbn in *. split; [exact G | lia]. }
  destruct (strcasecmp command "NOOP").
  { cbn. split; [apply (command_step_replied ms MSG_250_NOOP); reflexivity | lia]. }
  destruct (strcasecmp command "VRFY").
  { pose proof (do_vrfy_step ms) as G.
    destruct (do_vrfy send_ok is_valid_user ms) as [[n ms1]| | |]; cbn in *;
      try (split; [exact G | lia]); auto. }
  destruct (strcasecmp command "EXPN" || strcasecmp command "HELP")%bool.
  { cbn. split; [apply (command_step_replied ms MSG_502); reflexivity | lia]. }
  cbn. split; [apply (command_step_replied ms MSG_500); reflexivity | lia].
Qed.

Lemma client_round_step (ev : read_event) (rest : list read_event)
    (ms : smtp_state) :
  outcome_holds
    (fun r => command_step ms (snd (fst r))
              /\ (List.length (snd r) <= List.length rest)%nat)
    (command_step ms)
    (client_round send_ok is_valid_user nodename ev rest ms).
Proof.
  unfold client_round.
  destruct (nb_read_line ev (recvbuf ms)) as [r buf].
  rewrite size_t_test_always_true.
  assert (Hfrom : forall ms1 ms',
             ms1 = set_recvbuf buf ms \/ (exists b w, ms1 = set_words w (set_recvbuf b ms)) ->
             command_step ms1 ms' -> command_step ms ms').
  { intros ms1 ms' [-> | (b & w & ->)];
      apply command_step_from; destruct ms; reflexivity. }
  destruct (read_recvbuf _ _) as [f|c].
  { cbn. eapply Hfrom; [left; reflexivity | apply command_step_refl]. }
  destruct (negb (Ascii.eqb c LF)).
  { change (outcome_holds
              (fun r0 : bool * smtp_state * list read_event =>
                 command_step ms (snd (fst r0))
                 /\ (List.length (snd r0) <= List.length rest)%nat)
              (command_step ms)
              (Ret (true, replied (set_recvbuf buf ms) MSG_500, rest))).
    cbn [outcome_holds fst snd]. split; [|lia].
    eapply Hfrom; [left; reflexivity|].
    apply (command_step_replied _ MSG_500). reflexivity. }
  destruct (strlen _ <? to_size_t r).
  { change (outcome_holds
              (fun r0 : bool * smtp_state * list read_event =>
                 command_step ms (snd (fst r0))
                 /\ (List.length (snd r0) <= List.length rest)%nat)
              (command_step ms)
              (Ret (true, replied (set_recvbuf buf ms) MSG_500, rest))).
    cbn [outcome_holds fst snd]. split; [|lia].
    eapply Hfrom; [left; reflexivity|].
    apply (command_step_replied _ MSG_500). reflexivity. }
  destruct (strip_trailing _ _) as [f|[buf' len']].
  { cbn. eapply Hfrom; [left; reflexivity | apply command_step_refl]. }
  set (ms2 := set_words _ _).
  assert (H2 : forall ms', command_step ms2 ms' -> command_step ms ms').
  { intros ms'. apply command_step_from; destruct ms; reflexivity. }
  destruct (nth_error (words ms2) 0) as [command|].
  2:{ cbn. apply H2, command_step_refl. }
  pose proof (run_command_step command rest ms2) as G.
  destruct (run_command _ _ _ command rest ms2) as [[[n ms3] rest3]| | |];
    cbn [outcome_holds fst snd] in *; exact G.
Qed.

End Steps.

Lemma trace_ok_step (nodename : string) (rp0 fp0 : user_list_t)
    (md0 : option string) (ms ms' : smtp_state) :
  buffers_consistent rp0 fp0 md0 ms ->
  trace_ok nodename ms -> command_step ms ms' -> trace_ok nodename ms'.
Proof.
  intros Hb (Hwf & Hhd & Hstore) ((l & Hl & Hwl) & _ & Hms).
  unfold trace_ok. rewrite Hl. split; [|split].
  - apply Forall_app. split; assumption.
  - destruct (sent ms) as [|m t]; [discriminate Hhd | exact Hhd].
  - destruct Hms as [-> | (Hst & body & ->)]; [exact Hstore|].
    apply Forall_app. split; [exact Hstore|].
    constructor; [|constructor]. cbn [snd].
    unfold buffers_consistent in Hb. rewrite Hst in Hb. apply Hb.
Qed.

Lemma client_loop_trace
    (send_ok : nat -> bool) (is_valid_user : string -> bool) (nodename : string)
    (rp0 fp0 : user_list_t) (md0 : option string) :
  forall (fuel : nat) (input : list read_event) (ms : smtp_state),
    (List.length input < fuel)%nat ->
    buffers_consistent rp0 fp0 md0 ms ->
    trace_ok nodename ms ->
    outcome_holds (trace_ok nodename) (trace_ok nodename)
      (client_loop send_ok is_valid_user nodename fuel input ms).
Proof.
  induction fuel as [|fuel IH]; intros input ms Hfuel Hb Ht; [lia|].
  cbn [client_loop]. destruct input as [|ev rest]; [exact Ht|].
  pose proof (client_round_consistent send_ok is_valid_user nodename
                rp0 fp0 md0 ev rest ms Hb) as G.
  pose proof (client_round_step send_ok is_valid_user nodename ev rest ms) as S.
  destruct (client_round _ _ _ ev rest ms) as [[[b ms1] rest1]|f ms1|ms1|];
    cbn [outcome_holds fst snd] in *.
  - destruct G as [G1 G2]. destruct S as [S1 _].
    pose proof (trace_ok_step _ _ _ _ _ _ Hb Ht S1) as Ht1.
    destruct b; [exact Ht1|].
    apply IH; [cbn [List.length] in Hfuel; lia | exact G1 | exact Ht1].
  - exact (trace_ok_step _ _ _ _ _ _ Hb Ht S).
  - exact (trace_ok_step _ _ _ _ _ _ Hb Ht S).
  - exact G.
Qed.

(** X10.  On every input, the session stops in a state (it never runs out
    of rounds) whose reply trace begins with the 220 greeting and holds
    only well-formed replies (three digits, a space, text, CRLF), and in
    which every message handed to the mail store is addressed to at least
    one recipient. *)
Theorem session_trace_well_formed :
  forall (send_ok : nat -> bool) (is_valid_user : string -> bool)
         (nodename : string) (rp0 fp0 : user_list_t) (md0 : option string)
         (input : list read_event),
    exists ms,
      final_state (handle_client send_ok is_valid_user nodename rp0 fp0 md0 input)
      = Some ms
      /\ well_formed_replies (sent ms)
      /\ hd_error (sent ms) = Some (MSG_220 nodename)
      /\ Forall (fun e : string * user_list_t => snd e <> []) (mailstore ms).
Proof.
  intros send_ok ivu nodename rp0 fp0 md0 input.
  assert (H : outcome_holds (trace_ok nodename) (trace_ok nodename)
                (handle_client send_ok ivu nodename rp0 fp0 md0 input)).
  { unfold handle_client, send_formatted, initial_state. cbn [sent List.length].
    assert (Ht : trace_ok nodename
                   (set_sent ([] ++ [MSG_220 nodename])
                      (mk_smtp_state [] [] Init rp0 fp0 md0 [] []))).
    { unfold trace_ok. cbn. repeat split; [|constructor].
      repeat constructor. apply MSG_220_well_formed. }
    destruct (_ <=? 0); [exact Ht|].
    apply (client_loop_trace send_ok ivu nodename rp0 fp0 md0);
      [lia | cbn; auto | exact Ht]. }
  destruct (handle_client send_ok ivu nodename rp0 fp0 md0 input)
    as [ms|f ms|ms|]; cbn in H; try contradiction;
    exists ms; (split; [reflexivity | exact H]).
Qed.

Lemma client_loop_leaves_init
    (send_ok : nat -> bool) (is_valid_user : string -> bool) (nodename : string) :
  forall (fuel : nat) (input : list read_event) (ms : smtp_state),
    (List.length input < fuel)%nat ->
    state ms <> Init ->
    outcome_holds (fun ms' => state ms' <> Init) (fun ms' => state ms' <> Init)
      (client_loop send_ok is_valid_user nodename fuel input ms).
Proof.
  induction fuel as [|fuel IH]; intros input ms Hfuel Hst; [lia|].
  cbn [client_loop]. destruct input as [|ev rest]; [exact Hst|].
  pose proof (client_round_step send_ok is_valid_user nodename ev rest ms) as S.
  destruct (client_round _ _ _ ev rest ms) as [[[b ms1] rest1]|f ms1|ms1|];
    cbn [outcome_holds fst snd] in *.
  - destruct S as [(_ & Hini & _) Hlen].
    assert (Hst1 : state ms1 <> Init) by (intro E; apply Hst, Hini, E).
    destruct b; [exact Hst1|].
    apply IH; [cbn [List.length] in Hfuel; lia | exact Hst1].
  - destruct S as (_ & Hini & _). intro E. apply Hst, Hini, E.
  - destruct S as (_ & Hini & _). intro E. apply Hst, Hini, E.
  - exact S.
Qed.

(** X11.  Init is never entered again.  From a state other than Init the
    command loop, whatever it reads (RSET and a finished or interrupted
    DATA included), stops in a state other than Init; so HELO/EHLO, which
    needs Init, succeeds at most once in a session. *)
Theorem session_never_returns_to_init :
  forall (send_ok : nat -> bool) (is_valid_user : string -> bool)
         (nodename : string) (fuel : nat) (input : list read_event)
         (ms : smtp_state),
    (List.length input < fuel)%nat ->
    state ms <> Init ->
    exists ms',
      final_state (client_loop send_ok is_valid_user nodename fuel input ms)
      = Some ms'
      /\ state ms' <> Init.
Proof.
  intros send_ok ivu nodename fuel input ms Hfuel Hst.
  pose proof (client_loop_leaves_init send_ok ivu nodename fuel input ms Hfuel Hst)
    as H.
  destruct (client_loop send_ok ivu nodename fuel input ms) as [m|f m|m|];
    cbn in H; try contradiction; exists m; (split; [reflexivity | exact H]).
Qed.

Lemma session_never_returns_to_init_witness :
  exists ms',
    final_state
      (client_loop all_sends all_users "host" 3
         [text_line "RSET"; text_line "HELO again.example.org"]
         rset_with_recipient)
    = Some ms'
    /\ state ms' <> Init.
Proof.
  apply (session_never_returns_to_init all_sends all_users "host" 3
           [text_line "RSET"; text_line "HELO again.example.org"]
           rset_with_recipient).
  - cbn. lia.
  - discriminate.
Defined.

(** ** A whole transaction *)

Lemma list_ascii_of_string_app (a b : string) :
  list_ascii_of_string (a ++ b) = (list_ascii_of_string a ++ list_ascii_of_string b)%list.
Proof.
  induction a as [|c a IH]; [reflexivity|].
  cbn [append list_ascii_of_string app]. now rewrite IH.
Qed.

Lemma text_line_shape (s : string) :
  text_line s = Line (list_ascii_of_string s ++ [CR] ++ [LF]).
Proof. unfold text_line. rewrite list_ascii_of_string_app. reflexivity. Qed.

Lemma plain_app (a b : string) : plain a -> plain b -> plain (a ++ b).
Proof.
  unfold plain. intros Ha Hb. rewrite list_ascii_of_string_app.
  apply Forall_app. split; assumption.
Qed.

Lemma split_from_plain (s : string) :
  forall (w rest : string),
    plain s -> split_from w (s ++ rest) = split_from (w ++ s) rest.
Proof.
  induction s as [|c s IH]; intros w rest Hs.
  - cbn [append]. now rewrite append_empty_r.
  - unfold plain in Hs. cbn [list_ascii_of_string] in Hs.
    inversion Hs as [|? ? [Hc _] Hs']; subst.
    cbn [append split_from]. rewrite Hc.
    rewrite IH by exact Hs'. rewrite append_assoc. reflexivity.
Qed.

Lemma split_one_word (w : string) :
  plain w -> w <> EmptyString -> split w = [w].
Proof.
  intros Hw Hne. unfold split.
  rewrite <- (append_empty_r w) at 1. rewrite split_from_plain by exact Hw.
  cbn [append split_from]. destruct w; [congruence | reflexivity].
Qed.

Lemma split_two_words (w1 w2 : string) :
  plain w1 -> plain w2 -> w1 <> EmptyString -> w2 <> EmptyString ->
  split (w1 ++ String SP w2) = [w1; w2].
Proof.
  intros H1 H2 N1 N2. unfold split.
  rewrite split_from_plain by exact H1.
  cbn [append split_from]. change (isspace SP) with true. cbv iota.
  fold (split w2). rewrite split_one_word by assumption.
  destruct w1; [congruence | reflexivity].
Qed.

Lemma plain_last (w : string) :
  plain w -> w <> EmptyString ->
  exists t c, list_ascii_of_string w = (t ++ [c])%list /\ isspace c = false.
Proof.
  intros Hw Hne.
  destruct (exists_last (l := list_ascii_of_string w)) as (t & c & E).
  - destruct w; [congruence | discriminate].
  - exists t, c. split; [exact E|].
    unfold plain in Hw. rewrite E in Hw. apply Forall_app in Hw.
    destruct Hw as [_ Hc]. inversion Hc as [|? ? [H _] _]. exact H.
Qed.

Lemma plain_no_NUL (w : string) : plain w -> ~ In NUL (list_ascii_of_string w).
Proof.
  unfold plain. intros Hw Hin. rewrite Forall_forall in Hw.
  destruct (Hw NUL Hin) as [_ H]. apply H. reflexivity.
Qed.

Lemma length_list_of_string (w : string) :
  List.length (list_ascii_of_string w) = String.length w.
Proof. induction w as [|c w IH]; [reflexivity|]. cbn. now rewrite IH. Qed.

Lemma clean_two_words (w1 w2 : string) :
  plain w1 -> plain w2 -> w2 <> EmptyString ->
  Z.of_nat (String.length w1 + String.length w2) <= MAX_LINE_LENGTH - 3 ->
  clean_line (list_ascii_of_string (w1 ++ String SP w2)) ([CR] ++ [LF]).
Proof.
  intros H1 H2 N2 Hlen.
  rewrite list_ascii_of_string_app. cbn [list_ascii_of_string].
  destruct (plain_last w2 H2 N2) as (t & c & E & Hc).
  repeat split.
  - exists (list_ascii_of_string w1 ++ SP :: t)%list, c. split; [|exact Hc].
    rewrite E, <- app_assoc. reflexivity.
  - intro Hin. apply in_app_or in Hin. destruct Hin as [Hin | [Hin | Hin]].
    + exact (plain_no_NUL w1 H1 Hin).
    + discriminate Hin.
    + exact (plain_no_NUL w2 H2 Hin).
  - repeat constructor.
  - rewrite !length_app. cbn [List.length app].
    rewrite !length_list_of_string. unfold MAX_LINE_LENGTH in *. lia.
Qed.

(** One round of the command loop on a line of two plain words. *)
Lemma client_round_two_words
    (send_ok : nat -> bool) (is_valid_user : string -> bool) (nodename : string)
    (w1 w2 : string) (rest : list read_event) (ms : smtp_state) :
  plain w1 -> plain w2 -> w1 <> EmptyString -> w2 <> EmptyString ->
  Z.of_nat (String.length w1 + String.length w2) <= MAX_LINE_LENGTH - 3 ->
  exists rb,
    client_round send_ok is_valid_user nodename
      (text_line (w1 ++ String SP w2)) rest ms
    = after_command
        (run_command send_ok is_valid_user nodename w1 rest
           (set_words [w1; w2] (set_recvbuf rb ms))).
Proof.
  intros H1 H2 N1 N2 Hlen.
  pose proof (clean_two_words w1 w2 H1 H2 N2 Hlen) as Hclean.
  rewrite text_line_shape, client_round_clean by exact Hclean.
  unfold with_command_line.
  rewrite string_of_list_ascii_of_string, split_two_words by assumption.
  cbn [nth_error]. eexists. reflexivity.
Qed.

Lemma client_round_data_word
    (send_ok : nat -> bool) (is_valid_user : string -> bool) (nodename : string)
    (rest : list read_event) (ms : smtp_state) :
  exists rb,
    client_round send_ok is_valid_user nodename (text_line "DATA") rest ms
    = after_command
        (do_data send_ok rest (set_words ["DATA"] (set_recvbuf rb ms))).
Proof.
  assert (Hclean : clean_line (list_ascii_of_string "DATA") ([CR] ++ [LF])).
  { repeat split.
    - exists (list_ascii_of_string "DAT"), "A"%char. split; reflexivity.
    - vm_compute. intuition discriminate.
    - repeat constructor.
    - vm_compute. discriminate. }
  rewrite text_line_shape, client_round_clean by exact Hclean.
  unfold with_command_line. eexists. reflexivity.
Qed.

Section Rounds.

Variable send_ok : nat -> bool.
Variable is_valid_user : string -> bool.
Variable nodename : string.

Lemma client_loop_continue (fuel : nat) (ev : read_event)
    (rest rest1 : list read_event) (ms ms1 : smtp_state) :
  client_round send_ok is_valid_user nodename ev rest ms = Ret (false, ms1, rest1) ->
  client_loop send_ok is_valid_user nodename (S fuel) (ev :: rest) ms
  = client_loop send_ok is_valid_user nodename fuel rest1 ms1.
Proof. intro H. cbn [client_loop]. rewrite H. reflexivity. Qed.

Lemma round_helo (host : string) (rest : list read_event)
    (rb : list ascii) (wds : list string) (rp fp : user_list_t)
    (md : option string) (snt : list string)
    (store : list (string * user_list_t)) :
  plain host -> host <> EmptyString ->
  Z.of_nat (String.length host) <= 1000 ->
  exists rb1,
    client_round send_ok is_valid_user nodename (text_line ("HELO " ++ host)) rest
      (mk_smtp_state rb wds Init rp fp md snt store)
    = Ret (false,
           mk_smtp_state rb1 ["HELO"; host] Executed_Helo [] [] None
             (snt ++ [MSG_250_HELO nodename])%list store,
           rest).
Proof.
  intros Hh Nh Lh.
  change ("HELO " ++ host)%string with ("HELO" ++ String SP host)%string.
  destruct (client_round_two_words send_ok is_valid_user nodename "HELO" host rest
              (mk_smtp_state rb wds Init rp fp md snt store)) as (rb1 & ->);
    try assumption;
    [repeat constructor; discriminate | discriminate
     | cbn [String.length]; unfold MAX_LINE_LENGTH; lia |].
  exists rb1. reflexivity.
Qed.

Lemma round_mail (sender : string) (rest : list read_event)
    (rb : list ascii) (wds : list string) (rp fp : user_list_t)
    (md : option string) (snt : list string)
    (store : list (string * user_list_t)) :
  plain sender -> Z.of_nat (String.length sender) <= 1000 ->
  exists rb1,
    client_round send_ok is_valid_user nodename
      (text_line ("MAIL FROM:<" ++ sender ++ ">")) rest
      (mk_smtp_state rb wds Executed_Helo rp fp md snt store)
    = Ret (false,
           mk_smtp_state rb1 ["MAIL"; ("FROM:<" ++ sender ++ ">")%string]
             Mail_transaction_open [sender] [] None
             (snt ++ [MSG_250_MAIL])%list store,
           rest).
Proof.
  intros Ha La.
  change ("MAIL FROM:<" ++ sender ++ ">")%string
    with ("MAIL" ++ String SP ("FROM:<" ++ sender ++ ">"))%string.
  destruct (client_round_two_words send_ok is_valid_user nodename
              "MAIL" ("FROM:<" ++ sender ++ ">") rest
              (mk_smtp_state rb wds Executed_Helo rp fp md snt store))
    as (rb1 & ->).
  { repeat constructor; discriminate. }
  { apply (plain_app "FROM:<"); [repeat constructor; discriminate|].
    apply plain_app; [exact Ha | repeat constructor; discriminate]. }
  { discriminate. }
  { discriminate. }
  { rewrite !length_append. cbn [String.length]. unfold MAX_LINE_LENGTH. lia. }
  exists rb1.
  rewrite (run_command_verb _ _ _ "MAIL" MAIL) by reflexivity. cbn [handler].
  rewrite (do_mail_success send_ok _ "MAIL" "FROM:<" sender); reflexivity.
Qed.

Lemma round_rcpt (recipient : string) (rest : list read_event)
    (rb : list ascii) (wds : list string) (rp : user_list_t)
    (snt : list string) (store : list (string * user_list_t)) :
  plain recipient -> Z.of_nat (String.length recipient) <= 1000 ->
  is_valid_user recipient = true ->
  exists rb1,
    client_round send_ok is_valid_user nodename
      (text_line ("RCPT TO:<" ++ recipient ++ ">")) rest
      (mk_smtp_state rb wds Mail_transaction_open rp [] None snt store)
    = Ret (false,
           mk_smtp_state rb1 ["RCPT"; ("TO:<" ++ recipient ++ ">")%string]
             Recipient_provided rp [recipient] None
             (snt ++ [MSG_250_RCPT])%list store,
           rest).
Proof.
  intros Hr Lr Hv.
  change ("RCPT TO:<" ++ recipient ++ ">")%string
    with ("RCPT" ++ String SP ("TO:<" ++ recipient ++ ">"))%string.
  destruct (client_round_two_words send_ok is_valid_user nodename
              "RCPT" ("TO:<" ++ recipient ++ ">") rest
              (mk_smtp_state rb wds Mail_transaction_open rp [] None snt store))
    as (rb1 & ->).
  { repeat constructor; discriminate. }
  { apply (plain_app "TO:<"); [repeat constructor; discriminate|].
    apply plain_app; [exact Hr | repeat constructor; discriminate]. }
  { discriminate. }
  { discriminate. }
  { rewrite !length_append. cbn [String.length]. unfold MAX_LINE_LENGTH. lia. }
  exists rb1.
  rewrite (run_command_verb _ _ _ "RCPT" RCPT) by reflexivity. cbn [handler].
  rewrite (do_rcpt_success send_ok is_valid_user _ "RCPT" "TO:<" recipient);
    try reflexivity.
  rewrite Hv. reflexivity.
Qed.

Lemma round_data (lines : list (list ascii * list ascii)) (ws0 : list ascii)
    (rest : list read_event) (ms : smtp_state) :
  state ms = Recipient_provided ->
  Forall (fun l => clean_line (fst l) (snd l) /\ fst l <> ["."%char]) lines ->
  clean_line ["."%char] ws0 ->
  exists ms',
    client_round send_ok is_valid_user nodename (text_line "DATA")
      (map body_line lines ++ Line ("."%char :: ws0) :: rest) ms
    = Ret (false, ms', rest)
    /\ mailstore ms'
       = (mailstore ms
            ++ [(file_contents (accumulate (mail_data_buffer ms) lines),
                 forward_path_buffer ms)])%list
    /\ reverse_path_buffer ms' = []
    /\ forward_path_buffer ms' = []
    /\ mail_data_buffer ms' = None
    /\ state ms' = Data_input_done
    /\ sent ms' = (sent ms ++ [MSG_354; MSG_250_DATA])%list.
Proof.
  intros Hst Hall Hdot.
  destruct (client_round_data_word send_ok is_valid_user nodename
              (map body_line lines ++ Line ("."%char :: ws0) :: rest) ms)
    as (rb1 & ->).
  destruct (do_data_accumulates send_ok lines ws0 rest
              (set_words ["DATA"] (set_recvbuf rb1 ms)))
    as (ms' & Hrun & H); try assumption.
  - reflexivity.
  - exists ms'. rewrite Hrun. split; [reflexivity | exact H].
Qed.

(** A HELO, MAIL, RCPT, DATA exchange with one accepted recipient, the
    body and its terminator, run by the command loop from Init. *)
Lemma client_loop_transaction
    (host sender recipient : string) (lines : list (list ascii * list ascii))
    (ws0 : list ascii) (rest : list read_event) (ms : smtp_state) (fuel : nat) :
  state ms = Init ->
  plain host -> host <> EmptyString -> plain sender -> plain recipient ->
  Z.of_nat (String.length host) <= 1000 ->
  Z.of_nat (String.length sender) <= 1000 ->
  Z.of_nat (String.length recipient) <= 1000 ->
  is_valid_user recipient = true ->
  Forall (fun l => clean_line (fst l) (snd l) /\ fst l <> ["."%char]) lines ->
  clean_line ["."%char] ws0 ->
  exists ms',
    client_loop send_ok is_valid_user nodename (4 + fuel)
      (transaction_commands host sender recipient
         ++ map body_line lines ++ Line ("."%char :: ws0) :: rest) ms
    = client_loop send_ok is_valid_user nodename fuel rest ms'
    /\ mailstore ms'
       = (mailstore ms ++ [(file_contents (accumulate None lines), [recipient])])%list
    /\ state ms' = Data_input_done
    /\ reverse_path_buffer ms' = []
    /\ forward_path_buffer ms' = []
    /\ mail_data_buffer ms' = None
    /\ sent ms'
       = (sent ms ++ [MSG_250_HELO nodename; MSG_250_MAIL; MSG_250_RCPT;
                      MSG_354; MSG_250_DATA])%list.
Proof.
  intros Hst Hh Nh Ha Hr Lh La Lr Hv Hall Hdot.
  destruct ms as [rb wds st rp fp md snt store]. cbn [state] in Hst. subst st.
  unfold transaction_commands. cbn [app Nat.add].
  destruct (round_helo host
              (text_line ("MAIL FROM:<" ++ sender ++ ">")
                 :: text_line ("RCPT TO:<" ++ recipient ++ ">")
                 :: text_line "DATA"
                 :: map body_line lines ++ Line ("."%char :: ws0) :: rest)
              rb wds rp fp md snt store Hh Nh Lh) as (rb1 & H1).
  rewrite (client_loop_continue _ _ _ _ _ _ H1).
  destruct (round_mail sender
              (text_line ("RCPT TO:<" ++ recipient ++ ">")
                 :: text_line "DATA"
                 :: map body_line lines ++ Line ("."%char :: ws0) :: rest)
              rb1 ["HELO"; host] [] [] None
              (snt ++ [MSG_250_HELO nodename])%list store Ha La) as (rb2 & H2).
  rewrite (client_loop_continue _ _ _ _ _ _ H2).
  destruct (round_rcpt recipient
              (text_line "DATA"
                 :: map body_line lines ++ Line ("."%char :: ws0) :: rest)
              rb2 ["MAIL"; ("FROM:<" ++ sender ++ ">")%string] [sender]
              ((snt ++ [MSG_250_HELO nodename]) ++ [MSG_250_MAIL])%list store
              Hr Lr Hv) as (rb3 & H3).
  rewrite (client_loop_continue _ _ _ _ _ _ H3).
  destruct (round_data lines ws0 rest
              (mk_smtp_state rb3 ["RCPT"; ("TO:<" ++ recipient ++ ">")%string]
                 Recipient_provided [sender] [recipient] None
                 (((snt ++ [MSG_250_HELO nodename]) ++ [MSG_250_MAIL])
                    ++ [MSG_250_RCPT])%list store)
              eq_refl Hall Hdot)
    as (ms' & H4 & Hstore & Hrp & Hfp & Hmd & Hstate & Hsent).
  rewrite (client_loop_continue _ _ _ _ _ _ H4).
  exists ms'. split; [reflexivity|].
  cbn [mailstore forward_path_buffer mail_data_buffer sent] in *.
  repeat split; try assumption.
  rewrite Hsent, <- !app_assoc. reflexivity.
Qed.

End Rounds.

(** X12.  A whole transaction.  From Init, the lines [HELO host],
    [MAIL FROM:<sender>], [RCPT TO:<recipient>] and [DATA] (plain words,
    the recipient accepted by the User Directory), then body lines each
    of which has text (at least one byte, no NUL byte, the last byte of
    the text not white space, the text not a lone dot) before its
    trailing white space, so no blank line among them, and a terminator
    line, take four rounds of the command loop, are
    answered 250, 250, 250, 354 and 250, and hand to the mail store
    exactly one message: the accumulated body, addressed to that
    recipient.  The session is then in Data_input_done with its buffers
    cleared, and the loop goes on with the input that follows. *)
Theorem transaction_delivers_one_message :
  forall (send_ok : nat -> bool) (is_valid_user : string -> bool)
         (nodename host sender recipient : string)
         (lines : list (list ascii * list ascii)) (ws0 : list ascii)
         (rest : list read_event) (ms : smtp_state) (fuel : nat),
    state ms = Init ->
    plain host -> host <> EmptyString -> plain sender -> plain recipient ->
    Z.of_nat (String.length host) <= 1000 ->
    Z.of_nat (String.length sender) <= 1000 ->
    Z.of_nat (String.length recipient) <= 1000 ->
    is_valid_user recipient = true ->
    Forall (fun l => clean_line (fst l) (snd l) /\ fst l <> ["."%char]) lines ->
    clean_line ["."%char] ws0 ->
    exists ms',
      client_loop send_ok is_valid_user nodename (4 + fuel)
        (transaction_commands host sender recipient
           ++ map body_line lines ++ Line ("."%char :: ws0) :: rest) ms
      = client_loop send_ok is_valid_user nodename fuel rest ms'
      /\ mailstore ms'
         = (mailstore ms
              ++ [(file_contents (accumulate None lines), [recipient])])%list
      /\ state ms' = Data_input_done
      /\ reverse_path_buffer ms' = []
      /\ forward_path_buffer ms' = []
      /\ mail_data_buffer ms' = None
      /\ sent ms'
         = (sent ms ++ [MSG_250_HELO nodename; MSG_250_MAIL; MSG_250_RCPT;
                        MSG_354; MSG_250_DATA])%list.
Proof.
  intros send_ok ivu nodename host sender recipient lines ws0 rest ms fuel.
  apply client_loop_transaction.
Qed.

Lemma transaction_delivers_one_message_witness :
  exists ms',
    client_loop all_sends all_users "host" (4 + 1)
      (transaction_commands "client.example.org" "alice@example.org"
         "bob@example.org"
         ++ map body_line sample_body ++ Line ("."%char :: [CR; LF]) :: [])
      helo_in_init
    = client_loop all_sends all_users "host" 1 [] ms'
    /\ mailstore ms'
       = [((".hidden" ++ CRLF ++ ".dots" ++ CRLF ++ "text" ++ CRLF)%string,
           ["bob@example.org"])]
    /\ state ms' = Data_input_done.
Proof.
  destruct (transaction_delivers_one_message all_sends all_users "host"
              "client.example.org" "alice@example.org" "bob@example.org"
              sample_body [CR; LF] [] helo_in_init 1)
    as (ms' & Hrun & Hstore & Hst & _).
  - reflexivity.
  - repeat constructor; discriminate.
  - discriminate.
  - repeat constructor; discriminate.
  - repeat constructor; discriminate.
  - cbn. lia.
  - cbn. lia.
  - cbn. lia.
  - reflexivity.
  - repeat constructor; cbn [fst snd]; try discriminate;
      try (vm_compute; intuition discriminate).
    + exists (list_ascii_of_string ".hidde"), "n"%char. split; reflexivity.
    + exists (list_ascii_of_string "..dot"), "s"%char. split; reflexivity.
    + exists (list_ascii_of_string "tex"), "t"%char. split; reflexivity.
  - repeat split.
    + exists [], "."%char. split; reflexivity.
    + vm_compute. intuition discriminate.
    + repeat constructor.
    + vm_compute. discriminate.
  - exists ms'. split; [exact Hrun|]. split; [exact Hstore | exact Hst].
Defined.

(** ** The buffers after HELO *)




